(** * magicStatTraker_UI: statistics deltas, result resolution and reconciliation

    A shallow embedding of the stat-tracking core of the Angular front end:
    - [MatchHistoryComponent] (match.service.ts): result resolution, delta
      building / inversion / merging and the clamped rollback payloads;
    - [CreateGameComponent] (decks.component.ts): the apply path, its delta
      maps, update payloads and the favorite-deck aggregation;
    - [PlayersComponent] and [DecksComponent]: the derived win percentage.

    Modelling conventions.
    - A loosely typed record ([Record<string, unknown>]) is a finite map from
      field names to JavaScript values; a missing field and a field holding
      [undefined] read alike.  Records arrive as JSON, so a number in a
      record is always finite; the model covers the integer-valued ones
      (identifiers and counters, within the safe-integer range), on which
      [+], unary [-] and [Math.max] are exact.
    - Strings are modelled by their ASCII characters: [trim] strips the ASCII
      white space, [toLowerCase] folds [A-Z].
    - A JavaScript [Map] is an insertion-ordered association list.
    - HTTP calls are not run: a reconciliation pass is the list of update
      requests it hands to the store, given the snapshots it fetched.

    Layout: the embedding of each component, then the vocabulary and the
    scenarios the statements use, then the properties. *)

From Stdlib Require Import ZArith QArith Strings.String Strings.Ascii List Bool Lia.
From Stdlib Require Import Numbers.DecimalString.
From stdpp Require Import base option gmap strings list.

Local Open Scope string_scope.
Local Open Scope Z_scope.

(* ===================================================================== *)
(** ** JavaScript values and the built-ins the code relies on *)
(* ===================================================================== *)

Module Js.

Inductive value : Type :=
| VUndefined
| VNull
| VBool (b : bool)
| VNum (n : Z)
| VStr (s : string).

#[global] Instance value_eq_dec : EqDecision value.
Proof. solve_decision. Defined.

(** [record[key]]: an absent field reads as [undefined]. *)
Definition get (r : gmap string value) (k : string) : value :=
  default VUndefined (r !! k).

(** [a ?? b] *)
Definition nullish (v : value) : bool :=
  match v with VUndefined | VNull => true | _ => false end.

Definition coalesce (a b : value) : value := if nullish a then b else a.

(** ToBoolean *)
Definition truthy (v : value) : bool :=
  match v with
  | VUndefined | VNull => false
  | VBool b => b
  | VNum n => negb (n =? 0)
  | VStr s => negb (String.eqb s "")
  end.

(** *** Strings *)

Definition isWhiteSpace (c : ascii) : bool :=
  let n := nat_of_ascii c in
  (Nat.eqb n 32 || (Nat.leb 9 n && Nat.leb n 13))%bool.

Fixpoint trimStart (s : string) : string :=
  match s with
  | EmptyString => EmptyString
  | String c s' => if isWhiteSpace c then trimStart s' else s
  end.

Fixpoint trimEnd (s : string) : string :=
  match s with
  | EmptyString => EmptyString
  | String c s' =>
      let t := trimEnd s' in
      if (isWhiteSpace c && String.eqb t "")%bool then EmptyString
      else String c t
  end.

Definition trim (s : string) : string := trimEnd (trimStart s).

Definition lowerChar (c : ascii) : ascii :=
  let n := nat_of_ascii c in
  if (Nat.leb 65 n && Nat.leb n 90)%bool then ascii_of_nat (n + 32) else c.

Fixpoint toLowerCase (s : string) : string :=
  match s with
  | EmptyString => EmptyString
  | String c s' => String (lowerChar c) (toLowerCase s')
  end.

(** [s.includes(pat)] *)
Fixpoint includes (s pat : string) : bool :=
  (String.prefix pat s
   || match s with
      | EmptyString => false
      | String _ s' => includes s' pat
      end)%bool.

(** [s.replace(/[^a-z0-9]+/g, '')] keeps exactly the characters of
    [a-z0-9]. *)
Definition isLowerAlnum (c : ascii) : bool :=
  let n := nat_of_ascii c in
  ((Nat.leb 97 n && Nat.leb n 122) || (Nat.leb 48 n && Nat.leb n 57))%bool.

Fixpoint stripNonAlnum (s : string) : string :=
  match s with
  | EmptyString => EmptyString
  | String c s' =>
      if isLowerAlnum c then String c (stripNonAlnum s') else stripNonAlnum s'
  end.

(** *** Numbers *)

Definition digitOf (c : ascii) : option Z :=
  let n := nat_of_ascii c in
  if (Nat.leb 48 n && Nat.leb n 57)%bool then Some (Z.of_nat (n - 48)) else None.

Fixpoint parseDigits (s : string) (acc : Z) : option Z :=
  match s with
  | EmptyString => Some acc
  | String c s' =>
      match digitOf c with
      | Some d => parseDigits s' (10 * acc + d)
      | None => None
      end
  end.

Definition parseUnsigned (s : string) : option Z :=
  match s with
  | EmptyString => None
  | _ => parseDigits s 0
  end.

(** [Number(s)] on a string, [None] standing for [NaN]: white space is
    trimmed, the empty string is 0, and a signed decimal integer literal is
    its value.  (Fractions, exponents and radix prefixes are outside the
    integer model.) *)
Definition numberOfString (s : string) : option Z :=
  match trim s with
  | EmptyString => Some 0
  | String "+" r => parseUnsigned r
  | String "-" r => Z.opp <$> parseUnsigned r
  | t => parseUnsigned t
  end.

(** [Number(v)] *)
Definition toNumber (v : value) : option Z :=
  match v with
  | VUndefined => None
  | VNull => Some 0
  | VBool b => Some (if b then 1 else 0)
  | VNum n => Some n
  | VStr s => numberOfString s
  end.

Definition stringOfZ (n : Z) : string :=
  NilZero.string_of_int (Z.to_int n).

(** [String(v)] *)
Definition toString (v : value) : string :=
  match v with
  | VUndefined => "undefined"
  | VNull => "null"
  | VBool b => if b then "true" else "false"
  | VNum n => stringOfZ n
  | VStr s => s
  end.

(** A string used as a condition: [!s] holds for [undefined] and [""]. *)
Definition truthyStr (s : option string) : bool :=
  match s with
  | Some t => negb (String.eqb t "")
  | None => false
  end.

(** The test shared by every id reader: a number, or a non-blank string
    that [Number] parses ([typeof c === 'number' && Number.isFinite(c)], else
    [typeof c === 'string' && c.trim() !== '' && !Number.isNaN(Number(c))]). *)
Definition numericId (candidate : value) : option Z :=
  match candidate with
  | VNum n => Some n
  | VStr s =>
      if negb (String.eqb (trim s) "") then numberOfString s else None
  | _ => None
  end.

(** [typeof v === 'number' ? v : Number(v) || 0] *)
Definition numberOrZero (v : value) : Z :=
  match v with
  | VNum n => n
  | _ => default 0 (toNumber v)
  end.

(** An optional field of a typed record read as a value: absent is
    [undefined]. *)
Definition optNum (o : option Z) : value :=
  match o with Some n => VNum n | None => VUndefined end.

Definition optStr (o : option string) : value :=
  match o with Some s => VStr s | None => VUndefined end.

(** *** Quotients

    [wins / total * 100] leaves the integers; its value is a double, of
    which the model keeps the rational value and the three special
    results of a division. *)
Inductive double : Type :=
| DFin (q : Q)
| DNaN
| DPosInf
| DNegInf.

Definition ofZ (n : Z) : double := DFin (inject_Z n).

Definition signOf (x : double) : Z :=
  match x with
  | DFin q => Z.sgn (Qnum q)
  | DNaN => 0
  | DPosInf => 1
  | DNegInf => -1
  end.

(** [a / b] on integer-valued numbers *)
Definition div (a b : Z) : double :=
  if b =? 0 then
    if a =? 0 then DNaN else if 0 <? a then DPosInf else DNegInf
  else DFin (inject_Z a / inject_Z b).

(** [x * y] *)
Definition mul (x y : double) : double :=
  match x, y with
  | DNaN, _ | _, DNaN => DNaN
  | DFin a, DFin b => DFin (a * b)
  | _, _ =>
      match signOf x * signOf y with
      | Z0 => DNaN
      | Zpos _ => DPosInf
      | Zneg _ => DNegInf
      end
  end.

End Js.

Notation "a ?? b" := (Js.coalesce a b) (at level 45, left associativity).

(** A JavaScript [Map]: keys in insertion order, [set] on a present key
    replaces the value in place. *)
Module JsMap.
Section Ops.
Context {K V : Type} `{EqDecision K}.

Fixpoint get (m : list (K * V)) (k : K) : option V :=
  match m with
  | [] => None
  | (k', v) :: m' => if decide (k' = k) then Some v else get m' k
  end.

Fixpoint set (m : list (K * V)) (k : K) (v : V) : list (K * V) :=
  match m with
  | [] => [(k, v)]
  | (k', v') :: m' =>
      if decide (k' = k) then (k', v) :: m' else (k', v') :: set m' k v
  end.
End Ops.
End JsMap.

(* ===================================================================== *)
(** ** Shared data: [StatDelta] and [MatchRecord] *)
(* ===================================================================== *)

(** [interface StatDelta], declared identically in both source files. *)
Record StatDelta : Type := mkDelta {
  wins : Z;
  losses : Z;
  ties : Z;
  casualWins : Z;
  casualLosses : Z
}.

#[global] Instance StatDelta_eq_dec : EqDecision StatDelta.
Proof. solve_decision. Defined.

Definition zeroDelta : StatDelta := mkDelta 0 0 0 0 0.

(** match.service.ts: [export interface MatchRecord]. *)
Module MatchService.
Record MatchRecord : Type := mkMatch {
  matchID : option Z;
  playerID : option Z;
  deckName : option string;
  winnerName : option string;
  format : option string;
  playerWin : option bool;
  opponentOne : option string;
  opponentOneDeck : option string;
  opponentTwo : option string;
  opponentTwoDeck : option string;
  opponentThree : option string;
  opponentThreeDeck : option string;
  result : option string;
  playedAt : option string;
  seats : option (list (gmap string Js.value))
}.
End MatchService.

(** An update call handed to the external store; [NoRequest] is [of(null)]. *)
Inductive request : Type :=
| NoRequest
| PlayerUpdate (playerId : Z) (payload : gmap string Js.value)
| DeckUpdate (deckName : string) (payload : gmap string Js.value).

(* ===================================================================== *)
(** ** match.service.ts: [MatchHistoryComponent] (rollback on deletion) *)
(* ===================================================================== *)

Module MatchHistoryComponent.

Inductive ResultType : Type := Win | Loss | Tie.

#[global] Instance ResultType_eq_dec : EqDecision ResultType.
Proof. solve_decision. Defined.

Definition resultString (r : ResultType) : string :=
  match r with Win => "win" | Loss => "loss" | Tie => "tie" end.

Fixpoint readSeatField (seat : gmap string Js.value) (keys : list string)
  : option string :=
  match keys with
  | [] => None
  | key :: rest =>
      match Js.get seat key with
      | Js.VStr value =>
          if negb (String.eqb (Js.trim value) "") then Some value
          else readSeatField seat rest
      | _ => readSeatField seat rest
      end
  end.

Fixpoint readSeatBool (seat : gmap string Js.value) (keys : list string)
  : option bool :=
  match keys with
  | [] => None
  | key :: rest =>
      match Js.get seat key with
      | Js.VBool value => Some value
      | Js.VStr value =>
          if negb (String.eqb (Js.trim value) "") then
            if String.eqb (Js.toLowerCase value) "true" then Some true
            else if String.eqb (Js.toLowerCase value) "false" then Some false
            else readSeatBool seat rest
          else readSeatBool seat rest
      | Js.VNum value =>
          if value =? 1 then Some true
          else if value =? 0 then Some false
          else readSeatBool seat rest
      | _ => readSeatBool seat rest
      end
  end.

Definition normalizeResult (value : option string) : option ResultType :=
  if negb (Js.truthyStr value) then None
  else
    let normalized := Js.toLowerCase (default "" value) in
    if Js.includes normalized "tie" then Some Tie
    else if Js.includes normalized "win" then Some Win
    else if Js.includes normalized "loss" then Some Loss
    else None.

Definition getSeatPlayerId (seat : gmap string Js.value) : option Z :=
  let candidate :=
    Js.get seat "playerID" ?? Js.get seat "playerId"
    ?? Js.get seat "player_id" ?? Js.get seat "id" in
  Js.numericId candidate.

Definition getSeatDeckName (seat : gmap string Js.value) : option string :=
  let candidate :=
    Js.get seat "deckName" ?? Js.get seat "DeckName"
    ?? Js.get seat "name" ?? Js.get seat "title" in
  if Js.truthy candidate then Some (Js.toString candidate) else None.

Definition getSeatPlayerName (seat : gmap string Js.value) : option string :=
  let candidate := readSeatField seat ["playerName"; "name"; "username"; "player"] in
  if Js.truthyStr candidate then candidate else None.

Definition sameName (a b : string) : bool :=
  String.eqb (Js.toLowerCase (Js.trim a)) (Js.toLowerCase (Js.trim b)).

Definition resolveSeatResult (seat : gmap string Js.value)
    (m : MatchService.MatchRecord) : option ResultType :=
  let direct :=
    normalizeResult
      (readSeatField seat
         ["result"; "Result"; "outcome"; "outcomeType"; "resultType"; "status"]) in
  match direct with
  | Some r => Some r
  | None =>
    let tieFlag := readSeatBool seat ["tie"; "isTie"] in
    if default false tieFlag then Some Tie
    else
      let winFlag := readSeatBool seat ["playerWin"; "isWinner"; "winner"; "won"; "win"] in
      match winFlag with
      | Some w => Some (if w then Win else Loss)
      | None =>
        let matchResult := normalizeResult (MatchService.result m) in
        if decide (matchResult = Some Tie) then Some Tie
        else
          let seatPlayerId := getSeatPlayerId seat in
          let primary :=
            match seatPlayerId, MatchService.playerID m with
            | Some sid, Some pid =>
                match MatchService.playerWin m with
                | Some pw => if sid =? pid then Some (if pw then Win else Loss) else None
                | None => None
                end
            | _, _ => None
            end in
          match primary with
          | Some r => Some r
          | None =>
            let seatName :=
              readSeatField seat ["playerName"; "name"; "username"; "player"] in
            if (Js.truthyStr seatName && Js.truthyStr (MatchService.winnerName m))%bool
            then
              if sameName (default "" seatName)
                          (default "" (MatchService.winnerName m))
              then Some Win
              else if decide (matchResult = Some Win) then Some Loss
              else None
            else None
          end
      end
  end.

Definition resolveOpponentResult (opponentName : string)
    (m : MatchService.MatchRecord) : option ResultType :=
  let matchResult := normalizeResult (MatchService.result m) in
  if decide (matchResult = Some Tie) then Some Tie
  else if (Js.truthyStr (MatchService.winnerName m)
           && sameName opponentName (default "" (MatchService.winnerName m)))%bool
  then Some Win
  else if decide (matchResult = Some Win \/ matchResult = Some Loss) then Some Loss
  else None.

Definition optResult (o : option ResultType) : Js.value :=
  match o with Some r => Js.VStr (resultString r) | None => Js.VNull end.

Definition opponentSeat (m : MatchService.MatchRecord)
    (name deck : option string) : list (gmap string Js.value) :=
  if Js.truthyStr name then
    [ list_to_map
        [ ("playerName", Js.optStr name);
          ("deckName", Js.optStr deck);
          ("result", optResult (resolveOpponentResult (default "" name) m));
          ("format", Js.optStr (MatchService.format m)) ] ]
  else [].

Definition getMatchSeats (m : MatchService.MatchRecord)
  : list (gmap string Js.value) :=
  match MatchService.seats m with
  | Some seats => seats
  | None =>
    let normalizedResult := normalizeResult (MatchService.result m) in
    let primary :=
      if (Js.truthy (Js.optNum (MatchService.playerID m))
          || Js.truthyStr (MatchService.deckName m)
          || Js.truthyStr (MatchService.winnerName m))%bool
      then
        [ list_to_map
            [ ("playerID", Js.optNum (MatchService.playerID m));
              ("deckName", Js.optStr (MatchService.deckName m));
              ("playerName", Js.optStr (MatchService.winnerName m));
              ("result",
                Js.VStr (resultString
                  (match normalizedResult with
                   | Some r => r
                   | None =>
                       if default false (MatchService.playerWin m) then Win else Loss
                   end)));
              ("format", Js.optStr (MatchService.format m)) ] ]
      else [] in
    primary
    ++ opponentSeat m (MatchService.opponentOne m) (MatchService.opponentOneDeck m)
    ++ opponentSeat m (MatchService.opponentTwo m) (MatchService.opponentTwoDeck m)
    ++ opponentSeat m (MatchService.opponentThree m) (MatchService.opponentThreeDeck m)
  end.

Definition isCasualFormat (value : option string) : bool :=
  if negb (Js.truthyStr value) then false
  else Js.includes (Js.toLowerCase (default "" value)) "casual".

Definition buildDelta (result : ResultType) (isCasual : bool) : StatDelta :=
  match result with
  | Tie =>
      {| wins := 0; losses := 0; ties := 1; casualWins := 0; casualLosses := 0 |}
  | Win =>
      {| wins := 1; losses := 0; ties := 0;
         casualWins := if isCasual then 1 else 0; casualLosses := 0 |}
  | Loss =>
      {| wins := 0; losses := 1; ties := 0;
         casualWins := 0; casualLosses := if isCasual then 1 else 0 |}
  end.

Definition invertDelta (delta : StatDelta) : StatDelta :=
  {| wins := - wins delta;
     losses := - losses delta;
     ties := - ties delta;
     casualWins := - casualWins delta;
     casualLosses := - casualLosses delta |}.

Definition mergeDelta (base add : StatDelta) : StatDelta :=
  {| wins := wins base + wins add;
     losses := losses base + losses add;
     ties := ties base + ties add;
     casualWins := casualWins base + casualWins add;
     casualLosses := casualLosses base + casualLosses add |}.

Definition getPlayerId (player : gmap string Js.value) : option Z :=
  let candidate :=
    Js.get player "playerID" ?? Js.get player "playerId" ?? Js.get player "id" in
  Js.numericId candidate.

Definition getDeckNameForUpdate (deck : gmap string Js.value) : option string :=
  let candidate :=
    Js.get deck "DeckName" ?? Js.get deck "deckName"
    ?? Js.get deck "name" ?? Js.get deck "title" in
  if Js.truthy candidate then Some (Js.toString candidate) else None.

Definition findPlayerById (players : list (gmap string Js.value)) (playerId : Z)
  : option (gmap string Js.value) :=
  List.find (fun player => bool_decide (getPlayerId player = Some playerId)) players.

Definition findPlayerByName (players : list (gmap string Js.value))
    (playerName : string) : option (gmap string Js.value) :=
  let normalized := Js.toLowerCase playerName in
  List.find
    (fun player =>
       let candidate :=
         Js.get player "playerName" ?? Js.get player "PlayerName"
         ?? Js.get player "name" ?? Js.get player "username" in
       if Js.truthy candidate
       then String.eqb (Js.toLowerCase (Js.toString candidate)) normalized
       else false)
    players.

Definition findDeckByName (decks : list (gmap string Js.value)) (deckName : string)
  : option (gmap string Js.value) :=
  let normalized := Js.toLowerCase deckName in
  List.find
    (fun deck =>
       match getDeckNameForUpdate deck with
       | Some candidate => String.eqb (Js.toLowerCase candidate) normalized
       | None => false
       end)
    decks.

Fixpoint coerceNumber (record : gmap string Js.value) (keys : list string) : Z :=
  match keys with
  | [] => 0
  | key :: rest =>
      match Js.get record key with
      | Js.VNum value => value
      | Js.VStr value =>
          if negb (String.eqb (Js.trim value) "") then
            match Js.numberOfString value with
            | Some n => n
            | None => coerceNumber record rest
            end
          else coerceNumber record rest
      | _ => coerceNumber record rest
      end
  end.

Definition winsKeys := ["wins"; "Wins"; "winCount"; "totalWins"; "win_total"].
Definition lossesKeys := ["losses"; "Losses"; "lossCount"; "totalLosses"; "loss_total"].
Definition tiesKeys := ["ties"; "Ties"; "tieCount"; "totalTies"].
Definition casualWinsKeys := ["casualWins"; "CasualWins"].
Definition casualLossesKeys := ["casualLosses"; "CasualLosses"].

Definition buildPlayerUpdatePayload (player : gmap string Js.value)
    (playerId : Z) (delta : StatDelta) : gmap string Js.value :=
  let record := player in
  let playerName :=
    Js.get record "playerName" ?? Js.get record "PlayerName"
    ?? Js.get record "name" ?? Js.get record "username" ?? Js.VStr "Unknown" in
  let wins_ := coerceNumber record winsKeys in
  let losses_ := coerceNumber record lossesKeys in
  let ties_ := coerceNumber record tiesKeys in
  let casualWins_ := coerceNumber record casualWinsKeys in
  let casualLosses_ := coerceNumber record casualLossesKeys in
  list_to_map
    [ ("playerId", Js.VNum playerId);
      ("playerName", Js.VStr (Js.toString playerName));
      ("wins", Js.VNum (Z.max 0 (wins_ + wins delta)));
      ("losses", Js.VNum (Z.max 0 (losses_ + losses delta)));
      ("ties", Js.VNum (Z.max 0 (ties_ + ties delta)));
      ("casualWins", Js.VNum (Z.max 0 (casualWins_ + casualWins delta)));
      ("casualLosses", Js.VNum (Z.max 0 (casualLosses_ + casualLosses delta))) ].

Definition buildDeckUpdatePayload (deck : gmap string Js.value)
    (deckName : string) (delta : StatDelta) : gmap string Js.value :=
  let record := deck in
  let ownerId :=
    Js.get record "playerID" ?? Js.get record "PlayerID"
    ?? Js.get record "playerId" ?? Js.get record "ownerId" ?? Js.VNum 0 in
  let wins_ := coerceNumber record winsKeys in
  let losses_ := coerceNumber record lossesKeys in
  let ties_ := coerceNumber record tiesKeys in
  let casualWins_ := coerceNumber record casualWinsKeys in
  let casualLosses_ := coerceNumber record casualLossesKeys in
  list_to_map
    [ ("deckName", Js.VStr deckName);
      ("playerID", Js.VNum (Js.numberOrZero ownerId));
      ("wins", Js.VNum (Z.max 0 (wins_ + wins delta)));
      ("losses", Js.VNum (Z.max 0 (losses_ + losses delta)));
      ("ties", Js.VNum (Z.max 0 (ties_ + ties delta)));
      ("casualWins", Js.VNum (Z.max 0 (casualWins_ + casualWins delta)));
      ("casualLosses", Js.VNum (Z.max 0 (casualLosses_ + casualLosses delta))) ].

(** [map.set(key, existing ? mergeDelta(existing, delta) : { ...delta })] *)
Definition accumulate {K : Type} `{EqDecision K}
    (map : list (K * StatDelta)) (key : K) (delta : StatDelta)
  : list (K * StatDelta) :=
  JsMap.set map key
    (match JsMap.get map key with
     | Some existing => mergeDelta existing delta
     | None => delta
     end).

(** The three accumulators of [rollbackStats]. *)
Record deltaMaps : Type := mkMaps {
  playerMap : list (Z * StatDelta);
  nameMap : list (string * StatDelta);
  deckMap : list (string * StatDelta)
}.

(** Body of [seats.forEach] in [rollbackStats]. *)
Definition rollbackSeat (m : MatchService.MatchRecord) (acc : deltaMaps)
    (seat : gmap string Js.value) : deltaMaps :=
  match resolveSeatResult seat m with
  | None => acc
  | Some result =>
    let format :=
      match readSeatField seat ["format"; "Format"] with
      | Some f => Some f
      | None => MatchService.format m
      end in
    let isCasual := isCasualFormat format in
    let delta := invertDelta (buildDelta result isCasual) in
    let acc1 :=
      match getSeatPlayerId seat with
      | Some playerId =>
          mkMaps (accumulate (playerMap acc) playerId delta) (nameMap acc) (deckMap acc)
      | None =>
          let playerName := getSeatPlayerName seat in
          if Js.truthyStr playerName then
            mkMaps (playerMap acc)
                   (accumulate (nameMap acc)
                      (Js.toLowerCase (default "" playerName)) delta)
                   (deckMap acc)
          else acc
      end in
    let deckName := getSeatDeckName seat in
    if Js.truthyStr deckName then
      mkMaps (playerMap acc1) (nameMap acc1)
             (accumulate (deckMap acc1) (default "" deckName) delta)
    else acc1
  end.

Definition rollbackMaps (m : MatchService.MatchRecord) : deltaMaps :=
  fold_left (rollbackSeat m) (getMatchSeats m) (mkMaps [] [] []).

(** [rollbackStats]: the update calls issued once the player and deck
    snapshots have been fetched. *)
Definition rollbackStats (m : MatchService.MatchRecord)
    (players decks : list (gmap string Js.value)) : list request :=
  match getMatchSeats m with
  | [] => []
  | _ =>
    let maps := rollbackMaps m in
    let playerRequests :=
      map (fun '(playerId, delta) =>
             match findPlayerById players playerId with
             | None => NoRequest
             | Some player =>
                 PlayerUpdate playerId (buildPlayerUpdatePayload player playerId delta)
             end)
          (playerMap maps) in
    let nameRequests :=
      map (fun '(playerName, delta) =>
             match findPlayerByName players playerName with
             | None => NoRequest
             | Some player =>
                 match getPlayerId player with
                 | None => NoRequest
                 | Some playerId =>
                     PlayerUpdate playerId (buildPlayerUpdatePayload player playerId delta)
                 end
             end)
          (nameMap maps) in
    let deckRequests :=
      map (fun '(deckName, delta) =>
             match findDeckByName decks deckName with
             | None => NoRequest
             | Some deck =>
                 DeckUpdate deckName (buildDeckUpdatePayload deck deckName delta)
             end)
          (deckMap maps) in
    (playerRequests ++ nameRequests ++ deckRequests)%list
  end.

End MatchHistoryComponent.

(* ===================================================================== *)
(** ** decks.component.ts: [CreateGameComponent] (apply on creation) *)
(* ===================================================================== *)

Module CreateGameComponent.

(** [type ResultType = 'win' | 'loss' | 'tie' | ''] *)
Inductive ResultType : Type := Win | Loss | Tie | Empty.

#[global] Instance ResultType_eq_dec : EqDecision ResultType.
Proof. solve_decision. Defined.

Inductive GameFormat : Type := casual | cedh.

#[global] Instance GameFormat_eq_dec : EqDecision GameFormat.
Proof. solve_decision. Defined.

Record GameSlot : Type := mkSlot {
  playerIndex : option nat;
  deckIndex : option nat;
  result : ResultType
}.

(** The signals the apply path reads. *)
Record state : Type := mkState {
  players : list (gmap string Js.value);
  decks : list (gmap string Js.value);
  slots : list GameSlot;
  gameFormat : GameFormat
}.

Record FavoriteDeckMaps : Type := mkFavorites {
  byId : list (Z * string);
  byName : list (string * string)
}.

Definition normalizeDeckKey (value : string) : string :=
  Js.stripNonAlnum (Js.toLowerCase (Js.trim value)).

(** [deckMap.set(deckKey, (deckMap.get(deckKey) ?? 0) + 1);
     counts.set(key, deckMap)] *)
Definition bumpCount {K : Type} `{EqDecision K}
    (counts : list (K * list (string * Z))) (key : K) (deckKey : string)
  : list (K * list (string * Z)) :=
  let deckMap := default [] (JsMap.get counts key) in
  JsMap.set counts key
    (JsMap.set deckMap deckKey (default 0 (JsMap.get deckMap deckKey) + 1)).

Definition bumpName (countsByName : list (string * list (string * Z)))
    (playerName deckName : option string) : list (string * list (string * Z)) :=
  if (negb (Js.truthyStr playerName) || negb (Js.truthyStr deckName))%bool
  then countsByName
  else
    let nameKey := Js.toLowerCase (Js.trim (default "" playerName)) in
    let deckKey := normalizeDeckKey (default "" deckName) in
    if (String.eqb nameKey "" || String.eqb deckKey "")%bool then countsByName
    else bumpCount countsByName nameKey deckKey.

Definition bumpId (countsById : list (Z * list (string * Z)))
    (playerId : option Z) (deckName : option string)
  : list (Z * list (string * Z)) :=
  match playerId with
  | None => countsById
  | Some pid =>
      if negb (Js.truthyStr deckName) then countsById
      else
        let deckKey := normalizeDeckKey (default "" deckName) in
        if String.eqb deckKey "" then countsById
        else bumpCount countsById pid deckKey
  end.

(** Inner [deckMap.forEach]: the first deck to reach a strictly larger
    count is kept. *)
Definition bestDeckOf (deckMap : list (string * Z)) : string :=
  fst (fold_left
         (fun '(bestDeck, bestCount) '(deckName, count) =>
            if bestCount <? count then (deckName, count) else (bestDeck, bestCount))
         deckMap ("", -1)).

(** Outer [counts.forEach]. *)
Definition favoritesOf {K : Type} `{EqDecision K}
    (counts : list (K * list (string * Z))) : list (K * string) :=
  fold_left
    (fun favorites '(playerKey, deckMap) =>
       let bestDeck := bestDeckOf deckMap in
       if negb (String.eqb bestDeck "") then JsMap.set favorites playerKey bestDeck
       else favorites)
    counts [].

(** Body of [matches.forEach]. *)
Definition countMatch
    (acc : list (string * list (string * Z)) * list (Z * list (string * Z)))
    (m : MatchService.MatchRecord)
  : list (string * list (string * Z)) * list (Z * list (string * Z)) :=
  let '(countsByName, countsById) := acc in
  let countsById := bumpId countsById (MatchService.playerID m) (MatchService.deckName m) in
  let countsByName :=
    if negb (Js.truthy (Js.optNum (MatchService.playerID m)))
    then bumpName countsByName (MatchService.winnerName m) (MatchService.deckName m)
    else countsByName in
  let countsByName :=
    bumpName countsByName (MatchService.opponentOne m) (MatchService.opponentOneDeck m) in
  let countsByName :=
    bumpName countsByName (MatchService.opponentTwo m) (MatchService.opponentTwoDeck m) in
  let countsByName :=
    bumpName countsByName (MatchService.opponentThree m) (MatchService.opponentThreeDeck m) in
  (countsByName, countsById).

Definition buildFavoriteDeckMaps (matches : list MatchService.MatchRecord)
  : FavoriteDeckMaps :=
  let '(countsByName, countsById) := fold_left countMatch matches ([], []) in
  {| byId := favoritesOf countsById; byName := favoritesOf countsByName |}.

Definition getPlayerId (player : option (gmap string Js.value)) : option Z :=
  match player with
  | None => None
  | Some record =>
      let candidate :=
        Js.get record "playerID" ?? Js.get record "playerId" ?? Js.get record "id" in
      match candidate with
      | Js.VNum n => Some n
      | Js.VStr s =>
          if negb (String.eqb (Js.trim s) "") then Js.numberOfString s else None
      | _ => None
      end
  end.

Definition getDeckNameForUpdate (deck : gmap string Js.value) : option string :=
  let candidate :=
    Js.get deck "DeckName" ?? Js.get deck "deckName"
    ?? Js.get deck "name" ?? Js.get deck "title" in
  if Js.truthy candidate then Some (Js.toString candidate) else None.

Definition buildDelta (result : ResultType) (isCasual : bool) : StatDelta :=
  match result with
  | Tie =>
      {| wins := 0; losses := 0; ties := 1; casualWins := 0; casualLosses := 0 |}
  | Win =>
      {| wins := 1; losses := 0; ties := 0;
         casualWins := if isCasual then 1 else 0; casualLosses := 0 |}
  | Loss =>
      {| wins := 0; losses := 1; ties := 0;
         casualWins := 0; casualLosses := if isCasual then 1 else 0 |}
  | Empty =>
      {| wins := 0; losses := 0; ties := 0; casualWins := 0; casualLosses := 0 |}
  end.

Definition buildLossDelta (result : ResultType) (isCasual : bool) : StatDelta :=
  match result with
  | Loss =>
      {| wins := 0; losses := 1; ties := 0;
         casualWins := 0; casualLosses := if isCasual then 1 else 0 |}
  | _ =>
      {| wins := 0; losses := 0; ties := 0; casualWins := 0; casualLosses := 0 |}
  end.

Definition mergeDelta (base add : StatDelta) : StatDelta :=
  {| wins := wins base + wins add;
     losses := losses base + losses add;
     ties := ties base + ties add;
     casualWins := casualWins base + casualWins add;
     casualLosses := casualLosses base + casualLosses add |}.

Fixpoint coerceNumber (record : gmap string Js.value) (keys : list string) : Z :=
  match keys with
  | [] => 0
  | key :: rest =>
      match Js.get record key with
      | Js.VNum value => value
      | Js.VStr value =>
          if negb (String.eqb (Js.trim value) "") then
            match Js.numberOfString value with
            | Some n => n
            | None => coerceNumber record rest
            end
          else coerceNumber record rest
      | _ => coerceNumber record rest
      end
  end.

Definition winsKeys := ["wins"; "Wins"; "winCount"; "totalWins"; "win_total"].
Definition lossesKeys := ["losses"; "Losses"; "lossCount"; "totalLosses"; "loss_total"].
Definition tiesKeys := ["ties"; "Ties"; "tieCount"; "totalTies"].
Definition casualWinsKeys := ["casualWins"; "CasualWins"].
Definition casualLossesKeys := ["casualLosses"; "CasualLosses"].

Definition buildPlayerUpdatePayload (player : gmap string Js.value)
    (playerId : Z) (delta : StatDelta) : gmap string Js.value :=
  let record := player in
  let playerName :=
    Js.get record "playerName" ?? Js.get record "PlayerName"
    ?? Js.get record "name" ?? Js.get record "username" ?? Js.VStr "Unknown" in
  let wins_ := coerceNumber record winsKeys in
  let losses_ := coerceNumber record lossesKeys in
  let ties_ := coerceNumber record tiesKeys in
  let casualWins_ := coerceNumber record casualWinsKeys in
  let casualLosses_ := coerceNumber record casualLossesKeys in
  list_to_map
    [ ("playerId", Js.VNum playerId);
      ("playerName", Js.VStr (Js.toString playerName));
      ("wins", Js.VNum (wins_ + wins delta));
      ("losses", Js.VNum (losses_ + losses delta));
      ("ties", Js.VNum (ties_ + ties delta));
      ("casualWins", Js.VNum (casualWins_ + casualWins delta));
      ("casualLosses", Js.VNum (casualLosses_ + casualLosses delta)) ].

Definition buildDeckUpdatePayload (deck : gmap string Js.value)
    (deckName : string) (delta : StatDelta) : gmap string Js.value :=
  let record := deck in
  let ownerId :=
    Js.get record "playerID" ?? Js.get record "PlayerID"
    ?? Js.get record "playerId" ?? Js.get record "ownerId" ?? Js.VNum 0 in
  let wins_ := coerceNumber record winsKeys in
  let losses_ := coerceNumber record lossesKeys in
  let ties_ := coerceNumber record tiesKeys in
  let casualWins_ := coerceNumber record casualWinsKeys in
  let casualLosses_ := coerceNumber record casualLossesKeys in
  list_to_map
    [ ("deckName", Js.VStr deckName);
      ("playerID", Js.VNum (Js.numberOrZero ownerId));
      ("wins", Js.VNum (wins_ + wins delta));
      ("losses", Js.VNum (losses_ + losses delta));
      ("ties", Js.VNum (ties_ + ties delta));
      ("casualWins", Js.VNum (casualWins_ + casualWins delta));
      ("casualLosses", Js.VNum (casualLosses_ + casualLosses delta)) ].

(** [map.set(key, existing ? mergeDelta(existing, delta) : { ...delta })] *)
Definition accumulate {K : Type} `{EqDecision K}
    (map : list (K * StatDelta)) (key : K) (delta : StatDelta)
  : list (K * StatDelta) :=
  JsMap.set map key
    (match JsMap.get map key with
     | Some existing => mergeDelta existing delta
     | None => delta
     end).

Record deltaMaps : Type := mkMaps {
  playerDeltaMap : list (Z * StatDelta);
  deckDeltaMap : list (string * StatDelta)
}.

(** Body of [slots.forEach] in [updateStatsForMatch].  [None] is the
    [TypeError] raised when [deckIndex] selects no deck
    ([getDeckNameForUpdate(undefined)] reads a field of [undefined]). *)
Definition applySlot (st : state) (isCasual : bool) (acc : deltaMaps)
    (slot : GameSlot) : option deltaMaps :=
  let delta := buildDelta (result slot) isCasual in
  let deckDelta := buildLossDelta (result slot) isCasual in
  let playerDeltaMap1 :=
    match playerIndex slot with
    | Some i =>
        let player := players st !! i in
        match getPlayerId player with
        | Some playerId => accumulate (playerDeltaMap acc) playerId delta
        | None => playerDeltaMap acc
        end
    | None => playerDeltaMap acc
    end in
  match deckIndex slot with
  | Some j =>
      match decks st !! j with
      | None => None
      | Some deck =>
          let deckName := getDeckNameForUpdate deck in
          if Js.truthyStr deckName then
            Some (mkMaps playerDeltaMap1
                    (accumulate (deckDeltaMap acc) (default "" deckName) deckDelta))
          else Some (mkMaps playerDeltaMap1 (deckDeltaMap acc))
      end
  | None => Some (mkMaps playerDeltaMap1 (deckDeltaMap acc))
  end.

Fixpoint applySlots (st : state) (isCasual : bool) (acc : deltaMaps)
    (ss : list GameSlot) : option deltaMaps :=
  match ss with
  | [] => Some acc
  | slot :: rest =>
      match applySlot st isCasual acc slot with
      | Some acc' => applySlots st isCasual acc' rest
      | None => None
      end
  end.

Definition updateStatsMaps (st : state) : option deltaMaps :=
  applySlots st (bool_decide (gameFormat st = casual)) (mkMaps [] []) (slots st).

(** [updateStatsForMatch]: the update calls issued against the fetched
    snapshots [players'] and [decks']. *)
Definition updateStatsForMatch (st : state)
    (players' decks' : list (gmap string Js.value)) : option (list request) :=
  match updateStatsMaps st with
  | None => None
  | Some maps =>
    match playerDeltaMap maps, deckDeltaMap maps with
    | [], [] => Some []
    | _, _ =>
      let playerRequests :=
        map (fun '(playerId, delta) =>
               match List.find
                       (fun item => bool_decide (getPlayerId (Some item) = Some playerId))
                       players' with
               | None => NoRequest
               | Some player =>
                   PlayerUpdate playerId (buildPlayerUpdatePayload player playerId delta)
               end)
            (playerDeltaMap maps) in
      let deckRequests :=
        map (fun '(deckName, delta) =>
               match List.find
                       (fun item =>
                          match getDeckNameForUpdate item with
                          | Some candidate =>
                              String.eqb (Js.toLowerCase candidate)
                                         (Js.toLowerCase deckName)
                          | None => false
                          end)
                       decks' with
               | None => NoRequest
               | Some deck =>
                   DeckUpdate deckName (buildDeckUpdatePayload deck deckName delta)
               end)
            (deckDeltaMap maps) in
      Some (playerRequests ++ deckRequests)%list
    end
  end.

(** *** The creation form: slots, results and the match payload *)

Definition buildEmptySlots : list GameSlot :=
  [ mkSlot None None Empty; mkSlot None None Empty;
    mkSlot None None Empty; mkSlot None None Empty ].

(** [Partial<GameSlot>]: the fields a patch carries. *)
Record SlotPatch : Type := mkPatch {
  patchPlayerIndex : option (option nat);
  patchDeckIndex : option (option nat);
  patchResult : option ResultType
}.

(** [{ ...slot, ...patch }] *)
Definition applyPatch (slot : GameSlot) (patch : SlotPatch) : GameSlot :=
  mkSlot (default (playerIndex slot) (patchPlayerIndex patch))
         (default (deckIndex slot) (patchDeckIndex patch))
         (default (result slot) (patchResult patch)).

Definition updateSlot (ss : list GameSlot) (slotIndex : nat) (patch : SlotPatch)
  : list GameSlot :=
  imap (fun index slot =>
          if decide (index = slotIndex) then applyPatch slot patch else slot)
       ss.

Definition applyResultToAll (ss : list GameSlot) (result : ResultType)
  : list GameSlot :=
  map (fun slot => mkSlot (playerIndex slot) (deckIndex slot) result) ss.

Definition applyWinLoss (ss : list GameSlot) (winnerIndex : nat) : list GameSlot :=
  imap (fun index slot =>
          mkSlot (playerIndex slot) (deckIndex slot)
                 (if decide (index = winnerIndex) then Win else Loss))
       ss.

Definition updateResult (ss : list GameSlot) (slotIndex : nat) (value : ResultType)
  : list GameSlot :=
  match value with
  | Tie => applyResultToAll ss Tie
  | Win => applyWinLoss ss slotIndex
  | _ => updateSlot ss slotIndex (mkPatch None None (Some value))
  end.

(** [value === '' ? null : Number(value)], the select's value being [''] or
    the index of an option. *)
Definition updateDeck (ss : list GameSlot) (slotIndex : nat) (value : option nat)
  : list GameSlot :=
  updateSlot ss slotIndex (mkPatch None (Some value) None).

(** [new Set(selected).size !== selected.length] *)
Definition duplicatePlayers (ss : list GameSlot) : bool :=
  let selected := omap playerIndex ss in
  negb (Nat.eqb (length (remove_dups selected)) (length selected)).

Definition isComplete (ss : list GameSlot) : bool :=
  forallb
    (fun slot =>
       (bool_decide (playerIndex slot <> None)
        && bool_decide (deckIndex slot <> None)
        && bool_decide (result slot <> Empty))%bool)
    ss.

Definition canCreate (ss : list GameSlot) : bool :=
  (isComplete ss && negb (duplicatePlayers ss))%bool.

Definition playerLabel (player : gmap string Js.value) (fallback : string) : string :=
  Js.toString
    (Js.get player "name" ?? Js.get player "playerName"
     ?? Js.get player "username" ?? Js.get player "id" ?? Js.VStr fallback).

Definition deckLabel (deck : gmap string Js.value) (fallback : string) : string :=
  Js.toString
    (Js.get deck "name" ?? Js.get deck "deckName"
     ?? Js.get deck "title" ?? Js.get deck "id" ?? Js.VStr fallback).

(** Name and deck of an opponent slot in [buildMatchPayload]; [None] is the
    [TypeError] of labelling an index that selects no record. *)
Definition opponentOf (st : state) (slot : GameSlot) : option (string * string) :=
  match
    match playerIndex slot with
    | Some i => (fun p => playerLabel p "Unknown") <$> players st !! i
    | None => Some "Unknown"
    end,
    match deckIndex slot with
    | Some j => (fun d => deckLabel d "Unknown") <$> decks st !! j
    | None => Some "Unknown"
    end
  with
  | Some name, Some deck => Some (name, deck)
  | _, _ => None
  end.

(** [buildMatchPayload]; [now] is [new Date().toISOString()].  [None] is a
    [TypeError]: no primary slot, or an opponent index that selects no
    record. *)
Definition buildMatchPayload (st : state) (now : string)
  : option MatchService.MatchRecord :=
  let winnerIndex := fst <$> list_find (fun slot => result slot = Win) (slots st) in
  let tie := forallb (fun slot => bool_decide (result slot = Tie)) (slots st) in
  let primaryIndex := default 0%nat winnerIndex in
  match slots st !! primaryIndex with
  | None => None
  | Some primarySlot =>
    let primaryPlayer :=
      match playerIndex primarySlot with
      | Some i => players st !! i
      | None => None
      end in
    let primaryDeck :=
      match deckIndex primarySlot with
      | Some j => decks st !! j
      | None => None
      end in
    match
      mapM (opponentOf st)
           (omap (fun '(index, slot) =>
                    if decide (index = primaryIndex) then None else Some slot)
                 (imap (fun index slot => (index, slot)) (slots st)))
    with
    | None => None
    | Some opponents =>
      Some
        {| MatchService.matchID := None;
           MatchService.playerID := getPlayerId primaryPlayer;
           MatchService.deckName :=
             Some (match primaryDeck with
                   | Some d => deckLabel d "Unknown"
                   | None => "Unknown"
                   end);
           MatchService.winnerName :=
             Some (if tie then "Tie"
                   else match primaryPlayer with
                        | Some p => playerLabel p "Unknown"
                        | None => "Unknown"
                        end);
           MatchService.format :=
             Some (if decide (gameFormat st = cedh) then "CEDH" else "CASUAL");
           MatchService.playerWin :=
             Some (negb tie && bool_decide (winnerIndex <> None))%bool;
           MatchService.opponentOne := Some (default "Unknown" (fst <$> opponents !! 0%nat));
           MatchService.opponentOneDeck :=
             Some (default "Unknown" (snd <$> opponents !! 0%nat));
           MatchService.opponentTwo := Some (default "Unknown" (fst <$> opponents !! 1%nat));
           MatchService.opponentTwoDeck :=
             Some (default "Unknown" (snd <$> opponents !! 1%nat));
           MatchService.opponentThree :=
             Some (default "Unknown" (fst <$> opponents !! 2%nat));
           MatchService.opponentThreeDeck :=
             Some (default "Unknown" (snd <$> opponents !! 2%nat));
           MatchService.result := Some (if tie then "TIE" else "WIN");
           MatchService.playedAt := Some now;
           MatchService.seats := None |}
    end
  end.

(** *** Deck auto-selection *)

(** The component state the auto-selection reads and writes. *)
Record form : Type := mkForm {
  formState : state;
  matches : list MatchService.MatchRecord;
  pendingAutoDeckBySlot : list (nat * string)
}.

Definition withSlots (st : state) (ss : list GameSlot) : state :=
  mkState (players st) (decks st) ss (gameFormat st).

(** [map.delete(key)] *)
Definition mapDelete {K V : Type} `{EqDecision K} (m : list (K * V)) (key : K)
  : list (K * V) :=
  filter (fun kv => fst kv <> key) m.

(** The favourite deck key looked up for a player: by id, else by the
    lower-cased label. *)
Definition favoriteDeckFor (maps : FavoriteDeckMaps)
    (player : gmap string Js.value) : option string :=
  let playerId := getPlayerId (Some player) in
  let playerName := playerLabel player "" in
  let byIdHit :=
    match playerId with
    | Some pid => JsMap.get (byId maps) pid
    | None => None
    end in
  match byIdHit with
  | Some deck => Some deck
  | None =>
      if negb (String.eqb playerName "")
      then JsMap.get (byName maps) (Js.toLowerCase playerName)
      else None
  end.

(** [applyAutoDeckForSlot]; [None] is the [TypeError] of labelling a player
    index that selects no player. *)
Definition applyAutoDeckForSlot (f : form) (slotIndex : nat) : option form :=
  let st := formState f in
  match slots st !! slotIndex with
  | None => Some f
  | Some slot =>
    match playerIndex slot with
    | None => Some f
    | Some pi =>
      match players st !! pi with
      | None => None
      | Some player =>
        let maps := buildFavoriteDeckMaps (matches f) in
        let favoriteDeckName := favoriteDeckFor maps player in
        if negb (Js.truthyStr favoriteDeckName) then Some f
        else
          let favoriteKey := normalizeDeckKey (default "" favoriteDeckName) in
          match list_find
                  (fun deck => normalizeDeckKey (deckLabel deck "") = favoriteKey)
                  (decks st) with
          | Some (deckIndex, _) =>
              Some (mkForm
                      (withSlots st
                         (updateSlot (slots st) slotIndex
                            (mkPatch None (Some (Some deckIndex)) None)))
                      (matches f)
                      (mapDelete (pendingAutoDeckBySlot f) slotIndex))
          | None =>
              Some (mkForm st (matches f)
                      (JsMap.set (pendingAutoDeckBySlot f) slotIndex
                         (default "" favoriteDeckName)))
          end
      end
    end
  end.

Definition updatePlayer (f : form) (slotIndex : nat) (value : option nat)
  : option form :=
  let playerIndex := value in
  let f1 :=
    mkForm (withSlots (formState f)
              (updateSlot (slots (formState f)) slotIndex
                 (mkPatch (Some playerIndex) None None)))
           (matches f) (pendingAutoDeckBySlot f) in
  match playerIndex with
  | None => Some f1
  | Some _ => applyAutoDeckForSlot f1 slotIndex
  end.

End CreateGameComponent.

(* ===================================================================== *)
(** ** match.service.ts: [PlayersComponent] (derived views) *)
(* ===================================================================== *)

Module PlayersComponent.

Fixpoint coerceNumber (player : gmap string Js.value) (keys : list string) : Z :=
  match keys with
  | [] => 0
  | key :: rest =>
      match Js.get player key with
      | Js.VNum value => value
      | Js.VStr value =>
          if negb (String.eqb (Js.trim value) "") then
            match Js.numberOfString value with
            | Some n => n
            | None => coerceNumber player rest
            end
          else coerceNumber player rest
      | _ => coerceNumber player rest
      end
  end.

Definition getWins (player : gmap string Js.value) : Z :=
  coerceNumber player ["wins"; "winCount"; "totalWins"; "win_total"].

Definition getLosses (player : gmap string Js.value) : Z :=
  coerceNumber player ["losses"; "lossCount"; "totalLosses"; "loss_total"].

(** [record['winPercentage'] ?? record['winPct'] ?? record['win_percent']] *)
Definition directOf (record : gmap string Js.value) : Js.value :=
  Js.get record "winPercentage" ?? Js.get record "winPct" ?? Js.get record "win_percent".

Definition getWinPercentageValue (player : gmap string Js.value) : Js.double :=
  match directOf player with
  | Js.VNum direct => Js.ofZ direct
  | _ =>
      let wins_ := getWins player in
      let losses_ := getLosses player in
      let total := wins_ + losses_ in
      if total =? 0 then Js.ofZ 0
      else Js.mul (Js.div wins_ total) (Js.ofZ 100)
  end.

(** [buildFavoriteDeckMap]: one map, keyed ["id:<n>"] and ["name:<s>"]. *)
Definition bump (counts : list (string * list (string * Z)))
    (playerKey : string) (deckName : option string)
  : list (string * list (string * Z)) :=
  if negb (Js.truthyStr deckName) then counts
  else
    let deckKey := Js.trim (default "" deckName) in
    if String.eqb deckKey "" then counts
    else
      let deckMap := default [] (JsMap.get counts playerKey) in
      JsMap.set counts playerKey
        (JsMap.set deckMap deckKey (default 0 (JsMap.get deckMap deckKey) + 1)).

Definition bumpOpponent (counts : list (string * list (string * Z)))
    (name deck : option string) : list (string * list (string * Z)) :=
  if Js.truthyStr name then
    bump counts ("name:" ++ default "" name)%string
         (if Js.truthyStr deck then deck else None)
  else counts.

Definition countMatch (counts : list (string * list (string * Z)))
    (m : MatchService.MatchRecord) : list (string * list (string * Z)) :=
  let counts :=
    match MatchService.playerID m with
    | Some pid => bump counts ("id:" ++ Js.stringOfZ pid)%string (MatchService.deckName m)
    | None => counts
    end in
  let counts :=
    bumpOpponent counts (MatchService.opponentOne m) (MatchService.opponentOneDeck m) in
  let counts :=
    bumpOpponent counts (MatchService.opponentTwo m) (MatchService.opponentTwoDeck m) in
  bumpOpponent counts (MatchService.opponentThree m) (MatchService.opponentThreeDeck m).

Definition buildFavoriteDeckMap (matches : list MatchService.MatchRecord)
  : list (string * string) :=
  let counts := fold_left countMatch matches [] in
  fold_left
    (fun favorites '(playerKey, deckMap) =>
       let bestDeck :=
         fst (fold_left
                (fun '(bestDeck, bestCount) '(deckName, count) =>
                   if bestCount <? count then (deckName, count)
                   else (bestDeck, bestCount))
                deckMap ("", -1)) in
       if negb (String.eqb bestDeck "") then JsMap.set favorites playerKey bestDeck
       else favorites)
    counts [].

End PlayersComponent.

(* ===================================================================== *)
(** ** decks.component.ts: [DecksComponent] (derived views) *)
(* ===================================================================== *)

Module DecksComponent.

Fixpoint coerceNumber (deck : gmap string Js.value) (keys : list string) : Z :=
  match keys with
  | [] => 0
  | key :: rest =>
      match Js.get deck key with
      | Js.VNum value => value
      | Js.VStr value =>
          if negb (String.eqb (Js.trim value) "") then
            match Js.numberOfString value with
            | Some n => n
            | None => coerceNumber deck rest
            end
          else coerceNumber deck rest
      | _ => coerceNumber deck rest
      end
  end.

Definition getWins (deck : gmap string Js.value) : Z :=
  coerceNumber deck ["wins"; "winCount"; "totalWins"; "win_total"].

Definition getLosses (deck : gmap string Js.value) : Z :=
  coerceNumber deck ["losses"; "lossCount"; "totalLosses"; "loss_total"].

Definition directOf (record : gmap string Js.value) : Js.value :=
  Js.get record "winPercentage" ?? Js.get record "winPct" ?? Js.get record "win_percent".

Definition getWinPercentageValue (deck : gmap string Js.value) : Js.double :=
  match directOf deck with
  | Js.VNum direct => Js.ofZ direct
  | _ =>
      let wins_ := getWins deck in
      let losses_ := getLosses deck in
      let total := wins_ + losses_ in
      if total =? 0 then Js.ofZ 0
      else Js.mul (Js.div wins_ total) (Js.ofZ 100)
  end.

End DecksComponent.

(* ===================================================================== *)
(** ** Specification vocabulary and scenarios *)
(* ===================================================================== *)

(** A resolved outcome as the slot result the creation form carries. *)
Definition slotResult (r : MatchHistoryComponent.ResultType)
  : CreateGameComponent.ResultType :=
  match r with
  | MatchHistoryComponent.Win => CreateGameComponent.Win
  | MatchHistoryComponent.Loss => CreateGameComponent.Loss
  | MatchHistoryComponent.Tie => CreateGameComponent.Tie
  end.


(** The format is present and contains, in any letter case, the word
    [casual] somewhere. *)
Definition containsCasual (value : option string) : Prop :=
  exists s pre mid post,
    value = Some s /\ s = (pre ++ mid ++ post)%string
    /\ Js.toLowerCase mid = "casual".


Definition resultKeys : list string :=
  ["result"; "Result"; "outcome"; "outcomeType"; "resultType"; "status"].

Definition rule : Type :=
  gmap string Js.value -> MatchService.MatchRecord
  -> option MatchHistoryComponent.ResultType.

(** The six steps of [resolveSeatResult], each as the partial function it
    computes on its own. *)
Definition explicitResult : rule := fun seat _ =>
  MatchHistoryComponent.normalizeResult
    (MatchHistoryComponent.readSeatField seat resultKeys).

Definition tieFlagResult : rule := fun seat _ =>
  match MatchHistoryComponent.readSeatBool seat ["tie"; "isTie"] with
  | Some true => Some MatchHistoryComponent.Tie
  | _ => None
  end.

Definition winFlagResult : rule := fun seat _ =>
  match MatchHistoryComponent.readSeatBool seat
          ["playerWin"; "isWinner"; "winner"; "won"; "win"] with
  | Some true => Some MatchHistoryComponent.Win
  | Some false => Some MatchHistoryComponent.Loss
  | None => None
  end.

Definition matchTieResult : rule := fun _ m =>
  match MatchHistoryComponent.normalizeResult (MatchService.result m) with
  | Some MatchHistoryComponent.Tie => Some MatchHistoryComponent.Tie
  | _ => None
  end.

Definition primaryPlayerResult : rule := fun seat m =>
  match MatchHistoryComponent.getSeatPlayerId seat,
        MatchService.playerID m, MatchService.playerWin m with
  | Some sid, Some pid, Some pw =>
      if sid =? pid
      then Some (if pw then MatchHistoryComponent.Win else MatchHistoryComponent.Loss)
      else None
  | _, _, _ => None
  end.

Definition winnerNameResult : rule := fun seat m =>
  match MatchHistoryComponent.readSeatField seat
          ["playerName"; "name"; "username"; "player"],
        MatchService.winnerName m with
  | Some seatName, Some winner =>
      if String.eqb winner "" then None
      else if MatchHistoryComponent.sameName seatName winner
      then Some MatchHistoryComponent.Win
      else
        match MatchHistoryComponent.normalizeResult (MatchService.result m) with
        | Some MatchHistoryComponent.Win => Some MatchHistoryComponent.Loss
        | _ => None
        end
  | _, _ => None
  end.

Definition fallbackChain : list rule :=
  [explicitResult; tieFlagResult; winFlagResult;
   matchTieResult; primaryPlayerResult; winnerNameResult].

(** First rule of the list that applies. *)
Fixpoint firstApplicable (rules : list rule) (seat : gmap string Js.value)
    (m : MatchService.MatchRecord) : option MatchHistoryComponent.ResultType :=
  match rules with
  | [] => None
  | r :: rest =>
      match r seat m with
      | Some x => Some x
      | None => firstApplicable rest seat m
      end
  end.




(** The five counters an update payload carries. *)
Definition payloadCounters (payload : gmap string Js.value) : option StatDelta :=
  match Js.get payload "wins", Js.get payload "losses", Js.get payload "ties",
        Js.get payload "casualWins", Js.get payload "casualLosses" with
  | Js.VNum w, Js.VNum l, Js.VNum t, Js.VNum cw, Js.VNum cl =>
      Some {| wins := w; losses := l; ties := t; casualWins := cw; casualLosses := cl |}
  | _, _, _, _, _ => None
  end.

(** [max(0, c)] componentwise. *)
Definition clampAtZero (c : StatDelta) : StatDelta :=
  {| wins := Z.max 0 (wins c);
     losses := Z.max 0 (losses c);
     ties := Z.max 0 (ties c);
     casualWins := Z.max 0 (casualWins c);
     casualLosses := Z.max 0 (casualLosses c) |}.

(** [c + d] componentwise. *)
Definition addCounters (c d : StatDelta) : StatDelta :=
  {| wins := wins c + wins d;
     losses := losses c + losses d;
     ties := ties c + ties d;
     casualWins := casualWins c + casualWins d;
     casualLosses := casualLosses c + casualLosses d |}.

Definition nonNegative (c : StatDelta) : Prop :=
  0 <= wins c /\ 0 <= losses c /\ 0 <= ties c
  /\ 0 <= casualWins c /\ 0 <= casualLosses c.

(** The counters the rollback path reads from a stored record. *)
Definition storedForRollback (record : gmap string Js.value) : StatDelta :=
  {| wins := MatchHistoryComponent.coerceNumber record MatchHistoryComponent.winsKeys;
     losses := MatchHistoryComponent.coerceNumber record MatchHistoryComponent.lossesKeys;
     ties := MatchHistoryComponent.coerceNumber record MatchHistoryComponent.tiesKeys;
     casualWins :=
       MatchHistoryComponent.coerceNumber record MatchHistoryComponent.casualWinsKeys;
     casualLosses :=
       MatchHistoryComponent.coerceNumber record MatchHistoryComponent.casualLossesKeys |}.

(** The counters the apply path reads from a stored record. *)
Definition storedForApply (record : gmap string Js.value) : StatDelta :=
  {| wins := CreateGameComponent.coerceNumber record CreateGameComponent.winsKeys;
     losses := CreateGameComponent.coerceNumber record CreateGameComponent.lossesKeys;
     ties := CreateGameComponent.coerceNumber record CreateGameComponent.tiesKeys;
     casualWins :=
       CreateGameComponent.coerceNumber record CreateGameComponent.casualWinsKeys;
     casualLosses :=
       CreateGameComponent.coerceNumber record CreateGameComponent.casualLossesKeys |}.

(** The payload of a request, if it is an update call. *)
Definition payloadOf (req : request) : option (gmap string Js.value) :=
  match req with
  | NoRequest => None
  | PlayerUpdate _ payload | DeckUpdate _ payload => Some payload
  end.

(** Deleting the competitive two-seat match: player 1 won with "Rona",
    player 2 lost with "Kess"; player 1's stored wins are already 0. *)
Definition deletedMatch : MatchService.MatchRecord :=
  MatchService.mkMatch (Some 10) None None None (Some "CEDH") None
    None None None None None None None None
    (Some [ list_to_map [("playerID", Js.VNum 1); ("deckName", Js.VStr "Rona");
                         ("result", Js.VStr "win")];
            list_to_map [("playerID", Js.VNum 2); ("deckName", Js.VStr "Kess");
                         ("result", Js.VStr "loss")] ]).

Definition storedPlayers : list (gmap string Js.value) :=
  [ list_to_map [("playerID", Js.VNum 1); ("playerName", Js.VStr "Ann");
                 ("wins", Js.VNum 0); ("losses", Js.VNum 4)];
    list_to_map [("playerID", Js.VNum 2); ("playerName", Js.VStr "Bob");
                 ("wins", Js.VNum 2); ("losses", Js.VNum 1)] ].

Definition storedDecks : list (gmap string Js.value) :=
  [ list_to_map [("deckName", Js.VStr "Rona"); ("wins", Js.VNum 3)];
    list_to_map [("deckName", Js.VStr "Kess"); ("losses", Js.VNum 1)] ].

Definition rollbackOfPlayer1 : gmap string Js.value :=
  list_to_map
    [ ("playerId", Js.VNum 1); ("playerName", Js.VStr "Ann");
      ("wins", Js.VNum 0); ("losses", Js.VNum 4); ("ties", Js.VNum 0);
      ("casualWins", Js.VNum 0); ("casualLosses", Js.VNum 0) ].

Definition allNonNegative {K : Type} (m : list (K * StatDelta)) : Prop :=
  forall k v, In (k, v) m -> nonNegative v.

(** A four-seat competitive game: Ann wins with "Rona"; Bob, Cat and Dan
    lose with "Kess", "Atla" and "Ur". *)
Definition gamePlayers : list (gmap string Js.value) :=
  [ list_to_map [("playerID", Js.VNum 1); ("playerName", Js.VStr "Ann")];
    list_to_map [("playerID", Js.VNum 2); ("playerName", Js.VStr "Bob")];
    list_to_map [("playerID", Js.VNum 3); ("playerName", Js.VStr "Cat")];
    list_to_map [("playerID", Js.VNum 4); ("playerName", Js.VStr "Dan")] ].

Definition gameDecks : list (gmap string Js.value) :=
  [ list_to_map [("deckName", Js.VStr "Rona")];
    list_to_map [("deckName", Js.VStr "Kess")];
    list_to_map [("deckName", Js.VStr "Atla")];
    list_to_map [("deckName", Js.VStr "Ur")] ].

Definition gameState : CreateGameComponent.state :=
  CreateGameComponent.mkState gamePlayers gameDecks
    [ CreateGameComponent.mkSlot (Some 0%nat) (Some 0%nat) CreateGameComponent.Win;
      CreateGameComponent.mkSlot (Some 1%nat) (Some 1%nat) CreateGameComponent.Loss;
      CreateGameComponent.mkSlot (Some 2%nat) (Some 2%nat) CreateGameComponent.Loss;
      CreateGameComponent.mkSlot (Some 3%nat) (Some 3%nat) CreateGameComponent.Loss ]
    CreateGameComponent.cedh.

(** The snapshot fetched by the apply path; Bob's stored wins are below 0. *)
Definition bobStored : gmap string Js.value :=
  list_to_map [("playerID", Js.VNum 2); ("playerName", Js.VStr "Bob");
               ("wins", Js.VNum (-2)); ("losses", Js.VNum 5)].

Definition snapshotPlayers : list (gmap string Js.value) :=
  [ list_to_map [("playerID", Js.VNum 1); ("playerName", Js.VStr "Ann");
                 ("wins", Js.VNum 7); ("losses", Js.VNum 1)];
    bobStored ].

Definition snapshotDecks : list (gmap string Js.value) :=
  [ list_to_map [("deckName", Js.VStr "Rona"); ("wins", Js.VNum 3)];
    list_to_map [("deckName", Js.VStr "Kess"); ("losses", Js.VNum 1)] ].

Definition bobPayload : gmap string Js.value :=
  list_to_map
    [ ("playerId", Js.VNum 2); ("playerName", Js.VStr "Bob");
      ("wins", Js.VNum (-2)); ("losses", Js.VNum 6); ("ties", Js.VNum 0);
      ("casualWins", Js.VNum 0); ("casualLosses", Js.VNum 0) ].

Definition lossDelta : StatDelta :=
  {| wins := 0; losses := 1; ties := 0; casualWins := 0; casualLosses := 0 |}.

Definition annPayload : gmap string Js.value :=
  list_to_map
    [ ("playerId", Js.VNum 1); ("playerName", Js.VStr "Ann");
      ("wins", Js.VNum 8); ("losses", Js.VNum 1); ("ties", Js.VNum 0);
      ("casualWins", Js.VNum 0); ("casualLosses", Js.VNum 0) ].

Definition gameRequests : list request :=
  default []
    (CreateGameComponent.updateStatsForMatch gameState snapshotPlayers snapshotDecks).

(** The loss part of a delta: losses and casualLosses kept, the rest 0. *)
Definition lossOnly (d : StatDelta) : StatDelta :=
  {| wins := 0; losses := losses d; ties := 0;
     casualWins := 0; casualLosses := casualLosses d |}.

(** The deck name a slot's delta is accumulated under, if any. *)
Definition deckNameOfSlot (st : CreateGameComponent.state)
    (slot : CreateGameComponent.GameSlot) : option string :=
  match CreateGameComponent.deckIndex slot with
  | Some j =>
      match CreateGameComponent.decks st !! j with
      | Some deck =>
          let deckName := CreateGameComponent.getDeckNameForUpdate deck in
          if Js.truthyStr deckName then deckName else None
      | None => None
      end
  | None => None
  end.

(** Accumulating [perSeat result isCasual] under the deck name of every
    slot, in slot order. *)
Definition deckDeltasWith
    (perSeat : CreateGameComponent.ResultType -> bool -> StatDelta)
    (st : CreateGameComponent.state) (isCasual : bool)
    (ss : list CreateGameComponent.GameSlot) (start : list (string * StatDelta))
  : list (string * StatDelta) :=
  fold_left
    (fun acc slot =>
       match deckNameOfSlot st slot with
       | Some deckName =>
           CreateGameComponent.accumulate acc deckName
             (perSeat (CreateGameComponent.result slot) isCasual)
       | None => acc
       end)
    ss start.

Definition mapDeltas (f : StatDelta -> StatDelta) (m : list (string * StatDelta))
  : list (string * StatDelta) :=
  map (fun '(k, d) => (k, f d)) m.

(** A match in which [name] is recorded, by name, as the winner playing
    [deck] (no numeric player id). *)
Definition wonBy (name deck : string) : MatchService.MatchRecord :=
  MatchService.mkMatch None None (Some deck) (Some name) None (Some true)
    None None None None None None (Some "WIN") None None.

(** A match in which [name] is the first opponent, playing [deck]. *)
Definition opposedBy (name deck : string) : MatchService.MatchRecord :=
  MatchService.mkMatch None (Some 9) (Some "Kess") (Some "Zed") None (Some true)
    (Some name) (Some deck) None None None None (Some "WIN") None None.

Definition historyAsWinner : list MatchService.MatchRecord :=
  [wonBy "A" "Mono Red"; wonBy "A" "Mono Red"; wonBy "A" "Izzet"].

Definition historyAsOpponent : list MatchService.MatchRecord :=
  [opposedBy "A" "Mono Red"; opposedBy "A" "Mono Red"; opposedBy "A" "Izzet"].

Definition allDeckKeysNormalized {K : Type} (counts : list (K * list (string * Z)))
  : Prop :=
  forall k deckMap deckKey n,
    In (k, deckMap) counts -> In (deckKey, n) deckMap ->
    exists deck, deckKey = CreateGameComponent.normalizeDeckKey deck.






(* ===================================================================== *)
(** ** Further vocabulary: accumulation, forms and round trips *)
(* ===================================================================== *)

(** The merge of the deltas of the seats of one identity, in seat order;
    no seat, no entry. *)
Definition mergeSeats (ds : list StatDelta) : option StatDelta :=
  match ds with
  | [] => None
  | d :: rest => Some (fold_left CreateGameComponent.mergeDelta rest d)
  end.

(** The elements of [l] filed under key [k]. *)
Definition seatsOf {A K : Type} `{EqDecision K} (key : A -> option K) (k : K)
    (l : list A) : list A :=
  filter (fun a => key a = Some k) l.

(** One pass of [map.set(key, existing ? mergeDelta(existing, d) : d)] over
    [l], for the elements that have a key. *)
Definition accumulateAll {A K : Type} `{EqDecision K}
    (key : A -> option K) (delta : A -> StatDelta)
    (start : list (K * StatDelta)) (l : list A) : list (K * StatDelta) :=
  fold_left
    (fun acc a =>
       match key a with
       | Some k => CreateGameComponent.accumulate acc k (delta a)
       | None => acc
       end)
    l start.

(** The player id a slot's delta is accumulated under, if any. *)
Definition slotPlayerId (st : CreateGameComponent.state)
    (slot : CreateGameComponent.GameSlot) : option Z :=
  match CreateGameComponent.playerIndex slot with
  | Some i => CreateGameComponent.getPlayerId (CreateGameComponent.players st !! i)
  | None => None
  end.

Definition isCasualGame (st : CreateGameComponent.state) : bool :=
  bool_decide (CreateGameComponent.gameFormat st = CreateGameComponent.casual).

Definition slotDelta (st : CreateGameComponent.state)
    (slot : CreateGameComponent.GameSlot) : StatDelta :=
  CreateGameComponent.buildDelta (CreateGameComponent.result slot) (isCasualGame st).

Definition slotDeckDelta (st : CreateGameComponent.state)
    (slot : CreateGameComponent.GameSlot) : StatDelta :=
  CreateGameComponent.buildLossDelta (CreateGameComponent.result slot) (isCasualGame st).

(** The id of a player update, the name of a deck update. *)
Definition playerUpdateId (req : request) : option Z :=
  match req with PlayerUpdate playerId _ => Some playerId | _ => None end.

Definition deckUpdateName (req : request) : option string :=
  match req with DeckUpdate deckName _ => Some deckName | _ => None end.

(** A deck-less game state: Ann twice (slots 0 and 2) and a slot whose
    player index selects nobody. *)
Definition repeatedPlayerState : CreateGameComponent.state :=
  CreateGameComponent.mkState gamePlayers gameDecks
    [ CreateGameComponent.mkSlot (Some 0%nat) (Some 0%nat) CreateGameComponent.Win;
      CreateGameComponent.mkSlot (Some 1%nat) (Some 1%nat) CreateGameComponent.Loss;
      CreateGameComponent.mkSlot (Some 0%nat) (Some 1%nat) CreateGameComponent.Loss;
      CreateGameComponent.mkSlot (Some 9%nat) None CreateGameComponent.Loss ]
    CreateGameComponent.casual.

(** A slot whose deck index selects no deck. *)
Definition brokenDeckState : CreateGameComponent.state :=
  CreateGameComponent.mkState gamePlayers gameDecks
    [ CreateGameComponent.mkSlot (Some 0%nat) (Some 7%nat) CreateGameComponent.Win ]
    CreateGameComponent.cedh.

(** The request the apply pass makes of one accumulated player entry, and
    of one accumulated deck entry. *)
Definition applyPlayerRequest (players' : list (gmap string Js.value))
    (entry : Z * StatDelta) : request :=
  let '(playerId, delta) := entry in
  match List.find
          (fun item =>
             bool_decide (CreateGameComponent.getPlayerId (Some item) = Some playerId))
          players' with
  | None => NoRequest
  | Some player =>
      PlayerUpdate playerId
        (CreateGameComponent.buildPlayerUpdatePayload player playerId delta)
  end.

Definition applyDeckRequest (decks' : list (gmap string Js.value))
    (entry : string * StatDelta) : request :=
  let '(deckName, delta) := entry in
  match List.find
          (fun item =>
             match CreateGameComponent.getDeckNameForUpdate item with
             | Some candidate =>
                 String.eqb (Js.toLowerCase candidate) (Js.toLowerCase deckName)
             | None => false
             end)
          decks' with
  | None => NoRequest
  | Some deck =>
      DeckUpdate deckName
        (CreateGameComponent.buildDeckUpdatePayload deck deckName delta)
  end.

(** The format a seat is classified by on rollback: its own, else the
    match's. *)
Definition seatFormat (m : MatchService.MatchRecord) (seat : gmap string Js.value)
  : option string :=
  match MatchHistoryComponent.readSeatField seat ["format"; "Format"] with
  | Some f => Some f
  | None => MatchService.format m
  end.

(** The delta a seat stood for when the match was played (zero when its
    result cannot be resolved). *)
Definition forwardDelta (m : MatchService.MatchRecord) (seat : gmap string Js.value)
  : StatDelta :=
  match MatchHistoryComponent.resolveSeatResult seat m with
  | Some r =>
      MatchHistoryComponent.buildDelta r
        (MatchHistoryComponent.isCasualFormat (seatFormat m seat))
  | None => zeroDelta
  end.

(** The keys a resolved seat is filed under on rollback. *)
Definition rollbackPlayerKey (m : MatchService.MatchRecord)
    (seat : gmap string Js.value) : option Z :=
  match MatchHistoryComponent.resolveSeatResult seat m with
  | Some _ => MatchHistoryComponent.getSeatPlayerId seat
  | None => None
  end.

Definition rollbackNameKey (m : MatchService.MatchRecord)
    (seat : gmap string Js.value) : option string :=
  match MatchHistoryComponent.resolveSeatResult seat m,
        MatchHistoryComponent.getSeatPlayerId seat with
  | Some _, None =>
      let playerName := MatchHistoryComponent.getSeatPlayerName seat in
      if Js.truthyStr playerName
      then Some (Js.toLowerCase (default "" playerName))
      else None
  | _, _ => None
  end.

Definition rollbackDeckKey (m : MatchService.MatchRecord)
    (seat : gmap string Js.value) : option string :=
  match MatchHistoryComponent.resolveSeatResult seat m with
  | Some _ =>
      let deckName := MatchHistoryComponent.getSeatDeckName seat in
      if Js.truthyStr deckName then Some (default "" deckName) else None
  | None => None
  end.

Definition rollbackDelta (m : MatchService.MatchRecord) (seat : gmap string Js.value)
  : StatDelta :=
  MatchHistoryComponent.invertDelta (forwardDelta m seat).

(** A match none of whose seats says how it ended. *)
Definition silentMatch : MatchService.MatchRecord :=
  MatchService.mkMatch (Some 11) None None None (Some "CEDH") None
    None None None None None None None None
    (Some [ list_to_map [("playerID", Js.VNum 1); ("deckName", Js.VStr "Rona")];
            list_to_map [("playerName", Js.VStr "Bob"); ("deckName", Js.VStr "Kess")] ]).

(** Ann twice in one match, once as the winner and once as a loser, with
    "Rona" both times. *)
Definition doubleSeatMatch : MatchService.MatchRecord :=
  MatchService.mkMatch (Some 12) None None None (Some "Casual") None
    None None None None None None None None
    (Some [ list_to_map [("playerID", Js.VNum 1); ("deckName", Js.VStr "Rona");
                         ("result", Js.VStr "win")];
            list_to_map [("playerID", Js.VStr "1"); ("deckName", Js.VStr "Rona");
                         ("result", Js.VStr "loss")] ]).

(** The requests the rollback makes of one accumulated entry of each of its
    three maps. *)
Definition rollbackPlayerRequest (players : list (gmap string Js.value))
    (entry : Z * StatDelta) : request :=
  let '(playerId, delta) := entry in
  match MatchHistoryComponent.findPlayerById players playerId with
  | None => NoRequest
  | Some player =>
      PlayerUpdate playerId
        (MatchHistoryComponent.buildPlayerUpdatePayload player playerId delta)
  end.

Definition rollbackNameRequest (players : list (gmap string Js.value))
    (entry : string * StatDelta) : request :=
  let '(playerName, delta) := entry in
  match MatchHistoryComponent.findPlayerByName players playerName with
  | None => NoRequest
  | Some player =>
      match MatchHistoryComponent.getPlayerId player with
      | None => NoRequest
      | Some playerId =>
          PlayerUpdate playerId
            (MatchHistoryComponent.buildPlayerUpdatePayload player playerId delta)
      end
  end.

Definition rollbackDeckRequest (decks : list (gmap string Js.value))
    (entry : string * StatDelta) : request :=
  let '(deckName, delta) := entry in
  match MatchHistoryComponent.findDeckByName decks deckName with
  | None => NoRequest
  | Some deck =>
      DeckUpdate deckName
        (MatchHistoryComponent.buildDeckUpdatePayload deck deckName delta)
  end.




(** The seat synthesized for an opponent of a match without [seats]. *)
Definition legacySeat (playerName deckName result format : Js.value)
  : gmap string Js.value :=
  list_to_map
    [ ("playerName", playerName); ("deckName", deckName);
      ("result", result); ("format", format) ].

(** The seat synthesized for the primary player of a match without [seats]. *)
Definition primarySeat (playerID deckName playerName result format : Js.value)
  : gmap string Js.value :=
  list_to_map
    [ ("playerID", playerID); ("deckName", deckName); ("playerName", playerName);
      ("result", result); ("format", format) ].

(** The outcome of the primary player of a match without [seats]: what the
    match's result says, else its win flag. *)
Definition primaryResult (m : MatchService.MatchRecord)
  : MatchHistoryComponent.ResultType :=
  match MatchHistoryComponent.normalizeResult (MatchService.result m) with
  | Some r => r
  | None =>
      if default false (MatchService.playerWin m)
      then MatchHistoryComponent.Win else MatchHistoryComponent.Loss
  end.

Definition hasPrimary (m : MatchService.MatchRecord) : bool :=
  (Js.truthy (Js.optNum (MatchService.playerID m))
   || Js.truthyStr (MatchService.deckName m)
   || Js.truthyStr (MatchService.winnerName m))%bool.

(** The outcomes of the seats of a match without [seats], in seat order. *)
Definition legacyOutcomes (m : MatchService.MatchRecord)
  : list (option MatchHistoryComponent.ResultType) :=
  ((if hasPrimary m then [Some (primaryResult m)] else [])
   ++ (if Js.truthyStr (MatchService.opponentOne m)
       then [MatchHistoryComponent.resolveOpponentResult
               (default "" (MatchService.opponentOne m)) m]
       else [])
   ++ (if Js.truthyStr (MatchService.opponentTwo m)
       then [MatchHistoryComponent.resolveOpponentResult
               (default "" (MatchService.opponentTwo m)) m]
       else [])
   ++ (if Js.truthyStr (MatchService.opponentThree m)
       then [MatchHistoryComponent.resolveOpponentResult
               (default "" (MatchService.opponentThree m)) m]
       else []))%list.

(** A stored match in the flat shape: Ann (id 1) beat Bob and Cat. *)
Definition flatMatch : MatchService.MatchRecord :=
  MatchService.mkMatch (Some 13) (Some 1) (Some "Rona") (Some "Ann") (Some "CASUAL")
    (Some true) (Some "Bob") (Some "Kess") (Some "Cat") (Some "Atla")
    (Some "") (Some "") (Some "WIN") None None.

(** *** The creation form *)

(** The slot lists the form can hold: the empty form ([resetForm] restores
    it), changed by its handlers. *)
Inductive formSlots : list CreateGameComponent.GameSlot -> Prop :=
| formSlots_empty : formSlots CreateGameComponent.buildEmptySlots
| formSlots_result ss i v :
    formSlots ss -> formSlots (CreateGameComponent.updateResult ss i v)
| formSlots_deck ss i v :
    formSlots ss -> formSlots (CreateGameComponent.updateDeck ss i v)
| formSlots_player f i v f' :
    formSlots (CreateGameComponent.slots (CreateGameComponent.formState f)) ->
    CreateGameComponent.updatePlayer f i v = Some f' ->
    formSlots (CreateGameComponent.slots (CreateGameComponent.formState f'))
| formSlots_auto f i f' :
    formSlots (CreateGameComponent.slots (CreateGameComponent.formState f)) ->
    CreateGameComponent.applyAutoDeckForSlot f i = Some f' ->
    formSlots (CreateGameComponent.slots (CreateGameComponent.formState f')).

(** A winner's opponents have lost, or have no result yet. *)
Definition oneWinner (ss : list CreateGameComponent.GameSlot) : Prop :=
  forall i j si sj,
    ss !! i = Some si -> ss !! j = Some sj -> i <> j ->
    CreateGameComponent.result si = CreateGameComponent.Win ->
    CreateGameComponent.result sj = CreateGameComponent.Loss
    \/ CreateGameComponent.result sj = CreateGameComponent.Empty.

(** A form with a winner in slot 1. *)
Definition wonForm : list CreateGameComponent.GameSlot :=
  CreateGameComponent.updateResult
    (CreateGameComponent.updateDeck CreateGameComponent.buildEmptySlots 2 (Some 1%nat))
    1 CreateGameComponent.Win.

(** The slot a match is written from: the first winner, else slot 0. *)
Definition primaryIndex (st : CreateGameComponent.state) : nat :=
  default 0%nat
    (fst <$> list_find
               (fun slot => CreateGameComponent.result slot = CreateGameComponent.Win)
               (CreateGameComponent.slots st)).

Definition allTie (st : CreateGameComponent.state) : bool :=
  forallb
    (fun slot =>
       bool_decide (CreateGameComponent.result slot = CreateGameComponent.Tie))
    (CreateGameComponent.slots st).

(** The slots written as opponents: all but the primary one, in order. *)
Definition opponentSlots (st : CreateGameComponent.state)
  : list CreateGameComponent.GameSlot :=
  omap (fun '(index, slot) =>
          if decide (index = primaryIndex st) then None else Some slot)
       (imap (fun index slot => (index, slot)) (CreateGameComponent.slots st)).

(** A slot with a player or deck index beyond the loaded list. *)
Definition selectsNothing (st : CreateGameComponent.state)
    (slot : CreateGameComponent.GameSlot) : bool :=
  (match CreateGameComponent.playerIndex slot with
   | Some i => bool_decide (length (CreateGameComponent.players st) <= i)%nat
   | None => false
   end
   || match CreateGameComponent.deckIndex slot with
      | Some j => bool_decide (length (CreateGameComponent.decks st) <= j)%nat
      | None => false
      end)%bool.

(** The name a slot's player is written under. *)
Definition slotPlayerLabel (st : CreateGameComponent.state)
    (slot : CreateGameComponent.GameSlot) : string :=
  match CreateGameComponent.playerIndex slot with
  | Some i =>
      match CreateGameComponent.players st !! i with
      | Some p => CreateGameComponent.playerLabel p "Unknown"
      | None => "Unknown"
      end
  | None => "Unknown"
  end.

(** A slot's result as the history reads results. *)
Definition historyResult (r : CreateGameComponent.ResultType)
  : option MatchHistoryComponent.ResultType :=
  match r with
  | CreateGameComponent.Win => Some MatchHistoryComponent.Win
  | CreateGameComponent.Loss => Some MatchHistoryComponent.Loss
  | CreateGameComponent.Tie => Some MatchHistoryComponent.Tie
  | CreateGameComponent.Empty => None
  end.

(** The primary slot, then the other slots in order. *)
Definition primaryFirst (st : CreateGameComponent.state)
  : list CreateGameComponent.GameSlot :=
  match CreateGameComponent.slots st !! primaryIndex st with
  | Some slot => slot :: opponentSlots st
  | None => opponentSlots st
  end.

(** Either every slot ties, or one slot wins and every other slot loses
    under a name that is not the winner's. *)
Definition settled (st : CreateGameComponent.state) : Prop :=
  allTie st = true
  \/ exists w winner,
       CreateGameComponent.slots st !! w = Some winner
       /\ CreateGameComponent.result winner = CreateGameComponent.Win
       /\ forall j slot,
            CreateGameComponent.slots st !! j = Some slot -> j <> w ->
            CreateGameComponent.result slot = CreateGameComponent.Loss
            /\ MatchHistoryComponent.sameName (slotPlayerLabel st slot)
                 (slotPlayerLabel st winner) = false.

(** The match written for [gameState]. *)
Definition gameMatch : MatchService.MatchRecord :=
  MatchService.mkMatch None (Some 1) (Some "Rona") (Some "Ann") (Some "CEDH")
    (Some true) (Some "Bob") (Some "Kess") (Some "Cat") (Some "Atla")
    (Some "Dan") (Some "Ur") (Some "WIN") (Some "2026-01-01T00:00:00.000Z") None.

(** A game nobody won and not everybody tied, in the casual format. *)
Definition lostGame : CreateGameComponent.state :=
  CreateGameComponent.mkState gamePlayers gameDecks
    [ CreateGameComponent.mkSlot (Some 0%nat) (Some 0%nat) CreateGameComponent.Loss;
      CreateGameComponent.mkSlot (Some 1%nat) (Some 1%nat) CreateGameComponent.Loss;
      CreateGameComponent.mkSlot (Some 2%nat) (Some 2%nat) CreateGameComponent.Tie;
      CreateGameComponent.mkSlot (Some 3%nat) (Some 3%nat) CreateGameComponent.Loss ]
    CreateGameComponent.casual.

Definition lostMatch : MatchService.MatchRecord :=
  MatchService.mkMatch None (Some 1) (Some "Rona") (Some "Ann") (Some "CASUAL")
    (Some false) (Some "Bob") (Some "Kess") (Some "Cat") (Some "Atla")
    (Some "Dan") (Some "Ur") (Some "WIN") (Some "2026-01-01T00:00:00.000Z") None.

(** *** Deck keys and favourite decks *)

(** Every character is one of a-z, 0-9. *)
Fixpoint allLowerAlnum (s : string) : bool :=
  match s with
  | EmptyString => true
  | String c s' => (Js.isLowerAlnum c && allLowerAlnum s')%bool
  end.

(** The deck key a match counts for its primary player, if it counts one. *)
Definition countedDeck (m : MatchService.MatchRecord) : option string :=
  if Js.truthyStr (MatchService.deckName m)
  then
    let deckKey :=
      CreateGameComponent.normalizeDeckKey (default "" (MatchService.deckName m)) in
    if String.eqb deckKey "" then None else Some deckKey
  else None.

(** How many matches of the history have player [pid] as primary player on
    the deck of key [deckKey]. *)
Definition playedById (matches : list MatchService.MatchRecord) (pid : Z)
    (deckKey : string) : nat :=
  length
    (filter (fun m => MatchService.playerID m = Some pid
                      /\ countedDeck m = Some deckKey)
            matches).

(** [counts.get(key)?.get(deckKey) ?? 0] *)
Definition countOf {K : Type} `{EqDecision K}
    (counts : list (K * list (string * Z))) (key : K) (deckKey : string) : Z :=
  default 0 (JsMap.get counts key ≫= fun deckMap => JsMap.get deckMap deckKey).

(** The shape of the count maps: keys once, no empty deck map, counts from
    1 up, no empty deck key. *)
Definition countsOk {K : Type} (counts : list (K * list (string * Z))) : Prop :=
  NoDup (map fst counts)
  /\ forall key deckMap,
       In (key, deckMap) counts ->
       deckMap <> []
       /\ NoDup (map fst deckMap)
       /\ forall deckKey n, In (deckKey, n) deckMap -> 1 <= n /\ deckKey <> "".

(** A form on [gameState]'s players and decks: Bob is selected in slot 1, and
    the history has him twice on Kess. *)
Definition bobForm : CreateGameComponent.form :=
  CreateGameComponent.mkForm
    (CreateGameComponent.mkState gamePlayers gameDecks
       [ CreateGameComponent.mkSlot None None CreateGameComponent.Empty;
         CreateGameComponent.mkSlot (Some 1%nat) None CreateGameComponent.Loss;
         CreateGameComponent.mkSlot None None CreateGameComponent.Empty;
         CreateGameComponent.mkSlot None None CreateGameComponent.Empty ]
       CreateGameComponent.cedh)
    [ MatchService.mkMatch (Some 1) (Some 2) (Some " KESS! ") (Some "Bob") (Some "CEDH")
        (Some true) None None None None None None (Some "WIN") None None;
      MatchService.mkMatch (Some 2) (Some 2) (Some "kess") (Some "Bob") (Some "CEDH")
        (Some true) None None None None None None (Some "WIN") None None;
      MatchService.mkMatch (Some 3) (Some 2) (Some "Rona") (Some "Bob") (Some "CEDH")
        (Some true) None None None None None None (Some "WIN") None None ]
    [].

(** The (player name, deck name) pairs a match counts by name: the winner
    when the match has no usable player id, then the three opponents. *)
Definition nameEvents (m : MatchService.MatchRecord)
  : list (option string * option string) :=
  ((if negb (Js.truthy (Js.optNum (MatchService.playerID m)))
    then [(MatchService.winnerName m, MatchService.deckName m)] else [])
   ++ [ (MatchService.opponentOne m, MatchService.opponentOneDeck m);
        (MatchService.opponentTwo m, MatchService.opponentTwoDeck m);
        (MatchService.opponentThree m, MatchService.opponentThreeDeck m) ])%list.

(** The name key and deck key a pair is counted under, if it is counted. *)
Definition countedName (e : option string * option string)
  : option (string * string) :=
  if (negb (Js.truthyStr (fst e)) || negb (Js.truthyStr (snd e)))%bool then None
  else
    let nameKey := Js.toLowerCase (Js.trim (default "" (fst e))) in
    let deckKey := CreateGameComponent.normalizeDeckKey (default "" (snd e)) in
    if (String.eqb nameKey "" || String.eqb deckKey "")%bool then None
    else Some (nameKey, deckKey).

(** How many pairs of the history are counted under name key [nameKey] and
    deck key [deckKey]. *)
Definition playedByName (matches : list MatchService.MatchRecord)
    (nameKey deckKey : string) : nat :=
  length
    (filter (fun e => countedName e = Some (nameKey, deckKey))
            (flat_map nameEvents matches)).

(** *** Win percentage *)


(* ===================================================================== *)
(** * Properties *)
(* ===================================================================== *)


(** ** The built-ins on small inputs *)

Example js_trim_lower :
  Js.trim "  Mono Red  " = "Mono Red"
  /\ Js.toLowerCase "Casual-EDH" = "casual-edh"
  /\ CreateGameComponent.normalizeDeckKey " Mono Red " = "monored"
  /\ Js.includes "casual-edh" "casual" = true
  /\ Js.includes "cedh" "casual" = false.
Proof. repeat split; reflexivity. Qed.

Example js_number_string :
  Js.numberOfString " 7 " = Some 7
  /\ Js.numberOfString "-12" = Some (-12)
  /\ Js.numberOfString "x7" = None
  /\ Js.numberOfString "" = Some 0
  /\ Js.toString (Js.VNum 42) = "42"
  /\ Js.toString (Js.VNum (-3)) = "-3".
Proof. repeat split; reflexivity. Qed.

(** A player id given as the string ["7"] under [playerID] and as the number
    7 under [playerId] is the same identity. *)
Example player_id_string_or_number :
  MatchHistoryComponent.getPlayerId (list_to_map [("playerID", Js.VStr "7")]) = Some 7
  /\ MatchHistoryComponent.getPlayerId (list_to_map [("playerId", Js.VNum 7)]) = Some 7.
Proof. split; vm_compute; reflexivity. Qed.

(** A JavaScript [Map] keeps the position of a key that is set again. *)
Example jsmap_set_in_place :
  JsMap.set (JsMap.set (JsMap.set [] "a" 1) "b" 2) "a" 3 = [("a", 3); ("b", 2)].
Proof. reflexivity. Qed.

(** ** Strings *)

Section StringFacts.

Lemma prefix_true_iff (p s : string) :
  String.prefix p s = true <-> exists rest, s = (p ++ rest)%string.
Proof.
  revert s. induction p as [|a p IH]; intros s.
  - split; [intros _; now exists s | intros _; now destruct s].
  - destruct s as [|b s]; simpl.
    + split; [discriminate | intros [rest H]; discriminate].
    + destruct (ascii_dec a b) as [->|Hne].
      * rewrite IH. split; intros [rest H]; exists rest.
        -- now rewrite H.
        -- now inversion H.
      * split; [discriminate | intros [rest H]; inversion H; congruence].
Qed.

Lemma includes_nil (pat : string) :
  Js.includes EmptyString pat = (String.prefix pat EmptyString || false)%bool.
Proof. reflexivity. Qed.

Lemma includes_cons (c : ascii) (s pat : string) :
  Js.includes (String c s) pat
  = (String.prefix pat (String c s) || Js.includes s pat)%bool.
Proof. reflexivity. Qed.

Lemma includes_true_iff (s pat : string) :
  Js.includes s pat = true
  <-> exists pre post, s = (pre ++ pat ++ post)%string.
Proof.
  induction s as [|c s IH].
  - rewrite includes_nil, orb_false_r, prefix_true_iff. split.
    + intros [rest H]. exists EmptyString, rest. exact H.
    + intros [pre [post H]]. destruct pre; [exists post; exact H | discriminate].
  - rewrite includes_cons, orb_true_iff, prefix_true_iff, IH. split.
    + intros [[rest H] | [pre [post H]]].
      * exists EmptyString, rest. exact H.
      * exists (String c pre), post. simpl. now rewrite H.
    + intros [pre [post H]]. destruct pre as [|c' pre]; simpl in H.
      * left. exists post. exact H.
      * right. inversion H. now exists pre, post.
Qed.

Lemma toLowerCase_app (a b : string) :
  Js.toLowerCase (a ++ b) = (Js.toLowerCase a ++ Js.toLowerCase b)%string.
Proof. induction a as [|c a IH]; simpl; [reflexivity | now rewrite IH]. Qed.

Lemma toLowerCase_split (s a b : string) :
  Js.toLowerCase s = (a ++ b)%string ->
  exists a' b', s = (a' ++ b')%string
                /\ Js.toLowerCase a' = a /\ Js.toLowerCase b' = b.
Proof.
  revert s. induction a as [|c a IH]; intros s H; simpl in H.
  - exists EmptyString, s. auto.
  - destruct s as [|d s]; simpl in H; [discriminate|].
    inversion H as [[Hc Hs]]. destruct (IH _ Hs) as (a' & b' & -> & Ha & Hb).
    exists (String d a'), b'. simpl. rewrite Ha. auto.
Qed.

(** Case-insensitive occurrence of a lower-case pattern. *)
Lemma includes_lower_iff (s pat : string) :
  Js.includes (Js.toLowerCase s) pat = true
  <-> exists pre mid post,
        s = (pre ++ mid ++ post)%string /\ Js.toLowerCase mid = pat.
Proof.
  rewrite includes_true_iff. split.
  - intros (pre & post & H).
    destruct (toLowerCase_split _ _ _ H) as (pre' & rest & -> & _ & Hrest).
    destruct (toLowerCase_split _ _ _ Hrest) as (mid & post' & -> & Hmid & _).
    now exists pre', mid, post'.
  - intros (pre & mid & post & -> & <-).
    exists (Js.toLowerCase pre), (Js.toLowerCase post).
    now rewrite !toLowerCase_app.
Qed.

End StringFacts.

(** ** Delta builder, merge and inversion *)

(** C5. For each of win, loss and tie and each casual flag, both copies of
    [buildDelta] return (they are total functions, with no failure value) a
    delta whose outcome triple (wins, losses, ties) has a single 1 in the
    position of the result; casualWins is 1 exactly for a casual win,
    casualLosses is 1 exactly for a casual loss, and both are 0 for a tie
    and whenever the match is not casual. *)
Theorem buildDelta_single_outcome :
  forall (r : MatchHistoryComponent.ResultType) (isCasual : bool),
    exists d : StatDelta,
      MatchHistoryComponent.buildDelta r isCasual = d
      /\ CreateGameComponent.buildDelta (slotResult r) isCasual = d
      /\ (wins d, losses d, ties d)
         = match r with
           | MatchHistoryComponent.Win => (1, 0, 0)
           | MatchHistoryComponent.Loss => (0, 1, 0)
           | MatchHistoryComponent.Tie => (0, 0, 1)
           end
      /\ casualWins d
         = (if (bool_decide (r = MatchHistoryComponent.Win) && isCasual)%bool
            then 1 else 0)
      /\ casualLosses d
         = (if (bool_decide (r = MatchHistoryComponent.Loss) && isCasual)%bool
            then 1 else 0)
      /\ (r = MatchHistoryComponent.Tie \/ isCasual = false ->
          casualWins d = 0 /\ casualLosses d = 0).
Proof.
  intros r isCasual. eexists. split; [reflexivity|].
  destruct r, isCasual; cbn; intuition (reflexivity || discriminate).
Qed.

Lemma mergeDelta_same (a b : StatDelta) :
  CreateGameComponent.mergeDelta a b = MatchHistoryComponent.mergeDelta a b.
Proof. reflexivity. Qed.






(** C9. Merging a delta with its inversion gives the zero delta: all five
    components are 0. *)
Theorem mergeDelta_invertDelta_zero :
  forall a : StatDelta,
    MatchHistoryComponent.mergeDelta a (MatchHistoryComponent.invertDelta a)
    = {| wins := 0; losses := 0; ties := 0; casualWins := 0; casualLosses := 0 |}.
Proof.
  intros [w l t cw cl].
  unfold MatchHistoryComponent.mergeDelta, MatchHistoryComponent.invertDelta; simpl.
  f_equal; lia.
Qed.

(** ** Casual formats *)

Lemma isCasualFormat_true_iff (value : option string) :
  MatchHistoryComponent.isCasualFormat value = true <-> containsCasual value.
Proof.
  unfold MatchHistoryComponent.isCasualFormat, containsCasual.
  destruct value as [s|]; simpl.
  - destruct (String.eqb s "") eqn:He; simpl.
    + apply String.eqb_eq in He. subst s. split; [discriminate|].
      intros (s & pre & mid & post & Hs & Hsplit & Hmid).
      inversion Hs; subst s. exfalso.
      destruct pre; [|discriminate]. destruct mid; discriminate.
    + rewrite includes_lower_iff. split.
      * intros (pre & mid & post & Hsplit & Hmid). now exists s, pre, mid, post.
      * intros (s' & pre & mid & post & Hs & Hsplit & Hmid).
        inversion Hs; subst s'. now exists pre, mid, post.
  - split; [discriminate|]. intros (s & pre & mid & post & Hs & _). discriminate.
Qed.

(** C7. [isCasualFormat] answers casual exactly for a format that contains
    [casual] case-insensitively anywhere (so ["Casual-EDH"] is casual), and
    competitive for every other format, the empty string and an absent
    format included. *)
Theorem isCasualFormat_substring :
  (forall value : option string,
      (MatchHistoryComponent.isCasualFormat value = true <-> containsCasual value)
      /\ (MatchHistoryComponent.isCasualFormat value = false
          <-> ~ containsCasual value))
  /\ MatchHistoryComponent.isCasualFormat (Some "Casual-EDH") = true
  /\ MatchHistoryComponent.isCasualFormat (Some "") = false
  /\ MatchHistoryComponent.isCasualFormat None = false.
Proof.
  split; [|repeat split; reflexivity].
  intros value. split; [apply isCasualFormat_true_iff|].
  rewrite <- isCasualFormat_true_iff.
  destruct (MatchHistoryComponent.isCasualFormat value); split; intros H;
    congruence || (exfalso; now apply H).
Qed.

(** ** Result resolution *)

Lemma readSeatField_nonblank seat keys s :
  MatchHistoryComponent.readSeatField seat keys = Some s ->
  String.eqb (Js.trim s) "" = false.
Proof.
  induction keys as [|k keys IH]; simpl; [discriminate|].
  destruct (Js.get seat k); auto.
  destruct (String.eqb (Js.trim s0) "") eqn:E; simpl; auto.
  intros [= <-]. exact E.
Qed.

Lemma trim_empty : Js.trim "" = "".
Proof. reflexivity. Qed.

Lemma readSeatField_truthy seat keys :
  Js.truthyStr (MatchHistoryComponent.readSeatField seat keys)
  = match MatchHistoryComponent.readSeatField seat keys with
    | Some _ => true
    | None => false
    end.
Proof.
  destruct (MatchHistoryComponent.readSeatField seat keys) as [s|] eqn:E; simpl;
    [|reflexivity].
  apply readSeatField_nonblank in E.
  destruct (String.eqb s "") eqn:Es; simpl; [|reflexivity].
  apply String.eqb_eq in Es. subst s. rewrite trim_empty in E. discriminate.
Qed.

Lemma resolveSeatResult_chain seat m :
  MatchHistoryComponent.resolveSeatResult seat m
  = firstApplicable fallbackChain seat m.
Proof.
  unfold MatchHistoryComponent.resolveSeatResult, fallbackChain, firstApplicable,
    explicitResult, tieFlagResult, winFlagResult, matchTieResult,
    primaryPlayerResult, winnerNameResult, resultKeys.
  rewrite readSeatField_truthy.
  generalize (MatchHistoryComponent.normalizeResult
                (MatchHistoryComponent.readSeatField seat
                   ["result"; "Result"; "outcome"; "outcomeType"; "resultType"; "status"])).
  generalize (MatchHistoryComponent.readSeatBool seat ["tie"; "isTie"]).
  generalize (MatchHistoryComponent.readSeatBool seat
                ["playerWin"; "isWinner"; "winner"; "won"; "win"]).
  generalize (MatchHistoryComponent.getSeatPlayerId seat).
  generalize (MatchHistoryComponent.readSeatField seat
                ["playerName"; "name"; "username"; "player"]).
  generalize (MatchHistoryComponent.normalizeResult (MatchService.result m)).
  intros matchResult seatName seatPlayerId winFlag tieFlag direct.
  destruct direct as [r|]; [reflexivity|].
  destruct tieFlag as [[|]|], winFlag as [[|]|]; try reflexivity.
  all: destruct matchResult as [[| |]|]; try reflexivity.
  all: simpl; repeat case_decide; try congruence.
  all: destruct seatPlayerId as [sid|], (MatchService.playerID m) as [pid|],
         (MatchService.playerWin m) as [pw|];
    try destruct (sid =? pid); try reflexivity.
  all: destruct seatName as [nm|], (MatchService.winnerName m) as [wn|];
    try reflexivity.
  all: simpl;
    destruct (String.eqb wn ""); simpl; try reflexivity;
    destruct (MatchHistoryComponent.sameName nm wn); reflexivity.
Qed.







(** ** Update payloads *)

Lemma player_payload_counters (a b : Js.value) (w l t cw cl : Z) :
  payloadCounters
    (list_to_map
       [ ("playerId", a); ("playerName", b);
         ("wins", Js.VNum w); ("losses", Js.VNum l); ("ties", Js.VNum t);
         ("casualWins", Js.VNum cw); ("casualLosses", Js.VNum cl) ])
  = Some {| wins := w; losses := l; ties := t; casualWins := cw; casualLosses := cl |}.
Proof. vm_compute. reflexivity. Qed.

Lemma deck_payload_counters (a b : Js.value) (w l t cw cl : Z) :
  payloadCounters
    (list_to_map
       [ ("deckName", a); ("playerID", b);
         ("wins", Js.VNum w); ("losses", Js.VNum l); ("ties", Js.VNum t);
         ("casualWins", Js.VNum cw); ("casualLosses", Js.VNum cl) ])
  = Some {| wins := w; losses := l; ties := t; casualWins := cw; casualLosses := cl |}.
Proof. vm_compute. reflexivity. Qed.

Lemma clampAtZero_nonNegative (c : StatDelta) : nonNegative (clampAtZero c).
Proof. unfold nonNegative, clampAtZero; simpl. repeat split; lia. Qed.

Lemma rollback_player_payload player playerId delta :
  payloadCounters (MatchHistoryComponent.buildPlayerUpdatePayload player playerId delta)
  = Some (clampAtZero (addCounters (storedForRollback player) delta)).
Proof.
  unfold MatchHistoryComponent.buildPlayerUpdatePayload. cbv zeta.
  apply player_payload_counters.
Qed.

Lemma rollback_deck_payload deck deckName delta :
  payloadCounters (MatchHistoryComponent.buildDeckUpdatePayload deck deckName delta)
  = Some (clampAtZero (addCounters (storedForRollback deck) delta)).
Proof.
  unfold MatchHistoryComponent.buildDeckUpdatePayload. cbv zeta.
  apply deck_payload_counters.
Qed.

(** *** The JavaScript [Map] model *)

Section JsMapFacts.
Context {K V : Type} `{EqDecision K}.

Lemma JsMap_get_In (m : list (K * V)) k v :
  JsMap.get m k = Some v -> In (k, v) m.
Proof.
  induction m as [|[k' v'] m IH]; simpl; [discriminate|].
  case_decide as Hk.
  - intros [= ->]. subst k'. now left.
  - intros Hg. right. auto.
Qed.

Lemma JsMap_set_In (m : list (K * V)) k0 v0 k v :
  In (k, v) (JsMap.set m k0 v0) -> In (k, v) m \/ (k = k0 /\ v = v0).
Proof.
  induction m as [|[k' v'] m IH]; simpl.
  - intros [[= <- <-]|[]]. now right.
  - case_decide as Hk; simpl.
    + intros [[= <- <-]|Hin]; [right; auto | left; now right].
    + intros [Heq|Hin]; [left; now left|].
      destruct (IH Hin) as [Hm|Hnew]; [left; now right | now right].
Qed.

Lemma JsMap_get_set_eq (m : list (K * V)) k v :
  JsMap.get (JsMap.set m k v) k = Some v.
Proof.
  induction m as [|[k' v'] m IH]; simpl.
  - now rewrite decide_True.
  - case_decide as Hk; simpl.
    + now rewrite decide_True.
    + now rewrite decide_False.
Qed.

Lemma JsMap_get_set_ne (m : list (K * V)) k k' v :
  k <> k' -> JsMap.get (JsMap.set m k v) k' = JsMap.get m k'.
Proof.
  intros Hne. induction m as [|[k0 v0] m IH]; simpl.
  - now rewrite decide_False.
  - case_decide as Hk; simpl.
    + subst k0. now rewrite !decide_False.
    + case_decide; [reflexivity | exact IH].
Qed.

End JsMapFacts.

(** *** Rollback *)

Lemma rollbackStats_payloads m players decks req payload :
  In req (MatchHistoryComponent.rollbackStats m players decks) ->
  payloadOf req = Some payload ->
  exists record delta,
    ((In record players
      /\ ((exists playerId,
              In (playerId, delta)
                 (MatchHistoryComponent.playerMap (MatchHistoryComponent.rollbackMaps m)))
          \/ (exists playerName,
                 In (playerName, delta)
                    (MatchHistoryComponent.nameMap (MatchHistoryComponent.rollbackMaps m)))))
     \/ (In record decks
         /\ exists deckName,
              In (deckName, delta)
                 (MatchHistoryComponent.deckMap (MatchHistoryComponent.rollbackMaps m))))
    /\ payloadCounters payload
       = Some (clampAtZero (addCounters (storedForRollback record) delta)).
Proof.
  unfold MatchHistoryComponent.rollbackStats.
  destruct (MatchHistoryComponent.getMatchSeats m) as [|seat seats]; [intros []|].
  generalize (MatchHistoryComponent.rollbackMaps m). intros maps.
  rewrite !in_app_iff, !in_map_iff.
  intros [([playerId delta] & Hreq & Hin)
         |[([playerName delta] & Hreq & Hin)
          |([deckName delta] & Hreq & Hin)]] Hpay.
  - unfold MatchHistoryComponent.findPlayerById in Hreq.
    destruct (find _ players) as [player|] eqn:Hfind;
      subst req; simpl in Hpay; [|discriminate].
    injection Hpay as <-. apply find_some in Hfind as [Hp _].
    exists player, delta. split; [left; split; [exact Hp | left; eauto]|].
    apply rollback_player_payload.
  - unfold MatchHistoryComponent.findPlayerByName in Hreq.
    destruct (find _ players) as [player|] eqn:Hfind;
      [|subst req; discriminate].
    destruct (MatchHistoryComponent.getPlayerId player) as [playerId|];
      subst req; simpl in Hpay; [|discriminate].
    injection Hpay as <-. apply find_some in Hfind as [Hp _].
    exists player, delta. split; [left; split; [exact Hp | right; eauto]|].
    apply rollback_player_payload.
  - unfold MatchHistoryComponent.findDeckByName in Hreq.
    destruct (find _ decks) as [deck|] eqn:Hfind;
      subst req; simpl in Hpay; [|discriminate].
    injection Hpay as <-. apply find_some in Hfind as [Hd _].
    exists deck, delta. split; [right; split; [exact Hd | eauto]|].
    apply rollback_deck_payload.
Qed.

(** C2. Every player and deck payload the rollback builds carries, for
    each of the five counters, [max(0, c + d)] of the stored counter [c] and
    the inverted delta [d]; this holds for every update call that
    [rollbackStats] issues, so no counter written back is negative. *)
Theorem rollback_payload_clamped :
  (forall player playerId delta,
      payloadCounters
        (MatchHistoryComponent.buildPlayerUpdatePayload player playerId delta)
      = Some (clampAtZero (addCounters (storedForRollback player) delta)))
  /\ (forall deck deckName delta,
      payloadCounters
        (MatchHistoryComponent.buildDeckUpdatePayload deck deckName delta)
      = Some (clampAtZero (addCounters (storedForRollback deck) delta)))
  /\ (forall m players decks req payload,
      In req (MatchHistoryComponent.rollbackStats m players decks) ->
      payloadOf req = Some payload ->
      exists record delta,
        payloadCounters payload
        = Some (clampAtZero (addCounters (storedForRollback record) delta))
        /\ nonNegative (clampAtZero (addCounters (storedForRollback record) delta))).
Proof.
  split; [exact rollback_player_payload|].
  split; [exact rollback_deck_payload|].
  intros m players decks req payload Hin Hpay.
  destruct (rollbackStats_payloads _ _ _ _ _ Hin Hpay) as (record & delta & _ & Hc).
  exists record, delta. split; [exact Hc | apply clampAtZero_nonNegative].
Qed.

Lemma rollback_payload_clamped_witness :
  In (PlayerUpdate 1 rollbackOfPlayer1)
     (MatchHistoryComponent.rollbackStats deletedMatch storedPlayers storedDecks)
  /\ payloadOf (PlayerUpdate 1 rollbackOfPlayer1) = Some rollbackOfPlayer1
  /\ exists record delta,
       payloadCounters rollbackOfPlayer1
       = Some (clampAtZero (addCounters (storedForRollback record) delta))
       /\ nonNegative (clampAtZero (addCounters (storedForRollback record) delta)).
Proof.
  assert (Hin : In (PlayerUpdate 1 rollbackOfPlayer1)
                   (MatchHistoryComponent.rollbackStats
                      deletedMatch storedPlayers storedDecks))
    by (vm_compute; left; reflexivity).
  split; [exact Hin|]. split; [reflexivity|].
  exact (proj2 (proj2 rollback_payload_clamped)
           deletedMatch storedPlayers storedDecks
           (PlayerUpdate 1 rollbackOfPlayer1) rollbackOfPlayer1 Hin eq_refl).
Defined.

(** *** Apply *)

Lemma buildDelta_nonNegative r c :
  nonNegative (CreateGameComponent.buildDelta r c).
Proof. destruct r, c; unfold nonNegative; simpl; repeat split; lia. Qed.

Lemma buildLossDelta_nonNegative r c :
  nonNegative (CreateGameComponent.buildLossDelta r c).
Proof. destruct r, c; unfold nonNegative; simpl; repeat split; lia. Qed.

Lemma mergeDelta_nonNegative a b :
  nonNegative a -> nonNegative b ->
  nonNegative (CreateGameComponent.mergeDelta a b).
Proof. unfold nonNegative; simpl. intros (?&?&?&?&?) (?&?&?&?&?). repeat split; lia. Qed.

Lemma accumulate_nonNegative {K : Type} `{EqDecision K}
    (m : list (K * StatDelta)) (k : K) (d : StatDelta) :
  allNonNegative m -> nonNegative d ->
  allNonNegative (CreateGameComponent.accumulate m k d).
Proof.
  intros Hm Hd k' v Hin. unfold CreateGameComponent.accumulate in Hin.
  apply JsMap_set_In in Hin as [Hin|[_ ->]]; [eauto|].
  destruct (JsMap.get m k) as [existing|] eqn:Hg; [|exact Hd].
  apply mergeDelta_nonNegative; [|exact Hd]. eapply Hm, JsMap_get_In, Hg.
Qed.

Lemma applySlot_nonNegative st c acc slot acc' :
  CreateGameComponent.applySlot st c acc slot = Some acc' ->
  allNonNegative (CreateGameComponent.playerDeltaMap acc) ->
  allNonNegative (CreateGameComponent.deckDeltaMap acc) ->
  allNonNegative (CreateGameComponent.playerDeltaMap acc')
  /\ allNonNegative (CreateGameComponent.deckDeltaMap acc').
Proof.
  unfold CreateGameComponent.applySlot. intros Hs Hp Hd.
  assert (Hp' : allNonNegative
                  match CreateGameComponent.playerIndex slot with
                  | Some i =>
                      match CreateGameComponent.getPlayerId
                              (CreateGameComponent.players st !! i) with
                      | Some playerId =>
                          CreateGameComponent.accumulate
                            (CreateGameComponent.playerDeltaMap acc) playerId
                            (CreateGameComponent.buildDelta
                               (CreateGameComponent.result slot) c)
                      | None => CreateGameComponent.playerDeltaMap acc
                      end
                  | None => CreateGameComponent.playerDeltaMap acc
                  end).
  { destruct (CreateGameComponent.playerIndex slot); [|exact Hp].
    destruct (CreateGameComponent.getPlayerId _); [|exact Hp].
    apply accumulate_nonNegative; [exact Hp | apply buildDelta_nonNegative]. }
  destruct (CreateGameComponent.deckIndex slot) as [j|].
  - destruct (CreateGameComponent.decks st !! j) as [deck|]; [|discriminate].
    destruct (Js.truthyStr _); injection Hs as <-; simpl; split; auto.
    apply accumulate_nonNegative; [exact Hd | apply buildLossDelta_nonNegative].
  - injection Hs as <-. simpl. auto.
Qed.

Lemma applySlots_nonNegative st c ss : forall acc acc',
  CreateGameComponent.applySlots st c acc ss = Some acc' ->
  allNonNegative (CreateGameComponent.playerDeltaMap acc) ->
  allNonNegative (CreateGameComponent.deckDeltaMap acc) ->
  allNonNegative (CreateGameComponent.playerDeltaMap acc')
  /\ allNonNegative (CreateGameComponent.deckDeltaMap acc').
Proof.
  induction ss as [|slot ss IH]; intros acc acc'; simpl.
  - intros [= <-]. auto.
  - destruct (CreateGameComponent.applySlot st c acc slot) as [acc1|] eqn:E;
      [|discriminate].
    intros Hrest Hp Hd.
    destruct (applySlot_nonNegative _ _ _ _ _ E Hp Hd) as [Hp1 Hd1]. eauto.
Qed.

Lemma updateStatsMaps_nonNegative st maps :
  CreateGameComponent.updateStatsMaps st = Some maps ->
  allNonNegative (CreateGameComponent.playerDeltaMap maps)
  /\ allNonNegative (CreateGameComponent.deckDeltaMap maps).
Proof.
  unfold CreateGameComponent.updateStatsMaps. intros H.
  eapply applySlots_nonNegative; [exact H| |]; intros k v [].
Qed.

Lemma apply_player_payload player playerId delta :
  payloadCounters (CreateGameComponent.buildPlayerUpdatePayload player playerId delta)
  = Some (addCounters (storedForApply player) delta).
Proof.
  unfold CreateGameComponent.buildPlayerUpdatePayload. cbv zeta.
  apply player_payload_counters.
Qed.

Lemma apply_deck_payload deck deckName delta :
  payloadCounters (CreateGameComponent.buildDeckUpdatePayload deck deckName delta)
  = Some (addCounters (storedForApply deck) delta).
Proof.
  unfold CreateGameComponent.buildDeckUpdatePayload. cbv zeta.
  apply deck_payload_counters.
Qed.

Lemma updateStatsForMatch_payloads st players' decks' reqs req payload :
  CreateGameComponent.updateStatsForMatch st players' decks' = Some reqs ->
  In req reqs ->
  payloadOf req = Some payload ->
  exists maps record delta,
    CreateGameComponent.updateStatsMaps st = Some maps
    /\ ((In record players'
         /\ exists playerId,
              In (playerId, delta) (CreateGameComponent.playerDeltaMap maps))
        \/ (In record decks'
            /\ exists deckName,
                 In (deckName, delta) (CreateGameComponent.deckDeltaMap maps)))
    /\ payloadCounters payload = Some (addCounters (storedForApply record) delta).
Proof.
  unfold CreateGameComponent.updateStatsForMatch.
  destruct (CreateGameComponent.updateStatsMaps st) as [maps|]; [|discriminate].
  intros Hreqs Hin Hpay.
  assert (Hin' :
    In req
       (map (fun '(playerId, delta) =>
               match find (fun item =>
                             bool_decide (CreateGameComponent.getPlayerId (Some item)
                                          = Some playerId)) players' with
               | None => NoRequest
               | Some player =>
                   PlayerUpdate playerId
                     (CreateGameComponent.buildPlayerUpdatePayload player playerId delta)
               end)
            (CreateGameComponent.playerDeltaMap maps)
        ++ map (fun '(deckName, delta) =>
                  match find (fun item =>
                                match CreateGameComponent.getDeckNameForUpdate item with
                                | Some candidate =>
                                    String.eqb (Js.toLowerCase candidate)
                                               (Js.toLowerCase deckName)
                                | None => false
                                end) decks' with
                  | None => NoRequest
                  | Some deck =>
                      DeckUpdate deckName
                        (CreateGameComponent.buildDeckUpdatePayload deck deckName delta)
                  end)
               (CreateGameComponent.deckDeltaMap maps))%list).
  { destruct (CreateGameComponent.playerDeltaMap maps),
             (CreateGameComponent.deckDeltaMap maps);
      injection Hreqs as <-; exact Hin. }
  clear Hreqs Hin. rewrite in_app_iff, !in_map_iff in Hin'.
  destruct Hin' as [([playerId delta] & Hreq & Hin)|([deckName delta] & Hreq & Hin)].
  - destruct (find _ players') as [player|] eqn:Hfind;
      subst req; simpl in Hpay; [|discriminate].
    injection Hpay as <-. apply find_some in Hfind as [Hp _].
    exists maps, player, delta. split; [reflexivity|].
    split; [left; eauto | apply apply_player_payload].
  - destruct (find _ decks') as [deck|] eqn:Hfind;
      subst req; simpl in Hpay; [|discriminate].
    injection Hpay as <-. apply find_some in Hfind as [Hd _].
    exists maps, deck, delta. split; [reflexivity|].
    split; [right; eauto | apply apply_deck_payload].
Qed.

Lemma clamp_fixed_iff (c : StatDelta) :
  clampAtZero c = c <-> nonNegative c.
Proof.
  destruct c as [w l t cw cl]. unfold clampAtZero, nonNegative; simpl. split.
  - intros [= Hw Hl Ht Hcw Hcl]. repeat split; lia.
  - intros (Hw & Hl & Ht & Hcw & Hcl). f_equal; lia.
Qed.

(** C1, as stated, fails: the apply path writes Bob's wins as -2, the
    stored -2 plus the delta 0, where [max(0, -2 + 0)] is 0. *)
Lemma apply_clamp_counterexample :
  exists reqs,
    CreateGameComponent.updateStatsForMatch gameState snapshotPlayers snapshotDecks
    = Some reqs
    /\ In (PlayerUpdate 2 bobPayload) reqs
    /\ bobPayload = CreateGameComponent.buildPlayerUpdatePayload bobStored 2 lossDelta
    /\ payloadCounters bobPayload
       = Some {| wins := -2; losses := 6; ties := 0; casualWins := 0; casualLosses := 0 |}
    /\ clampAtZero (addCounters (storedForApply bobStored) lossDelta)
       = {| wins := 0; losses := 6; ties := 0; casualWins := 0; casualLosses := 0 |}
    /\ payloadCounters bobPayload
       <> Some (clampAtZero (addCounters (storedForApply bobStored) lossDelta)).
Proof.
  eexists. split; [vm_compute; reflexivity|].
  split; [right; left; reflexivity|].
  split; [vm_compute; reflexivity|].
  split; [vm_compute; reflexivity|].
  split; [vm_compute; reflexivity|].
  vm_compute. discriminate.
Qed.

(** C1, amended. On apply, every player and deck payload carries, for each
    of the five counters, the stored counter plus the accumulated delta,
    with no clamp; this holds for every update call of
    [updateStatsForMatch], whose accumulated deltas are never negative.  The
    written value is [max(0, stored + delta)] exactly when the sum is not
    negative. *)
Theorem apply_payload_adds :
  (forall player playerId delta,
      payloadCounters
        (CreateGameComponent.buildPlayerUpdatePayload player playerId delta)
      = Some (addCounters (storedForApply player) delta))
  /\ (forall deck deckName delta,
      payloadCounters
        (CreateGameComponent.buildDeckUpdatePayload deck deckName delta)
      = Some (addCounters (storedForApply deck) delta))
  /\ (forall st players' decks' reqs req payload,
      CreateGameComponent.updateStatsForMatch st players' decks' = Some reqs ->
      In req reqs ->
      payloadOf req = Some payload ->
      exists record delta,
        (In record players' \/ In record decks')
        /\ nonNegative delta
        /\ payloadCounters payload
           = Some (addCounters (storedForApply record) delta))
  /\ (forall c d : StatDelta,
      clampAtZero (addCounters c d) = addCounters c d
      <-> nonNegative (addCounters c d)).
Proof.
  split; [exact apply_player_payload|].
  split; [exact apply_deck_payload|].
  split; [|intros c d; apply clamp_fixed_iff].
  intros st players' decks' reqs req payload Hreqs Hin Hpay.
  destruct (updateStatsForMatch_payloads _ _ _ _ _ _ Hreqs Hin Hpay)
    as (maps & record & delta & Hmaps & Horigin & Hc).
  destruct (updateStatsMaps_nonNegative _ _ Hmaps) as [Hp Hd].
  exists record, delta. split; [|split; [|exact Hc]].
  - destruct Horigin as [[Hr _]|[Hr _]]; auto.
  - destruct Horigin as [[_ [k Hk]]|[_ [k Hk]]]; eauto.
Qed.

Lemma apply_payload_adds_witness :
  CreateGameComponent.updateStatsForMatch gameState snapshotPlayers snapshotDecks
  = Some gameRequests
  /\ In (PlayerUpdate 1 annPayload) gameRequests
  /\ payloadOf (PlayerUpdate 1 annPayload) = Some annPayload
  /\ exists record delta,
       (In record snapshotPlayers \/ In record snapshotDecks)
       /\ nonNegative delta
       /\ payloadCounters annPayload
          = Some (addCounters (storedForApply record) delta).
Proof.
  assert (Hreqs : CreateGameComponent.updateStatsForMatch
                    gameState snapshotPlayers snapshotDecks = Some gameRequests)
    by (vm_compute; reflexivity).
  assert (Hin : In (PlayerUpdate 1 annPayload) gameRequests)
    by (vm_compute; left; reflexivity).
  split; [exact Hreqs|]. split; [exact Hin|]. split; [reflexivity|].
  exact (proj1 (proj2 (proj2 apply_payload_adds))
           gameState snapshotPlayers snapshotDecks gameRequests
           (PlayerUpdate 1 annPayload) annPayload Hreqs Hin eq_refl).
Defined.

(** ** Deck deltas on apply *)

Lemma buildLossDelta_lossOnly r c :
  CreateGameComponent.buildLossDelta r c
  = lossOnly (CreateGameComponent.buildDelta r c).
Proof. destruct r, c; reflexivity. Qed.

Lemma lossOnly_mergeDelta a b :
  lossOnly (CreateGameComponent.mergeDelta a b)
  = CreateGameComponent.mergeDelta (lossOnly a) (lossOnly b).
Proof. reflexivity. Qed.

Lemma JsMap_get_mapDeltas f (m : list (string * StatDelta)) k :
  JsMap.get (mapDeltas f m) k = f <$> JsMap.get m k.
Proof.
  induction m as [|[k' v] m IH]; simpl; [reflexivity|].
  case_decide; [reflexivity | exact IH].
Qed.

Lemma JsMap_set_mapDeltas f (m : list (string * StatDelta)) k v :
  JsMap.set (mapDeltas f m) k (f v) = mapDeltas f (JsMap.set m k v).
Proof.
  induction m as [|[k' v'] m IH]; simpl; [reflexivity|].
  case_decide; simpl; [reflexivity | now rewrite IH].
Qed.

Lemma accumulate_lossOnly (m : list (string * StatDelta)) k d :
  CreateGameComponent.accumulate (mapDeltas lossOnly m) k (lossOnly d)
  = mapDeltas lossOnly (CreateGameComponent.accumulate m k d).
Proof.
  unfold CreateGameComponent.accumulate.
  rewrite JsMap_get_mapDeltas, <- JsMap_set_mapDeltas.
  destruct (JsMap.get m k); reflexivity.
Qed.

Lemma deckDeltasWith_lossOnly st c ss : forall start,
  deckDeltasWith CreateGameComponent.buildLossDelta st c ss (mapDeltas lossOnly start)
  = mapDeltas lossOnly (deckDeltasWith CreateGameComponent.buildDelta st c ss start).
Proof.
  unfold deckDeltasWith.
  induction ss as [|slot ss IH]; intros start; simpl; [reflexivity|].
  destruct (deckNameOfSlot st slot) as [deckName|]; [|apply IH].
  rewrite buildLossDelta_lossOnly, accumulate_lossOnly. apply IH.
Qed.

Lemma applySlots_deckDeltaMap st c ss : forall acc acc',
  CreateGameComponent.applySlots st c acc ss = Some acc' ->
  CreateGameComponent.deckDeltaMap acc'
  = deckDeltasWith CreateGameComponent.buildLossDelta st c ss
      (CreateGameComponent.deckDeltaMap acc).
Proof.
  unfold deckDeltasWith.
  induction ss as [|slot ss IH]; intros acc acc'; simpl.
  - now intros [= <-].
  - destruct (CreateGameComponent.applySlot st c acc slot) as [acc1|] eqn:E;
      [|discriminate].
    intros Hrest. rewrite (IH _ _ Hrest). f_equal.
    unfold CreateGameComponent.applySlot in E. unfold deckNameOfSlot.
    destruct (CreateGameComponent.deckIndex slot) as [j|].
    + destruct (CreateGameComponent.decks st !! j) as [deck|]; [|discriminate].
      cbv zeta.
      destruct (CreateGameComponent.getDeckNameForUpdate deck) as [n|];
        simpl in *; [destruct (String.eqb n ""); simpl in *|];
        injection E as <-; reflexivity.
    + injection E as <-. reflexivity.
Qed.

(** C3, as stated, fails: Ann's winning seat accumulates [{wins: 1}] under
    her player id and the zero delta under her deck "Rona". *)
Lemma deck_delta_counterexample :
  exists maps,
    CreateGameComponent.updateStatsMaps gameState = Some maps
    /\ JsMap.get (CreateGameComponent.playerDeltaMap maps) 1
       = Some {| wins := 1; losses := 0; ties := 0; casualWins := 0; casualLosses := 0 |}
    /\ JsMap.get (CreateGameComponent.deckDeltaMap maps) "Rona"
       = Some {| wins := 0; losses := 0; ties := 0; casualWins := 0; casualLosses := 0 |}
    /\ JsMap.get (CreateGameComponent.deckDeltaMap maps) "Rona"
       <> JsMap.get (CreateGameComponent.playerDeltaMap maps) 1.
Proof.
  eexists. split; [vm_compute; reflexivity|].
  split; [vm_compute; reflexivity|].
  split; [vm_compute; reflexivity|].
  vm_compute. discriminate.
Qed.

(** C3, amended. On apply, the delta merged under a seat's deck name is
    [buildLossDelta], the loss part of the resolved delta merged under the
    seat's player identity: losses and casualLosses agree, wins, ties and
    casualWins are 0.  The two deltas are equal exactly for a loss (or an
    unset result), and the deck map of [updateStatsForMatch] is the loss
    part of what accumulating the full deltas under the same deck names
    would give. *)
Theorem deck_delta_is_loss_part :
  (forall r c,
      CreateGameComponent.buildLossDelta r c
      = lossOnly (CreateGameComponent.buildDelta r c))
  /\ (forall r c,
      CreateGameComponent.buildLossDelta r c = CreateGameComponent.buildDelta r c
      <-> (r = CreateGameComponent.Loss \/ r = CreateGameComponent.Empty))
  /\ (forall st maps,
      CreateGameComponent.updateStatsMaps st = Some maps ->
      CreateGameComponent.deckDeltaMap maps
      = mapDeltas lossOnly
          (deckDeltasWith CreateGameComponent.buildDelta st
             (bool_decide (CreateGameComponent.gameFormat st = CreateGameComponent.casual))
             (CreateGameComponent.slots st) [])).
Proof.
  split; [exact buildLossDelta_lossOnly|]. split.
  - intros r c. split.
    + destruct r, c; simpl; intros H; try discriminate; auto.
    + intros [-> | ->]; reflexivity.
  - intros st maps H. unfold CreateGameComponent.updateStatsMaps in H.
    rewrite (applySlots_deckDeltaMap _ _ _ _ _ H). simpl.
    apply (deckDeltasWith_lossOnly st _ _ []).
Qed.

Lemma deck_delta_is_loss_part_witness :
  CreateGameComponent.updateStatsMaps gameState
  = Some (CreateGameComponent.mkMaps
            [(1, CreateGameComponent.buildDelta CreateGameComponent.Win false);
             (2, lossDelta); (3, lossDelta); (4, lossDelta)]
            [("Rona", zeroDelta); ("Kess", lossDelta);
             ("Atla", lossDelta); ("Ur", lossDelta)])
  /\ [("Rona", zeroDelta); ("Kess", lossDelta); ("Atla", lossDelta); ("Ur", lossDelta)]
     = mapDeltas lossOnly
         (deckDeltasWith CreateGameComponent.buildDelta gameState
            (bool_decide (CreateGameComponent.gameFormat gameState
                          = CreateGameComponent.casual))
            (CreateGameComponent.slots gameState) []).
Proof.
  assert (H : CreateGameComponent.updateStatsMaps gameState
              = Some (CreateGameComponent.mkMaps
                        [(1, CreateGameComponent.buildDelta CreateGameComponent.Win false);
                         (2, lossDelta); (3, lossDelta); (4, lossDelta)]
                        [("Rona", zeroDelta); ("Kess", lossDelta);
                         ("Atla", lossDelta); ("Ur", lossDelta)]))
    by (vm_compute; reflexivity).
  split; [exact H|].
  exact (proj2 (proj2 deck_delta_is_loss_part) gameState _ H).
Defined.

(** ** Favorite decks *)

Lemma bumpCount_normalized {K : Type} `{EqDecision K}
    (counts : list (K * list (string * Z))) (key : K) (deck : string) :
  allDeckKeysNormalized counts ->
  allDeckKeysNormalized
    (CreateGameComponent.bumpCount counts key (CreateGameComponent.normalizeDeckKey deck)).
Proof.
  intros Hc k deckMap deckKey n Hin Hd.
  unfold CreateGameComponent.bumpCount in Hin.
  apply JsMap_set_In in Hin as [Hin|[_ ->]]; [eauto|].
  apply JsMap_set_In in Hd as [Hd|[-> _]]; [|eauto].
  destruct (JsMap.get counts key) as [old|] eqn:Hg; simpl in Hd; [|destruct Hd].
  apply JsMap_get_In in Hg. eauto.
Qed.

Lemma bumpName_normalized counts playerName deckName :
  allDeckKeysNormalized counts ->
  allDeckKeysNormalized (CreateGameComponent.bumpName counts playerName deckName).
Proof.
  intros Hc. unfold CreateGameComponent.bumpName.
  destruct (_ || _)%bool; [exact Hc|]. cbv zeta.
  destruct (_ || _)%bool; [exact Hc|]. now apply bumpCount_normalized.
Qed.

Lemma countMatch_normalized acc m :
  allDeckKeysNormalized (fst acc) ->
  allDeckKeysNormalized (fst (CreateGameComponent.countMatch acc m)).
Proof.
  destruct acc as [countsByName countsById]. simpl. intros Hc.
  repeat apply bumpName_normalized.
  destruct (negb _); [now apply bumpName_normalized | exact Hc].
Qed.

Lemma countMatches_normalized matches : forall acc,
  allDeckKeysNormalized (fst acc) ->
  allDeckKeysNormalized (fst (fold_left CreateGameComponent.countMatch matches acc)).
Proof.
  induction matches as [|m matches IH]; intros acc Hc; simpl; [exact Hc|].
  apply IH. now apply countMatch_normalized.
Qed.

Lemma bestDeck_fold (deckMap : list (string * Z)) : forall best,
  let r := fold_left
             (fun '(bestDeck, bestCount) '(deckName, count) =>
                if bestCount <? count then (deckName, count) else (bestDeck, bestCount))
             deckMap best in
  r = best \/ In r deckMap.
Proof.
  induction deckMap as [|[deckName count] deckMap IH]; intros [bestDeck bestCount];
    simpl; [now left|].
  destruct (bestCount <? count).
  - destruct (IH (deckName, count)) as [-> | Hin]; [right; now left | right; now right].
  - destruct (IH (bestDeck, bestCount)) as [-> | Hin]; [now left | right; now right].
Qed.

Lemma bestDeckOf_In (deckMap : list (string * Z)) :
  CreateGameComponent.bestDeckOf deckMap = ""
  \/ exists n, In (CreateGameComponent.bestDeckOf deckMap, n) deckMap.
Proof.
  unfold CreateGameComponent.bestDeckOf.
  destruct (bestDeck_fold deckMap ("", -1)) as [-> | Hin]; [now left|].
  right. destruct (fold_left _ deckMap _) as [d n]. now exists n.
Qed.

Lemma favoritesOf_In {K : Type} `{EqDecision K}
    (counts : list (K * list (string * Z))) : forall start k v,
  In (k, v)
     (fold_left
        (fun favorites '(playerKey, deckMap) =>
           let bestDeck := CreateGameComponent.bestDeckOf deckMap in
           if negb (String.eqb bestDeck "") then JsMap.set favorites playerKey bestDeck
           else favorites)
        counts start) ->
  In (k, v) start
  \/ exists deckMap,
       In (k, deckMap) counts
       /\ v = CreateGameComponent.bestDeckOf deckMap /\ v <> "".
Proof.
  induction counts as [|[playerKey deckMap] counts IH]; intros start k v; simpl;
    [now left|].
  intros Hin. apply IH in Hin as [Hin|(dm & Hdm & Hv)];
    [|right; exists dm; split; [now right | exact Hv]].
  destruct (String.eqb (CreateGameComponent.bestDeckOf deckMap) "") eqn:E;
    simpl in Hin; [now left|].
  apply JsMap_set_In in Hin as [Hin|[-> ->]]; [now left|].
  right. exists deckMap. split; [now left|]. split; [reflexivity|].
  now apply String.eqb_neq.
Qed.

Lemma byName_normalized matches k v :
  JsMap.get (CreateGameComponent.byName
               (CreateGameComponent.buildFavoriteDeckMaps matches)) k = Some v ->
  exists deck, v = CreateGameComponent.normalizeDeckKey deck.
Proof.
  unfold CreateGameComponent.buildFavoriteDeckMaps.
  pose proof (countMatches_normalized matches ([], [])) as Hn.
  destruct (fold_left CreateGameComponent.countMatch matches ([], []))
    as [countsByName countsById].
  simpl in *. intros Hg. apply JsMap_get_In in Hg.
  unfold CreateGameComponent.favoritesOf in Hg.
  apply favoritesOf_In in Hg as [[]|(deckMap & Hdm & -> & Hne)].
  destruct (bestDeckOf_In deckMap) as [He|[n Hin]]; [contradiction|].
  eapply Hn; [|exact Hdm|exact Hin]. intros ? ? ? ? [].
Qed.

(** C4, as stated, fails: for either way of recording player A, the by-name
    map holds ["monored"] at key ["a"], not ["Mono Red"]; the players page's
    single map holds ["Mono Red"], but under key ["name:A"]. *)
Lemma favorite_deck_counterexample :
  JsMap.get (CreateGameComponent.byName
               (CreateGameComponent.buildFavoriteDeckMaps historyAsWinner)) "a"
  = Some "monored"
  /\ JsMap.get (CreateGameComponent.byName
                  (CreateGameComponent.buildFavoriteDeckMaps historyAsOpponent)) "a"
     = Some "monored"
  /\ JsMap.get (CreateGameComponent.byName
                  (CreateGameComponent.buildFavoriteDeckMaps historyAsWinner)) "a"
     <> Some "Mono Red"
  /\ JsMap.get (CreateGameComponent.byName
                  (CreateGameComponent.buildFavoriteDeckMaps historyAsOpponent)) "a"
     <> Some "Mono Red"
  /\ JsMap.get (PlayersComponent.buildFavoriteDeckMap historyAsOpponent) "a" = None
  /\ JsMap.get (PlayersComponent.buildFavoriteDeckMap historyAsOpponent) "name:A"
     = Some "Mono Red".
Proof.
  repeat split; try (vm_compute; reflexivity); vm_compute; discriminate.
Qed.

(** C4, amended. For the match list where player A played "Mono Red" twice
    and "Izzet" once, the by-name map at key ["a"] yields ["monored"], the
    normalized key of the deck name (trimmed, lower-cased, characters
    outside [a-z0-9] removed); every value of the by-name map is such a
    normalized key. *)
Theorem favorite_deck_normalized_key :
  JsMap.get (CreateGameComponent.byName
               (CreateGameComponent.buildFavoriteDeckMaps historyAsWinner)) "a"
  = Some (CreateGameComponent.normalizeDeckKey "Mono Red")
  /\ JsMap.get (CreateGameComponent.byName
                  (CreateGameComponent.buildFavoriteDeckMaps historyAsOpponent)) "a"
     = Some (CreateGameComponent.normalizeDeckKey "Mono Red")
  /\ CreateGameComponent.normalizeDeckKey "Mono Red" = "monored"
  /\ (forall matches k v,
      JsMap.get (CreateGameComponent.byName
                   (CreateGameComponent.buildFavoriteDeckMaps matches)) k = Some v ->
      exists deck, v = CreateGameComponent.normalizeDeckKey deck).
Proof.
  split; [vm_compute; reflexivity|].
  split; [vm_compute; reflexivity|].
  split; [vm_compute; reflexivity|].
  exact byName_normalized.
Qed.

Lemma favorite_deck_normalized_key_witness :
  JsMap.get (CreateGameComponent.byName
               (CreateGameComponent.buildFavoriteDeckMaps historyAsWinner)) "a"
  = Some "monored"
  /\ exists deck, "monored" = CreateGameComponent.normalizeDeckKey deck.
Proof.
  assert (H : JsMap.get (CreateGameComponent.byName
                           (CreateGameComponent.buildFavoriteDeckMaps historyAsWinner))
                "a" = Some "monored") by (vm_compute; reflexivity).
  split; [exact H|].
  exact (proj2 (proj2 (proj2 favorite_deck_normalized_key)) historyAsWinner "a" "monored" H).
Defined.

(** ** Win percentage *)







(* ===================================================================== *)
(** * Further properties of the components *)
(* ===================================================================== *)

(** ** Accumulating deltas per identity *)

Section AccumulateFacts.
Context {A K : Type} `{EqDecision K}.
Variable key : A -> option K.
Variable delta : A -> StatDelta.

Lemma seatsOf_cons_hit a l k :
  key a = Some k -> seatsOf key k (a :: l) = a :: seatsOf key k l.
Proof. intros Hk. unfold seatsOf. now rewrite filter_cons_True. Qed.

Lemma seatsOf_cons_miss a l k :
  key a <> Some k -> seatsOf key k (a :: l) = seatsOf key k l.
Proof. intros Hk. unfold seatsOf. now rewrite filter_cons_False. Qed.

Lemma accumulateAll_get l : forall start k,
  JsMap.get (accumulateAll key delta start l) k
  = match JsMap.get start k with
    | Some d =>
        Some (fold_left CreateGameComponent.mergeDelta
                (map delta (seatsOf key k l)) d)
    | None => mergeSeats (map delta (seatsOf key k l))
    end.
Proof.
  induction l as [|a l IH]; intros start k.
  - simpl. now destruct (JsMap.get start k).
  - change (accumulateAll key delta start (a :: l))
      with (accumulateAll key delta
              match key a with
              | Some k0 => CreateGameComponent.accumulate start k0 (delta a)
              | None => start
              end l).
    rewrite IH. destruct (key a) as [k0|] eqn:Hk.
    + unfold CreateGameComponent.accumulate.
      destruct (decide (k0 = k)) as [->|Hne].
      * rewrite JsMap_get_set_eq, (seatsOf_cons_hit _ _ _ Hk).
        now destruct (JsMap.get start k).
      * rewrite JsMap_get_set_ne by exact Hne.
        rewrite seatsOf_cons_miss by congruence. reflexivity.
    + rewrite seatsOf_cons_miss by congruence. reflexivity.
Qed.

Lemma JsMap_set_keys {V : Type} (m : list (K * V)) k v :
  map fst (JsMap.set m k v)
  = if bool_decide (k ∈ map fst m) then map fst m else (map fst m ++ [k])%list.
Proof.
  induction m as [|[k' v'] m IH]; simpl; [reflexivity|].
  destruct (decide (k' = k)) as [->|Hk]; simpl.
  - rewrite bool_decide_eq_true_2 by apply list_elem_of_here. reflexivity.
  - rewrite IH. destruct (bool_decide (k ∈ map fst m)) eqn:Hin.
    + apply bool_decide_eq_true in Hin.
      rewrite bool_decide_eq_true_2 by now apply list_elem_of_further. reflexivity.
    + apply bool_decide_eq_false in Hin.
      rewrite bool_decide_eq_false_2; [reflexivity|].
      rewrite elem_of_cons. intros [?|?]; congruence.
Qed.

Lemma JsMap_set_NoDup {V : Type} (m : list (K * V)) k v :
  NoDup (map fst m) -> NoDup (map fst (JsMap.set m k v)).
Proof.
  intros Hm. rewrite JsMap_set_keys.
  destruct (bool_decide (k ∈ map fst m)) eqn:Hin; [exact Hm|].
  apply bool_decide_eq_false in Hin.
  apply NoDup_app. split; [exact Hm|]. split.
  - intros x Hx Hk. apply list_elem_of_singleton in Hk. congruence.
  - apply NoDup_singleton.
Qed.

Lemma accumulateAll_NoDup l : forall start,
  NoDup (map fst start) -> NoDup (map fst (accumulateAll key delta start l)).
Proof.
  induction l as [|a l IH]; intros start Hs; [exact Hs|].
  simpl. apply IH. destruct (key a); [|exact Hs].
  now apply JsMap_set_NoDup.
Qed.

End AccumulateFacts.

(** ** The apply pass: what is accumulated, when it fails, what it sends *)

Lemma applySlot_playerDeltaMap st c acc slot acc' :
  CreateGameComponent.applySlot st c acc slot = Some acc' ->
  CreateGameComponent.playerDeltaMap acc'
  = match slotPlayerId st slot with
    | Some k =>
        CreateGameComponent.accumulate (CreateGameComponent.playerDeltaMap acc) k
          (CreateGameComponent.buildDelta (CreateGameComponent.result slot) c)
    | None => CreateGameComponent.playerDeltaMap acc
    end.
Proof.
  unfold CreateGameComponent.applySlot, slotPlayerId. intros H.
  destruct (CreateGameComponent.deckIndex slot) as [j|].
  - destruct (CreateGameComponent.decks st !! j) as [deck|]; [|discriminate].
    destruct (Js.truthyStr _); injection H as <-; simpl;
      destruct (CreateGameComponent.playerIndex slot); reflexivity.
  - injection H as <-. simpl.
    destruct (CreateGameComponent.playerIndex slot); reflexivity.
Qed.

Lemma applySlots_playerDeltaMap st c ss : forall acc acc',
  CreateGameComponent.applySlots st c acc ss = Some acc' ->
  CreateGameComponent.playerDeltaMap acc'
  = accumulateAll (slotPlayerId st)
      (fun slot => CreateGameComponent.buildDelta (CreateGameComponent.result slot) c)
      (CreateGameComponent.playerDeltaMap acc) ss.
Proof.
  induction ss as [|slot ss IH]; intros acc acc'; simpl.
  - now intros [= <-].
  - destruct (CreateGameComponent.applySlot st c acc slot) as [acc1|] eqn:E;
      [|discriminate].
    intros Hrest. rewrite (IH _ _ Hrest).
    now rewrite (applySlot_playerDeltaMap _ _ _ _ _ E).
Qed.

Lemma applySlot_None st c acc slot :
  CreateGameComponent.applySlot st c acc slot = None
  <-> exists j, CreateGameComponent.deckIndex slot = Some j
                /\ CreateGameComponent.decks st !! j = None.
Proof.
  unfold CreateGameComponent.applySlot.
  destruct (CreateGameComponent.deckIndex slot) as [j|].
  - destruct (CreateGameComponent.decks st !! j) as [deck|] eqn:Hd.
    + split.
      * destruct (Js.truthyStr _); discriminate.
      * intros (j' & [= <-] & Hn). congruence.
    + split; [eauto | reflexivity].
  - split; [discriminate | intros (j & Hj & _); discriminate].
Qed.

Lemma applySlots_None st c ss : forall acc,
  CreateGameComponent.applySlots st c acc ss = None
  <-> exists slot j, In slot ss /\ CreateGameComponent.deckIndex slot = Some j
                     /\ CreateGameComponent.decks st !! j = None.
Proof.
  induction ss as [|slot ss IH]; intros acc; simpl.
  - split; [discriminate | intros (s & j & [] & _)].
  - destruct (CreateGameComponent.applySlot st c acc slot) as [acc1|] eqn:E.
    + rewrite IH. split.
      * intros (s & j & Hin & Hs). exists s, j. split; [now right | exact Hs].
      * intros (s & j & [<-|Hin] & Hj & Hn); [|now exists s, j].
        assert (CreateGameComponent.applySlot st c acc slot = None)
          by (apply applySlot_None; eauto).
        congruence.
    + split; [|reflexivity]. intros _.
      apply applySlot_None in E as (j & Hj & Hn). exists slot, j. auto.
Qed.

(** X1. On apply, the delta stored under a player id is the merge, in slot
    order, of [buildDelta] of exactly the slots whose selected player has
    that id, and the delta stored under a deck name is the merge of
    [buildLossDelta] of exactly the slots whose selected deck has that name;
    an identity that no slot selects has no entry. *)
Theorem apply_accumulates_per_identity :
  forall st maps,
    CreateGameComponent.updateStatsMaps st = Some maps ->
    (forall playerId,
        JsMap.get (CreateGameComponent.playerDeltaMap maps) playerId
        = mergeSeats (map (slotDelta st)
                          (seatsOf (slotPlayerId st) playerId
                                   (CreateGameComponent.slots st))))
    /\ (forall deckName,
        JsMap.get (CreateGameComponent.deckDeltaMap maps) deckName
        = mergeSeats (map (slotDeckDelta st)
                          (seatsOf (deckNameOfSlot st) deckName
                                   (CreateGameComponent.slots st)))).
Proof.
  intros st maps H. unfold CreateGameComponent.updateStatsMaps in H. split.
  - intros playerId. rewrite (applySlots_playerDeltaMap _ _ _ _ _ H).
    now rewrite accumulateAll_get.
  - intros deckName. rewrite (applySlots_deckDeltaMap _ _ _ _ _ H).
    change (deckDeltasWith CreateGameComponent.buildLossDelta st
              (bool_decide (CreateGameComponent.gameFormat st
                            = CreateGameComponent.casual))
              (CreateGameComponent.slots st)
              (CreateGameComponent.deckDeltaMap (CreateGameComponent.mkMaps [] [])))
      with (accumulateAll (deckNameOfSlot st) (slotDeckDelta st) []
              (CreateGameComponent.slots st)).
    now rewrite accumulateAll_get.
Qed.

Lemma apply_accumulates_per_identity_witness :
  CreateGameComponent.updateStatsMaps repeatedPlayerState
  = Some (CreateGameComponent.mkMaps
            [(1, {| wins := 1; losses := 1; ties := 0;
                    casualWins := 1; casualLosses := 1 |});
             (2, {| wins := 0; losses := 1; ties := 0;
                    casualWins := 0; casualLosses := 1 |})]
            [("Rona", zeroDelta);
             ("Kess", {| wins := 0; losses := 2; ties := 0;
                         casualWins := 0; casualLosses := 2 |})])
  /\ JsMap.get [(1, {| wins := 1; losses := 1; ties := 0;
                       casualWins := 1; casualLosses := 1 |});
                (2, {| wins := 0; losses := 1; ties := 0;
                       casualWins := 0; casualLosses := 1 |})] 1
     = mergeSeats (map (slotDelta repeatedPlayerState)
                       (seatsOf (slotPlayerId repeatedPlayerState) 1
                                (CreateGameComponent.slots repeatedPlayerState))).
Proof.
  assert (H : CreateGameComponent.updateStatsMaps repeatedPlayerState
              = Some (CreateGameComponent.mkMaps
                        [(1, {| wins := 1; losses := 1; ties := 0;
                                casualWins := 1; casualLosses := 1 |});
                         (2, {| wins := 0; losses := 1; ties := 0;
                                casualWins := 0; casualLosses := 1 |})]
                        [("Rona", zeroDelta);
                         ("Kess", {| wins := 0; losses := 2; ties := 0;
                                     casualWins := 0; casualLosses := 2 |})]))
    by (vm_compute; reflexivity).
  split; [exact H|].
  exact (proj1 (apply_accumulates_per_identity repeatedPlayerState _ H) 1).
Defined.

(** X2. The apply pass fails (with the [TypeError] of reading a field of
    [undefined]) exactly when some slot's deck index selects no deck; a
    player index that selects no player never makes it fail. *)
Theorem apply_fails_iff_deck_out_of_range :
  forall st,
    CreateGameComponent.updateStatsMaps st = None
    <-> exists slot j,
          In slot (CreateGameComponent.slots st)
          /\ CreateGameComponent.deckIndex slot = Some j
          /\ (length (CreateGameComponent.decks st) <= j)%nat.
Proof.
  intros st. unfold CreateGameComponent.updateStatsMaps.
  rewrite applySlots_None. split.
  - intros (slot & j & Hin & Hj & Hn). exists slot, j.
    apply lookup_ge_None in Hn. split; [exact Hin|]. split; [exact Hj | lia].
  - intros (slot & j & Hin & Hj & Hn). exists slot, j.
    split; [exact Hin|]. split; [exact Hj|]. apply lookup_ge_None. lia.
Qed.

Lemma apply_fails_iff_deck_out_of_range_witness :
  CreateGameComponent.updateStatsMaps brokenDeckState = None.
Proof.
  apply (proj2 (apply_fails_iff_deck_out_of_range brokenDeckState)).
  exists (CreateGameComponent.mkSlot (Some 0%nat) (Some 7%nat) CreateGameComponent.Win),
         7%nat.
  split; [now left|]. split; [reflexivity | simpl; lia].
Defined.

Lemma updateStatsForMatch_requests st players' decks' reqs :
  CreateGameComponent.updateStatsForMatch st players' decks' = Some reqs ->
  exists maps,
    CreateGameComponent.updateStatsMaps st = Some maps
    /\ reqs = (map (applyPlayerRequest players')
                   (CreateGameComponent.playerDeltaMap maps)
               ++ map (applyDeckRequest decks')
                      (CreateGameComponent.deckDeltaMap maps))%list.
Proof.
  unfold CreateGameComponent.updateStatsForMatch.
  destruct (CreateGameComponent.updateStatsMaps st) as [maps|]; [|discriminate].
  intros H. exists maps. split; [reflexivity|].
  destruct (CreateGameComponent.playerDeltaMap maps) as [|p pm],
           (CreateGameComponent.deckDeltaMap maps) as [|d dm];
    injection H as <-; reflexivity.
Qed.

Lemma updateStatsMaps_NoDup st maps :
  CreateGameComponent.updateStatsMaps st = Some maps ->
  NoDup (map fst (CreateGameComponent.playerDeltaMap maps))
  /\ NoDup (map fst (CreateGameComponent.deckDeltaMap maps)).
Proof.
  intros H. unfold CreateGameComponent.updateStatsMaps in H. split.
  - rewrite (applySlots_playerDeltaMap _ _ _ _ _ H).
    apply accumulateAll_NoDup. constructor.
  - rewrite (applySlots_deckDeltaMap _ _ _ _ _ H).
    apply (accumulateAll_NoDup (deckNameOfSlot st)
             (fun slot => CreateGameComponent.buildLossDelta
                            (CreateGameComponent.result slot) _)).
    constructor.
Qed.

Section RequestKeys.
Context {K : Type}.
Variable toRequest : K * StatDelta -> request.
Variable keyOf : request -> option K.
Hypothesis keyOf_toRequest :
  forall k d, keyOf (toRequest (k, d)) = Some k \/ keyOf (toRequest (k, d)) = None.

Lemma request_keys_sublist (m : list (K * StatDelta)) :
  sublist (omap keyOf (map toRequest m)) (map fst m).
Proof.
  induction m as [|[k d] m IH]; simpl; [constructor|].
  destruct (keyOf_toRequest k d) as [-> | ->]; now constructor.
Qed.

End RequestKeys.

Lemma request_keys_none {K J : Type} (toRequest : K * StatDelta -> request)
    (keyOf : request -> option J) (m : list (K * StatDelta)) :
  (forall k d, keyOf (toRequest (k, d)) = None) ->
  omap keyOf (map toRequest m) = [].
Proof.
  intros Hn. induction m as [|[k d] m IH]; simpl; [reflexivity|].
  now rewrite Hn.
Qed.

Lemma JsMap_set_length {K V : Type} `{EqDecision K} (m : list (K * V)) k v :
  (length (JsMap.set m k v) <= S (length m))%nat.
Proof.
  induction m as [|[k' v'] m IH]; simpl; [lia|].
  case_decide; simpl; lia.
Qed.

Lemma accumulateAll_length {A K : Type} `{EqDecision K}
    (key : A -> option K) (delta : A -> StatDelta) (l : list A) : forall start,
  (length (accumulateAll key delta start l) <= length start + length l)%nat.
Proof.
  induction l as [|a l IH]; intros start; simpl; [lia|].
  etransitivity; [apply IH|].
  destruct (key a) as [k|]; [|lia].
  pose proof (JsMap_set_length start k
                match JsMap.get start k with
                | Some existing => CreateGameComponent.mergeDelta existing (delta a)
                | None => delta a
                end) as Hl.
  unfold CreateGameComponent.accumulate. lia.
Qed.

Lemma applyPlayerRequest_id players' k d :
  playerUpdateId (applyPlayerRequest players' (k, d)) = Some k
  \/ playerUpdateId (applyPlayerRequest players' (k, d)) = None.
Proof. simpl. destruct (find _ players'); simpl; auto. Qed.

Lemma applyDeckRequest_name decks' k d :
  deckUpdateName (applyDeckRequest decks' (k, d)) = Some k
  \/ deckUpdateName (applyDeckRequest decks' (k, d)) = None.
Proof. simpl. destruct (find _ decks'); simpl; auto. Qed.

Lemma applyPlayerRequest_no_deck players' k d :
  deckUpdateName (applyPlayerRequest players' (k, d)) = None.
Proof. simpl. destruct (find _ players'); reflexivity. Qed.

Lemma applyDeckRequest_no_player decks' k d :
  playerUpdateId (applyDeckRequest decks' (k, d)) = None.
Proof. simpl. destruct (find _ decks'); reflexivity. Qed.

(** X3. One apply pass sends at most one update per player id and at most
    one per deck name, however many slots select the same player or deck;
    it makes one request slot per distinct identity, so never more than two
    per slot. *)
Theorem apply_one_update_per_identity :
  forall st players' decks' reqs,
    CreateGameComponent.updateStatsForMatch st players' decks' = Some reqs ->
    NoDup (omap playerUpdateId reqs)
    /\ NoDup (omap deckUpdateName reqs)
    /\ (length reqs <= 2 * length (CreateGameComponent.slots st))%nat.
Proof.
  intros st players' decks' reqs H.
  destruct (updateStatsForMatch_requests _ _ _ _ H) as (maps & Hm & ->).
  destruct (updateStatsMaps_NoDup _ _ Hm) as [Hp Hd].
  rewrite !omap_app.
  rewrite (request_keys_none (applyDeckRequest decks') playerUpdateId)
    by apply applyDeckRequest_no_player.
  rewrite (request_keys_none (applyPlayerRequest players') deckUpdateName)
    by apply applyPlayerRequest_no_deck.
  rewrite app_nil_r. simpl.
  split; [|split].
  - eapply sublist_NoDup; [exact Hp | apply request_keys_sublist; apply applyPlayerRequest_id].
  - eapply sublist_NoDup; [exact Hd | apply request_keys_sublist; apply applyDeckRequest_name].
  - rewrite length_app, !length_map.
    unfold CreateGameComponent.updateStatsMaps in Hm.
    rewrite (applySlots_playerDeltaMap _ _ _ _ _ Hm),
            (applySlots_deckDeltaMap _ _ _ _ _ Hm).
    assert (Hpl :
      (length (accumulateAll (slotPlayerId st)
                 (fun slot => CreateGameComponent.buildDelta
                                (CreateGameComponent.result slot)
                                (bool_decide (CreateGameComponent.gameFormat st
                                              = CreateGameComponent.casual)))
                 (CreateGameComponent.playerDeltaMap (CreateGameComponent.mkMaps [] []))
                 (CreateGameComponent.slots st))
       <= length (CreateGameComponent.slots st))%nat)
      by exact (accumulateAll_length _ _ _ []).
    assert (Hdl :
      (length (deckDeltasWith CreateGameComponent.buildLossDelta st
                 (bool_decide (CreateGameComponent.gameFormat st
                               = CreateGameComponent.casual))
                 (CreateGameComponent.slots st)
                 (CreateGameComponent.deckDeltaMap (CreateGameComponent.mkMaps [] [])))
       <= length (CreateGameComponent.slots st))%nat)
      by exact (accumulateAll_length (deckNameOfSlot st)
                  (fun slot => CreateGameComponent.buildLossDelta
                                 (CreateGameComponent.result slot) _) _ []).
    lia.
Qed.

Lemma apply_one_update_per_identity_witness :
  CreateGameComponent.updateStatsForMatch repeatedPlayerState snapshotPlayers snapshotDecks
  = Some (default []
            (CreateGameComponent.updateStatsForMatch
               repeatedPlayerState snapshotPlayers snapshotDecks))
  /\ omap playerUpdateId
       (default []
          (CreateGameComponent.updateStatsForMatch
             repeatedPlayerState snapshotPlayers snapshotDecks)) = [1; 2]
  /\ NoDup (omap playerUpdateId
              (default []
                 (CreateGameComponent.updateStatsForMatch
                    repeatedPlayerState snapshotPlayers snapshotDecks))).
Proof.
  assert (H : CreateGameComponent.updateStatsForMatch
                repeatedPlayerState snapshotPlayers snapshotDecks
              = Some (default []
                        (CreateGameComponent.updateStatsForMatch
                           repeatedPlayerState snapshotPlayers snapshotDecks)))
    by (vm_compute; reflexivity).
  split; [exact H|]. split; [vm_compute; reflexivity|].
  exact (proj1 (apply_one_update_per_identity _ _ _ _ H)).
Defined.

(** ** The rollback pass: what is accumulated and what it sends *)

Lemma rollbackSeat_maps m acc seat :
  MatchHistoryComponent.rollbackSeat m acc seat
  = MatchHistoryComponent.mkMaps
      match rollbackPlayerKey m seat with
      | Some k =>
          CreateGameComponent.accumulate (MatchHistoryComponent.playerMap acc) k
            (rollbackDelta m seat)
      | None => MatchHistoryComponent.playerMap acc
      end
      match rollbackNameKey m seat with
      | Some k =>
          CreateGameComponent.accumulate (MatchHistoryComponent.nameMap acc) k
            (rollbackDelta m seat)
      | None => MatchHistoryComponent.nameMap acc
      end
      match rollbackDeckKey m seat with
      | Some k =>
          CreateGameComponent.accumulate (MatchHistoryComponent.deckMap acc) k
            (rollbackDelta m seat)
      | None => MatchHistoryComponent.deckMap acc
      end.
Proof.
  unfold MatchHistoryComponent.rollbackSeat, rollbackPlayerKey, rollbackNameKey,
    rollbackDeckKey, rollbackDelta, forwardDelta, seatFormat.
  destruct acc as [pm nm dm].
  destruct (MatchHistoryComponent.resolveSeatResult seat m) as [r|]; [|reflexivity].
  cbv zeta.
  destruct (MatchHistoryComponent.getSeatPlayerId seat) as [pid|];
    [|destruct (Js.truthyStr (MatchHistoryComponent.getSeatPlayerName seat))];
    destruct (Js.truthyStr (MatchHistoryComponent.getSeatDeckName seat));
    reflexivity.
Qed.

Lemma rollbackMaps_fold m seats : forall acc,
  fold_left (MatchHistoryComponent.rollbackSeat m) seats acc
  = MatchHistoryComponent.mkMaps
      (accumulateAll (rollbackPlayerKey m) (rollbackDelta m)
         (MatchHistoryComponent.playerMap acc) seats)
      (accumulateAll (rollbackNameKey m) (rollbackDelta m)
         (MatchHistoryComponent.nameMap acc) seats)
      (accumulateAll (rollbackDeckKey m) (rollbackDelta m)
         (MatchHistoryComponent.deckMap acc) seats).
Proof.
  induction seats as [|seat seats IH]; intros acc.
  - now destruct acc.
  - change (fold_left (MatchHistoryComponent.rollbackSeat m) (seat :: seats) acc)
      with (fold_left (MatchHistoryComponent.rollbackSeat m) seats
              (MatchHistoryComponent.rollbackSeat m acc seat)).
    rewrite IH, rollbackSeat_maps. reflexivity.
Qed.

Lemma rollbackMaps_accumulateAll m :
  MatchHistoryComponent.rollbackMaps m
  = MatchHistoryComponent.mkMaps
      (accumulateAll (rollbackPlayerKey m) (rollbackDelta m) []
         (MatchHistoryComponent.getMatchSeats m))
      (accumulateAll (rollbackNameKey m) (rollbackDelta m) []
         (MatchHistoryComponent.getMatchSeats m))
      (accumulateAll (rollbackDeckKey m) (rollbackDelta m) []
         (MatchHistoryComponent.getMatchSeats m)).
Proof. unfold MatchHistoryComponent.rollbackMaps. now rewrite rollbackMaps_fold. Qed.

Lemma invertDelta_mergeDelta a b :
  MatchHistoryComponent.invertDelta (CreateGameComponent.mergeDelta a b)
  = CreateGameComponent.mergeDelta (MatchHistoryComponent.invertDelta a)
      (MatchHistoryComponent.invertDelta b).
Proof.
  unfold MatchHistoryComponent.invertDelta, CreateGameComponent.mergeDelta; simpl.
  f_equal; lia.
Qed.

Lemma mergeSeats_invert {A : Type} (f : A -> StatDelta) (l : list A) :
  mergeSeats (map (fun a => MatchHistoryComponent.invertDelta (f a)) l)
  = MatchHistoryComponent.invertDelta <$> mergeSeats (map f l).
Proof.
  destruct l as [|a l]; simpl; [reflexivity|]. f_equal.
  generalize (f a). induction l as [|b l IH]; intros d; simpl; [reflexivity|].
  rewrite <- invertDelta_mergeDelta. apply IH.
Qed.

(** X4. On rollback, the delta stored under a player id, under a
    lower-cased player name (for seats without a numeric id) and under a
    deck name is the negation of the merge of the deltas that the resolved
    seats filed under that key stood for; seats whose result cannot be
    resolved contribute nothing. *)
Theorem rollback_accumulates_negated_deltas :
  forall m,
    (forall playerId,
        JsMap.get (MatchHistoryComponent.playerMap (MatchHistoryComponent.rollbackMaps m))
                  playerId
        = MatchHistoryComponent.invertDelta
          <$> mergeSeats (map (forwardDelta m)
                              (seatsOf (rollbackPlayerKey m) playerId
                                       (MatchHistoryComponent.getMatchSeats m))))
    /\ (forall playerName,
        JsMap.get (MatchHistoryComponent.nameMap (MatchHistoryComponent.rollbackMaps m))
                  playerName
        = MatchHistoryComponent.invertDelta
          <$> mergeSeats (map (forwardDelta m)
                              (seatsOf (rollbackNameKey m) playerName
                                       (MatchHistoryComponent.getMatchSeats m))))
    /\ (forall deckName,
        JsMap.get (MatchHistoryComponent.deckMap (MatchHistoryComponent.rollbackMaps m))
                  deckName
        = MatchHistoryComponent.invertDelta
          <$> mergeSeats (map (forwardDelta m)
                              (seatsOf (rollbackDeckKey m) deckName
                                       (MatchHistoryComponent.getMatchSeats m)))).
Proof.
  intros m. rewrite rollbackMaps_accumulateAll. simpl.
  repeat split; intros k; rewrite accumulateAll_get; simpl;
    apply (mergeSeats_invert (forwardDelta m)).
Qed.

Lemma accumulateAll_no_key {A K : Type} `{EqDecision K}
    (key : A -> option K) (delta : A -> StatDelta) (l : list A) start :
  (forall a, In a l -> key a = None) -> accumulateAll key delta start l = start.
Proof.
  revert start. induction l as [|a l IH]; intros start Hk; [reflexivity|].
  simpl. rewrite (Hk a) by now left. apply IH. intros b Hb. apply Hk. now right.
Qed.

Lemma rollbackStats_requests m players decks :
  MatchHistoryComponent.rollbackStats m players decks
  = (map (rollbackPlayerRequest players)
         (MatchHistoryComponent.playerMap (MatchHistoryComponent.rollbackMaps m))
     ++ map (rollbackNameRequest players)
            (MatchHistoryComponent.nameMap (MatchHistoryComponent.rollbackMaps m))
     ++ map (rollbackDeckRequest decks)
            (MatchHistoryComponent.deckMap (MatchHistoryComponent.rollbackMaps m)))%list.
Proof.
  unfold MatchHistoryComponent.rollbackStats, MatchHistoryComponent.rollbackMaps.
  destruct (MatchHistoryComponent.getMatchSeats m); reflexivity.
Qed.

(** X5. A deleted match none of whose seats has a resolvable result (in
    particular one with no seats) causes no request at all, whatever the
    fetched players and decks. *)
Theorem rollback_nothing_resolvable_no_request :
  forall m players decks,
    (forall seat, In seat (MatchHistoryComponent.getMatchSeats m) ->
                  MatchHistoryComponent.resolveSeatResult seat m = None) ->
    MatchHistoryComponent.rollbackStats m players decks = [].
Proof.
  intros m players decks Hnone.
  rewrite rollbackStats_requests, rollbackMaps_accumulateAll. simpl.
  rewrite !accumulateAll_no_key; [reflexivity| | |]; intros seat Hin;
    unfold rollbackDeckKey, rollbackNameKey, rollbackPlayerKey;
    now rewrite (Hnone seat Hin).
Qed.

Lemma rollback_nothing_resolvable_no_request_witness :
  (forall seat, In seat (MatchHistoryComponent.getMatchSeats silentMatch) ->
                MatchHistoryComponent.resolveSeatResult seat silentMatch = None)
  /\ MatchHistoryComponent.rollbackStats silentMatch storedPlayers storedDecks = [].
Proof.
  assert (H : forall seat,
             In seat (MatchHistoryComponent.getMatchSeats silentMatch) ->
             MatchHistoryComponent.resolveSeatResult seat silentMatch = None).
  { intros seat [<-|[<-|[]]]; vm_compute; reflexivity. }
  split; [exact H|].
  exact (rollback_nothing_resolvable_no_request silentMatch storedPlayers storedDecks H).
Defined.

(** ** Update calls only reach stored entities *)

Lemma player_payload_key (a b c d e f g : Js.value) :
  Js.get (list_to_map
            [ ("playerId", a); ("playerName", b); ("wins", c); ("losses", d);
              ("ties", e); ("casualWins", f); ("casualLosses", g) ]) "playerId" = a
  /\ Js.get (list_to_map
               [ ("playerId", a); ("playerName", b); ("wins", c); ("losses", d);
                 ("ties", e); ("casualWins", f); ("casualLosses", g) ]) "playerName" = b.
Proof. split; vm_compute; reflexivity. Qed.

Lemma deck_payload_key (a b c d e f g : Js.value) :
  Js.get (list_to_map
            [ ("deckName", a); ("playerID", b); ("wins", c); ("losses", d);
              ("ties", e); ("casualWins", f); ("casualLosses", g) ]) "deckName" = a
  /\ Js.get (list_to_map
               [ ("deckName", a); ("playerID", b); ("wins", c); ("losses", d);
                 ("ties", e); ("casualWins", f); ("casualLosses", g) ]) "playerID" = b.
Proof. split; vm_compute; reflexivity. Qed.

Lemma applyPlayerRequest_target players' k d playerId payload :
  applyPlayerRequest players' (k, d) = PlayerUpdate playerId payload ->
  exists player,
    In player players'
    /\ CreateGameComponent.getPlayerId (Some player) = Some playerId
    /\ Js.get payload "playerId" = Js.VNum playerId.
Proof.
  simpl. destruct (find _ players') as [player|] eqn:Hf; [|discriminate].
  intros [= <- <-]. apply find_some in Hf as [Hin Hid].
  apply bool_decide_eq_true in Hid. exists player. split; [exact Hin|].
  split; [exact Hid|].
  unfold CreateGameComponent.buildPlayerUpdatePayload. cbv zeta.
  apply player_payload_key.
Qed.

Lemma applyDeckRequest_target decks' k d deckName payload :
  applyDeckRequest decks' (k, d) = DeckUpdate deckName payload ->
  exists deck stored,
    In deck decks'
    /\ CreateGameComponent.getDeckNameForUpdate deck = Some stored
    /\ Js.toLowerCase stored = Js.toLowerCase deckName
    /\ Js.get payload "deckName" = Js.VStr deckName.
Proof.
  simpl. destruct (find _ decks') as [deck|] eqn:Hf; [|discriminate].
  intros [= <- <-]. apply find_some in Hf as [Hin Hname].
  destruct (CreateGameComponent.getDeckNameForUpdate deck) as [stored|] eqn:Hs;
    [|discriminate].
  apply String.eqb_eq in Hname. exists deck, stored.
  split; [exact Hin|]. split; [exact Hs|]. split; [exact Hname|].
  unfold CreateGameComponent.buildDeckUpdatePayload. cbv zeta.
  apply deck_payload_key.
Qed.

(** X6. On apply, every player update is keyed by the id of a player that
    is in the fetched snapshot and writes that id back, and every deck
    update is keyed by a deck name that matches, in any letter case, the
    name of a deck of the snapshot, and writes the name as the form had it;
    with nothing fetched, no update is sent. *)
Theorem apply_updates_reach_only_stored :
  forall st players' decks' reqs,
    CreateGameComponent.updateStatsForMatch st players' decks' = Some reqs ->
    (forall playerId payload,
        In (PlayerUpdate playerId payload) reqs ->
        exists player,
          In player players'
          /\ CreateGameComponent.getPlayerId (Some player) = Some playerId
          /\ Js.get payload "playerId" = Js.VNum playerId)
    /\ (forall deckName payload,
        In (DeckUpdate deckName payload) reqs ->
        exists deck stored,
          In deck decks'
          /\ CreateGameComponent.getDeckNameForUpdate deck = Some stored
          /\ Js.toLowerCase stored = Js.toLowerCase deckName
          /\ Js.get payload "deckName" = Js.VStr deckName)
    /\ (players' = [] -> decks' = [] ->
        forall req, In req reqs -> req = NoRequest).
Proof.
  intros st players' decks' reqs H.
  destruct (updateStatsForMatch_requests _ _ _ _ H) as (maps & _ & ->).
  split; [|split].
  - intros playerId payload Hin.
    apply in_app_iff in Hin as [Hin|Hin]; apply in_map_iff in Hin as ([k d] & Hreq & _).
    + eapply applyPlayerRequest_target, Hreq.
    + simpl in Hreq. destruct (find _ decks'); discriminate.
  - intros deckName payload Hin.
    apply in_app_iff in Hin as [Hin|Hin]; apply in_map_iff in Hin as ([k d] & Hreq & _).
    + simpl in Hreq. destruct (find _ players'); discriminate.
    + eapply applyDeckRequest_target, Hreq.
  - intros -> -> req Hin.
    apply in_app_iff in Hin as [Hin|Hin];
      apply in_map_iff in Hin as ([k d] & <- & _); reflexivity.
Qed.

Lemma apply_updates_reach_only_stored_witness :
  CreateGameComponent.updateStatsForMatch gameState snapshotPlayers snapshotDecks
  = Some gameRequests
  /\ In (DeckUpdate "Kess"
           (CreateGameComponent.buildDeckUpdatePayload
              (list_to_map [("deckName", Js.VStr "Kess"); ("losses", Js.VNum 1)])
              "Kess" lossDelta))
        gameRequests
  /\ exists deck stored,
       In deck snapshotDecks
       /\ CreateGameComponent.getDeckNameForUpdate deck = Some stored
       /\ Js.toLowerCase stored = Js.toLowerCase "Kess"
       /\ Js.get (CreateGameComponent.buildDeckUpdatePayload
                    (list_to_map [("deckName", Js.VStr "Kess"); ("losses", Js.VNum 1)])
                    "Kess" lossDelta) "deckName" = Js.VStr "Kess".
Proof.
  assert (H : CreateGameComponent.updateStatsForMatch
                gameState snapshotPlayers snapshotDecks = Some gameRequests)
    by (vm_compute; reflexivity).
  assert (Hin : In (DeckUpdate "Kess"
                      (CreateGameComponent.buildDeckUpdatePayload
                         (list_to_map [("deckName", Js.VStr "Kess");
                                       ("losses", Js.VNum 1)])
                         "Kess" lossDelta))
                   gameRequests)
    by (vm_compute; auto 10).
  split; [exact H|]. split; [exact Hin|].
  exact (proj1 (proj2 (apply_updates_reach_only_stored _ _ _ _ H)) _ _ Hin).
Defined.

Lemma rollbackPlayerRequest_target players k d playerId payload :
  rollbackPlayerRequest players (k, d) = PlayerUpdate playerId payload ->
  exists player,
    In player players
    /\ MatchHistoryComponent.getPlayerId player = Some playerId
    /\ Js.get payload "playerId" = Js.VNum playerId.
Proof.
  simpl. unfold MatchHistoryComponent.findPlayerById.
  destruct (find _ players) as [player|] eqn:Hf; [|discriminate].
  intros [= <- <-]. apply find_some in Hf as [Hin Hid].
  apply bool_decide_eq_true in Hid. exists player. split; [exact Hin|].
  split; [exact Hid|].
  unfold MatchHistoryComponent.buildPlayerUpdatePayload. cbv zeta.
  apply player_payload_key.
Qed.

Lemma rollbackNameRequest_target players k d playerId payload :
  rollbackNameRequest players (k, d) = PlayerUpdate playerId payload ->
  exists player,
    In player players
    /\ MatchHistoryComponent.getPlayerId player = Some playerId
    /\ Js.get payload "playerId" = Js.VNum playerId.
Proof.
  simpl. unfold MatchHistoryComponent.findPlayerByName.
  destruct (find _ players) as [player|] eqn:Hf; [|discriminate].
  destruct (MatchHistoryComponent.getPlayerId player) as [pid|] eqn:Hid;
    [|discriminate].
  intros [= <- <-]. apply find_some in Hf as [Hin _].
  exists player. split; [exact Hin|]. split; [exact Hid|].
  unfold MatchHistoryComponent.buildPlayerUpdatePayload. cbv zeta.
  apply player_payload_key.
Qed.

Lemma rollbackDeckRequest_target decks k d deckName payload :
  rollbackDeckRequest decks (k, d) = DeckUpdate deckName payload ->
  exists deck stored,
    In deck decks
    /\ MatchHistoryComponent.getDeckNameForUpdate deck = Some stored
    /\ Js.toLowerCase stored = Js.toLowerCase deckName
    /\ Js.get payload "deckName" = Js.VStr deckName.
Proof.
  simpl. unfold MatchHistoryComponent.findDeckByName.
  destruct (find _ decks) as [deck|] eqn:Hf; [|discriminate].
  intros [= <- <-]. apply find_some in Hf as [Hin Hname].
  destruct (MatchHistoryComponent.getDeckNameForUpdate deck) as [stored|] eqn:Hs;
    [|discriminate].
  apply String.eqb_eq in Hname. exists deck, stored.
  split; [exact Hin|]. split; [exact Hs|]. split; [exact Hname|].
  unfold MatchHistoryComponent.buildDeckUpdatePayload. cbv zeta.
  apply deck_payload_key.
Qed.

(** X7. On rollback, every player update, whether its seat named the
    player by id or by name, is keyed by the id of a player of the fetched
    snapshot and writes that id back; every deck update is keyed by a name
    matching, in any letter case, a deck of the snapshot and writes the
    seat's spelling; deck updates of one pass have distinct names; with
    nothing fetched, no update is sent. *)
Theorem rollback_updates_reach_only_stored :
  forall m players decks,
    (forall playerId payload,
        In (PlayerUpdate playerId payload)
           (MatchHistoryComponent.rollbackStats m players decks) ->
        exists player,
          In player players
          /\ MatchHistoryComponent.getPlayerId player = Some playerId
          /\ Js.get payload "playerId" = Js.VNum playerId)
    /\ (forall deckName payload,
        In (DeckUpdate deckName payload)
           (MatchHistoryComponent.rollbackStats m players decks) ->
        exists deck stored,
          In deck decks
          /\ MatchHistoryComponent.getDeckNameForUpdate deck = Some stored
          /\ Js.toLowerCase stored = Js.toLowerCase deckName
          /\ Js.get payload "deckName" = Js.VStr deckName)
    /\ NoDup (omap deckUpdateName (MatchHistoryComponent.rollbackStats m players decks))
    /\ (forall req, In req (MatchHistoryComponent.rollbackStats m [] []) ->
                    req = NoRequest).
Proof.
  intros m players decks. split; [|split; [|split]].
  - intros playerId payload. rewrite rollbackStats_requests, !in_app_iff, !in_map_iff.
    intros [([k d] & Hreq & _)|[([k d] & Hreq & _)|([k d] & Hreq & _)]].
    + eapply rollbackPlayerRequest_target, Hreq.
    + eapply rollbackNameRequest_target, Hreq.
    + simpl in Hreq. destruct (MatchHistoryComponent.findDeckByName decks k);
        discriminate.
  - intros deckName payload. rewrite rollbackStats_requests, !in_app_iff, !in_map_iff.
    intros [([k d] & Hreq & _)|[([k d] & Hreq & _)|([k d] & Hreq & _)]].
    + simpl in Hreq. destruct (MatchHistoryComponent.findPlayerById players k);
        discriminate.
    + simpl in Hreq.
      destruct (MatchHistoryComponent.findPlayerByName players k) as [p|];
        [destruct (MatchHistoryComponent.getPlayerId p)|]; discriminate.
    + eapply rollbackDeckRequest_target, Hreq.
  - rewrite rollbackStats_requests, rollbackMaps_accumulateAll, !omap_app.
    cbn [MatchHistoryComponent.playerMap MatchHistoryComponent.nameMap
         MatchHistoryComponent.deckMap].
    rewrite (request_keys_none (rollbackPlayerRequest players) deckUpdateName),
            (request_keys_none (rollbackNameRequest players) deckUpdateName).
    + rewrite !app_nil_l. eapply sublist_NoDup.
      * apply (accumulateAll_NoDup (rollbackDeckKey m) (rollbackDelta m)
                 (MatchHistoryComponent.getMatchSeats m) []).
        constructor.
      * apply request_keys_sublist. intros k d. simpl.
        destruct (MatchHistoryComponent.findDeckByName decks k); simpl; auto.
    + intros k d. simpl.
      destruct (MatchHistoryComponent.findPlayerByName players k) as [p|];
        [destruct (MatchHistoryComponent.getPlayerId p)|]; reflexivity.
    + intros k d. simpl.
      destruct (MatchHistoryComponent.findPlayerById players k); reflexivity.
  - intros req. rewrite rollbackStats_requests, !in_app_iff, !in_map_iff.
    intros [([k d] & <- & _)|[([k d] & <- & _)|([k d] & <- & _)]]; reflexivity.
Qed.

Lemma rollback_updates_reach_only_stored_witness :
  In (PlayerUpdate 1 rollbackOfPlayer1)
     (MatchHistoryComponent.rollbackStats deletedMatch storedPlayers storedDecks)
  /\ exists player,
       In player storedPlayers
       /\ MatchHistoryComponent.getPlayerId player = Some 1
       /\ Js.get rollbackOfPlayer1 "playerId" = Js.VNum 1.
Proof.
  assert (Hin : In (PlayerUpdate 1 rollbackOfPlayer1)
                   (MatchHistoryComponent.rollbackStats
                      deletedMatch storedPlayers storedDecks))
    by (vm_compute; left; reflexivity).
  split; [exact Hin|].
  exact (proj1 (rollback_updates_reach_only_stored deletedMatch storedPlayers storedDecks)
           1 rollbackOfPlayer1 Hin).
Defined.

(** ** Creating and then deleting a match *)










(** ** Matches without a seat list *)

Lemma resultString_normalize r :
  MatchHistoryComponent.readSeatField
    (legacySeat Js.VUndefined Js.VUndefined
       (Js.VStr (MatchHistoryComponent.resultString r)) Js.VUndefined)
    resultKeys
  = Some (MatchHistoryComponent.resultString r)
  /\ MatchHistoryComponent.normalizeResult
       (Some (MatchHistoryComponent.resultString r)) = Some r.
Proof. destruct r; split; vm_compute; reflexivity. Qed.

Lemma legacySeat_reads (a b c d : Js.value) :
  MatchHistoryComponent.readSeatField (legacySeat a b c d) resultKeys
  = match c with
    | Js.VStr s => if negb (String.eqb (Js.trim s) "") then Some s else None
    | _ => None
    end
  /\ MatchHistoryComponent.readSeatBool (legacySeat a b c d) ["tie"; "isTie"] = None
  /\ MatchHistoryComponent.readSeatBool (legacySeat a b c d)
       ["playerWin"; "isWinner"; "winner"; "won"; "win"] = None
  /\ MatchHistoryComponent.getSeatPlayerId (legacySeat a b c d) = None
  /\ MatchHistoryComponent.readSeatField (legacySeat a b c d)
       ["playerName"; "name"; "username"; "player"]
     = match a with
       | Js.VStr s => if negb (String.eqb (Js.trim s) "") then Some s else None
       | _ => None
       end.
Proof.
  repeat split; vm_compute; reflexivity.
Qed.

Lemma primarySeat_reads (a b c d : Js.value) r :
  MatchHistoryComponent.readSeatField
    (primarySeat a b c (Js.VStr (MatchHistoryComponent.resultString r)) d) resultKeys
  = Some (MatchHistoryComponent.resultString r).
Proof. destruct r; vm_compute; reflexivity. Qed.

Lemma opponentSeat_legacy m name deck :
  MatchHistoryComponent.opponentSeat m name deck
  = if Js.truthyStr name
    then [ legacySeat (Js.optStr name) (Js.optStr deck)
             (MatchHistoryComponent.optResult
                (MatchHistoryComponent.resolveOpponentResult (default "" name) m))
             (Js.optStr (MatchService.format m)) ]
    else [].
Proof. reflexivity. Qed.

Lemma legacy_opponent_resolves m (n : string) (b d : Js.value) :
  MatchHistoryComponent.resolveSeatResult
    (legacySeat (Js.VStr n) b
       (MatchHistoryComponent.optResult
          (MatchHistoryComponent.resolveOpponentResult n m)) d) m
  = MatchHistoryComponent.resolveOpponentResult n m.
Proof.
  rewrite resolveSeatResult_chain.
  unfold fallbackChain, firstApplicable, explicitResult, tieFlagResult, winFlagResult,
    matchTieResult, primaryPlayerResult, winnerNameResult.
  destruct (legacySeat_reads (Js.VStr n) b
              (MatchHistoryComponent.optResult
                 (MatchHistoryComponent.resolveOpponentResult n m)) d)
    as (Hres & Htie & Hwin & Hid & Hname).
  rewrite Hres, Htie, Hwin, Hid, Hname. clear Hres Htie Hwin Hid Hname.
  destruct (MatchHistoryComponent.resolveOpponentResult n m) as [r|] eqn:Hr.
  - cbn [MatchHistoryComponent.optResult].
    destruct r; reflexivity.
  - cbn [MatchHistoryComponent.optResult MatchHistoryComponent.normalizeResult
         Js.truthyStr negb].
    unfold MatchHistoryComponent.resolveOpponentResult in Hr.
    destruct (MatchHistoryComponent.normalizeResult (MatchService.result m))
      as [[| |]|] eqn:Hm; try reflexivity;
      repeat (case_decide; try discriminate; try congruence);
      try (exfalso; intuition congruence).
    all: destruct (MatchService.winnerName m) as [w|]; simpl in Hr |- *;
      try (destruct (negb (String.eqb (Js.trim n) "")); reflexivity).
    all: destruct (String.eqb w ""); simpl in Hr |- *;
      destruct (negb (String.eqb (Js.trim n) "")); try reflexivity;
      destruct (MatchHistoryComponent.sameName n w); try discriminate; reflexivity.
Qed.

Lemma legacy_primary_resolves m (a b c d : Js.value) r :
  MatchHistoryComponent.resolveSeatResult
    (primarySeat a b c (Js.VStr (MatchHistoryComponent.resultString r)) d) m
  = Some r.
Proof.
  rewrite resolveSeatResult_chain.
  unfold fallbackChain, firstApplicable, explicitResult.
  rewrite primarySeat_reads, (proj2 (resultString_normalize r)). reflexivity.
Qed.

Lemma getMatchSeats_legacy m :
  MatchService.seats m = None ->
  MatchHistoryComponent.getMatchSeats m
  = ((if hasPrimary m
      then [ primarySeat (Js.optNum (MatchService.playerID m))
               (Js.optStr (MatchService.deckName m))
               (Js.optStr (MatchService.winnerName m))
               (Js.VStr (MatchHistoryComponent.resultString (primaryResult m)))
               (Js.optStr (MatchService.format m)) ]
      else [])
     ++ MatchHistoryComponent.opponentSeat m (MatchService.opponentOne m)
          (MatchService.opponentOneDeck m)
     ++ MatchHistoryComponent.opponentSeat m (MatchService.opponentTwo m)
          (MatchService.opponentTwoDeck m)
     ++ MatchHistoryComponent.opponentSeat m (MatchService.opponentThree m)
          (MatchService.opponentThreeDeck m))%list.
Proof.
  intros Hs. unfold MatchHistoryComponent.getMatchSeats. rewrite Hs. reflexivity.
Qed.

Lemma opponentSeat_outcomes m name deck :
  map (fun seat => MatchHistoryComponent.resolveSeatResult seat m)
      (MatchHistoryComponent.opponentSeat m name deck)
  = if Js.truthyStr name
    then [MatchHistoryComponent.resolveOpponentResult (default "" name) m]
    else [].
Proof.
  rewrite opponentSeat_legacy. destruct name as [n|]; [|reflexivity].
  cbn [Js.truthyStr]. destruct (negb (String.eqb n "")); [|reflexivity].
  cbn [map Js.optStr default from_option id]. f_equal.
  apply legacy_opponent_resolves.
Qed.

Lemma opponentSeat_length m name deck :
  (length (MatchHistoryComponent.opponentSeat m name deck) <= 1)%nat.
Proof.
  rewrite opponentSeat_legacy. destruct (Js.truthyStr name); simpl; lia.
Qed.

Lemma resolveOpponentResult_tie n m :
  MatchHistoryComponent.normalizeResult (MatchService.result m)
  = Some MatchHistoryComponent.Tie ->
  MatchHistoryComponent.resolveOpponentResult n m = Some MatchHistoryComponent.Tie.
Proof.
  intros Ht. unfold MatchHistoryComponent.resolveOpponentResult. rewrite Ht.
  now rewrite decide_True.
Qed.

Lemma legacy_outcomes m :
  MatchService.seats m = None ->
  map (fun seat => MatchHistoryComponent.resolveSeatResult seat m)
      (MatchHistoryComponent.getMatchSeats m)
  = legacyOutcomes m.
Proof.
  intros Hs.
  rewrite (getMatchSeats_legacy m Hs), !map_app, !opponentSeat_outcomes.
  unfold legacyOutcomes. f_equal.
  destruct (hasPrimary m); [|reflexivity].
  cbn [map]. f_equal. apply legacy_primary_resolves.
Qed.

(** X10. For a stored match without a seat list, at most four seats are
    synthesized, and resolving them gives: for the primary seat what the
    match's result says (tie before win before loss), else win or loss by
    the match's win flag, so never null; for each named opponent exactly
    [resolveOpponentResult] of its name.  In a match whose result says tie,
    every seat resolves to tie. *)
Theorem legacy_seats_resolve :
  forall m,
    MatchService.seats m = None ->
    map (fun seat => MatchHistoryComponent.resolveSeatResult seat m)
        (MatchHistoryComponent.getMatchSeats m)
    = legacyOutcomes m
    /\ (length (MatchHistoryComponent.getMatchSeats m) <= 4)%nat
    /\ (MatchHistoryComponent.normalizeResult (MatchService.result m)
        = Some MatchHistoryComponent.Tie ->
        forall seat,
          In seat (MatchHistoryComponent.getMatchSeats m) ->
          MatchHistoryComponent.resolveSeatResult seat m
          = Some MatchHistoryComponent.Tie).
Proof.
  intros m Hs.
  pose proof (legacy_outcomes m Hs) as Hout.
  split; [exact Hout|]. split.
  - rewrite (getMatchSeats_legacy m Hs), !length_app.
    pose proof (opponentSeat_length m (MatchService.opponentOne m)
                  (MatchService.opponentOneDeck m)).
    pose proof (opponentSeat_length m (MatchService.opponentTwo m)
                  (MatchService.opponentTwoDeck m)).
    pose proof (opponentSeat_length m (MatchService.opponentThree m)
                  (MatchService.opponentThreeDeck m)).
    destruct (hasPrimary m); simpl; lia.
  - intros Ht seat Hin.
    apply (in_map (fun seat => MatchHistoryComponent.resolveSeatResult seat m)) in Hin.
    rewrite Hout in Hin. unfold legacyOutcomes, primaryResult in Hin.
    rewrite Ht, !resolveOpponentResult_tie in Hin by exact Ht.
    rewrite !in_app_iff in Hin.
    destruct Hin as [Hin|[Hin|[Hin|Hin]]];
      match type of Hin with
      | In _ (if ?c then _ else _) => destruct c
      end;
      simpl in Hin; intuition congruence.
Qed.

Lemma legacy_seats_resolve_witness :
  MatchService.seats flatMatch = None
  /\ map (fun seat => MatchHistoryComponent.resolveSeatResult seat flatMatch)
         (MatchHistoryComponent.getMatchSeats flatMatch)
     = [Some MatchHistoryComponent.Win; Some MatchHistoryComponent.Loss;
        Some MatchHistoryComponent.Loss].
Proof.
  split; [reflexivity|].
  exact (proj1 (legacy_seats_resolve flatMatch eq_refl)).
Defined.

(* ===================================================================== *)
(** ** The creation form *)
(* ===================================================================== *)

Lemma updateSlot_lookup ss k p i :
  CreateGameComponent.updateSlot ss k p !! i
  = (fun slot => if decide (i = k) then CreateGameComponent.applyPatch slot p else slot)
      <$> ss !! i.
Proof. unfold CreateGameComponent.updateSlot. apply list_lookup_imap. Qed.

Lemma updateSlot_length ss k p :
  length (CreateGameComponent.updateSlot ss k p) = length ss.
Proof. apply length_imap. Qed.

Lemma applyPatch_result slot a b :
  CreateGameComponent.result
    (CreateGameComponent.applyPatch slot (CreateGameComponent.mkPatch a b None))
  = CreateGameComponent.result slot.
Proof. reflexivity. Qed.

Lemma updateSlot_results ss k a b :
  map CreateGameComponent.result
      (CreateGameComponent.updateSlot ss k (CreateGameComponent.mkPatch a b None))
  = map CreateGameComponent.result ss.
Proof.
  apply list_eq. intros i. rewrite !list_lookup_fmap, updateSlot_lookup.
  destruct (ss !! i) as [slot|]; [|reflexivity]. simpl.
  destruct (decide (i = k)); reflexivity.
Qed.

Lemma oneWinner_results ss ss' :
  map CreateGameComponent.result ss' = map CreateGameComponent.result ss ->
  oneWinner ss -> oneWinner ss'.
Proof.
  intros Heq Hw i j si sj Hi Hj Hne Hwin.
  assert (Hl : forall k sk, ss' !! k = Some sk ->
             exists tk, ss !! k = Some tk
                        /\ CreateGameComponent.result tk = CreateGameComponent.result sk).
  { intros k sk Hk.
    assert (Hm : map CreateGameComponent.result ss' !! k
                 = Some (CreateGameComponent.result sk))
      by (rewrite list_lookup_fmap, Hk; reflexivity).
    rewrite Heq, list_lookup_fmap in Hm.
    destruct (ss !! k) as [tk|]; [|discriminate].
    exists tk. split; [reflexivity|]. simpl in Hm. congruence. }
  destruct (Hl i si Hi) as (ti & Hti & Hri).
  destruct (Hl j sj Hj) as (tj & Htj & Hrj).
  rewrite <- Hrj. apply (Hw i j ti tj Hti Htj Hne). congruence.
Qed.

Lemma updateResult_length ss i v :
  length (CreateGameComponent.updateResult ss i v) = length ss.
Proof.
  destruct v; simpl;
    first [ apply length_imap | apply length_map | apply updateSlot_length ].
Qed.

Lemma updateResult_oneWinner ss k v :
  oneWinner ss -> oneWinner (CreateGameComponent.updateResult ss k v).
Proof.
  intros Hw i j si sj Hi Hj Hne Hwin. destruct v; simpl in Hi, Hj.
  - (* win *)
    unfold CreateGameComponent.applyWinLoss in Hi, Hj.
    rewrite list_lookup_imap in Hi, Hj.
    destruct (ss !! i) as [ti|]; [|discriminate].
    destruct (ss !! j) as [tj|]; [|discriminate].
    simpl in Hi, Hj. injection Hi as <-. injection Hj as <-.
    cbn [CreateGameComponent.result] in *.
    destruct (decide (i = k)) as [->|]; [|discriminate].
    rewrite decide_False by congruence. now left.
  - (* loss *)
    rewrite updateSlot_lookup in Hi, Hj.
    destruct (ss !! i) as [ti|] eqn:Hti; [|discriminate].
    destruct (ss !! j) as [tj|] eqn:Htj; [|discriminate].
    simpl in Hi, Hj. injection Hi as <-. injection Hj as <-.
    destruct (decide (i = k)); [discriminate|].
    destruct (decide (j = k)); [now left|].
    exact (Hw i j ti tj Hti Htj Hne Hwin).
  - (* tie *)
    unfold CreateGameComponent.applyResultToAll in Hi.
    rewrite list_lookup_fmap in Hi.
    destruct (ss !! i); [|discriminate]. simpl in Hi. injection Hi as <-.
    discriminate.
  - (* no result *)
    rewrite updateSlot_lookup in Hi, Hj.
    destruct (ss !! i) as [ti|] eqn:Hti; [|discriminate].
    destruct (ss !! j) as [tj|] eqn:Htj; [|discriminate].
    simpl in Hi, Hj. injection Hi as <-. injection Hj as <-.
    destruct (decide (i = k)); [discriminate|].
    destruct (decide (j = k)); [now right|].
    exact (Hw i j ti tj Hti Htj Hne Hwin).
Qed.

(** What [applyAutoDeckForSlot] does to the slots: nothing, or a deck patch
    of the slot. *)
Lemma applyAutoDeckForSlot_slots f i f' :
  CreateGameComponent.applyAutoDeckForSlot f i = Some f' ->
  CreateGameComponent.slots (CreateGameComponent.formState f')
  = CreateGameComponent.slots (CreateGameComponent.formState f)
  \/ exists d,
       CreateGameComponent.slots (CreateGameComponent.formState f')
       = CreateGameComponent.updateDeck
           (CreateGameComponent.slots (CreateGameComponent.formState f)) i (Some d).
Proof.
  unfold CreateGameComponent.applyAutoDeckForSlot.
  destruct (CreateGameComponent.slots (CreateGameComponent.formState f) !! i)
    as [slot|]; [|intros [= <-]; now left].
  destruct (CreateGameComponent.playerIndex slot) as [p|]; [|intros [= <-]; now left].
  destruct (CreateGameComponent.players (CreateGameComponent.formState f) !! p)
    as [player|]; [|discriminate].
  destruct (negb (Js.truthyStr _)); [intros [= <-]; now left|].
  destruct (list_find _ _) as [[d ?]|]; intros [= <-]; [right; exists d|left];
    reflexivity.
Qed.

Lemma formSlots_invariant ss :
  formSlots ss -> length ss = 4%nat /\ oneWinner ss.
Proof.
  induction 1 as [|ss i v _ [IHl IHw]|ss i v _ [IHl IHw]
                  |f i v f' _ [IHl IHw] Hu|f i f' _ [IHl IHw] Ha].
  - split; [reflexivity|]. intros i j si sj Hi _ _ Hwin.
    destruct i as [|[|[|[|i]]]]; simpl in Hi; try discriminate;
      injection Hi as <-; discriminate.
  - split; [now rewrite updateResult_length | now apply updateResult_oneWinner].
  - split; [unfold CreateGameComponent.updateDeck; now rewrite updateSlot_length|].
    eapply oneWinner_results; [apply updateSlot_results | exact IHw].
  - unfold CreateGameComponent.updatePlayer in Hu.
    set (f1 := CreateGameComponent.mkForm _ _ _) in Hu.
    assert (H1 : length (CreateGameComponent.slots (CreateGameComponent.formState f1))
                 = 4%nat
                 /\ oneWinner (CreateGameComponent.slots
                                 (CreateGameComponent.formState f1))).
    { subst f1. cbn [CreateGameComponent.formState CreateGameComponent.withSlots
                     CreateGameComponent.slots].
      split; [now rewrite updateSlot_length|].
      eapply oneWinner_results; [apply updateSlot_results | exact IHw]. }
    destruct v as [p|]; [|injection Hu as <-; exact H1].
    destruct (applyAutoDeckForSlot_slots _ _ _ Hu) as [->|[d ->]]; [exact H1|].
    destruct H1 as [H1l H1w].
    split; [unfold CreateGameComponent.updateDeck; now rewrite updateSlot_length|].
    eapply oneWinner_results; [apply updateSlot_results | exact H1w].
  - destruct (applyAutoDeckForSlot_slots _ _ _ Ha) as [->|[d ->]]; [now split|].
    split; [unfold CreateGameComponent.updateDeck; now rewrite updateSlot_length|].
    eapply oneWinner_results; [apply updateSlot_results | exact IHw].
Qed.

(** X11. Whatever the handlers of the creation form did since it was empty
    (results, decks, players, deck auto-selection), the form has four slots,
    and a slot that holds a win is the only one: every other slot holds a
    loss or no result, so a tie and a win never coexist.  In a complete form
    every opponent of a winner has lost. *)
Theorem form_keeps_one_winner :
  forall ss,
    formSlots ss ->
    length ss = 4%nat
    /\ (forall i j si sj,
          ss !! i = Some si -> ss !! j = Some sj -> i <> j ->
          CreateGameComponent.result si = CreateGameComponent.Win ->
          CreateGameComponent.result sj = CreateGameComponent.Loss
          \/ CreateGameComponent.result sj = CreateGameComponent.Empty)
    /\ (CreateGameComponent.isComplete ss = true ->
        forall i j si sj,
          ss !! i = Some si -> ss !! j = Some sj -> i <> j ->
          CreateGameComponent.result si = CreateGameComponent.Win ->
          CreateGameComponent.result sj = CreateGameComponent.Loss).
Proof.
  intros ss Hf. destruct (formSlots_invariant ss Hf) as [Hl Hw].
  split; [exact Hl|]. split; [exact Hw|].
  intros Hc i j si sj Hi Hj Hne Hwin.
  destruct (Hw i j si sj Hi Hj Hne Hwin) as [Hr|Hr]; [exact Hr|].
  unfold CreateGameComponent.isComplete in Hc. rewrite forallb_forall in Hc.
  specialize (Hc sj). rewrite !andb_true_iff, !bool_decide_eq_true in Hc.
  destruct Hc as [_ Hc]; [|contradiction].
  apply list_elem_of_In. eapply list_elem_of_lookup_2; exact Hj.
Qed.

Lemma form_keeps_one_winner_witness :
  formSlots wonForm
  /\ map CreateGameComponent.result wonForm
     = [ CreateGameComponent.Loss; CreateGameComponent.Win;
         CreateGameComponent.Loss; CreateGameComponent.Loss ]
  /\ length wonForm = 4%nat.
Proof.
  assert (Hf : formSlots wonForm)
    by (apply formSlots_result, formSlots_deck, formSlots_empty).
  split; [exact Hf|]. split; [reflexivity|].
  exact (proj1 (form_keeps_one_winner wonForm Hf)).
Defined.

Lemma remove_dups_length_le {A : Type} `{EqDecision A} (l : list A) :
  (length (remove_dups l) <= length l)%nat.
Proof.
  induction l as [|x l IH]; simpl; [lia|].
  destruct (decide_rel elem_of x l); simpl; lia.
Qed.

Lemma remove_dups_length_NoDup {A : Type} `{EqDecision A} (l : list A) :
  length (remove_dups l) = length l <-> NoDup l.
Proof.
  induction l as [|x l IH]; simpl.
  - split; [constructor | reflexivity].
  - pose proof (remove_dups_length_le l) as Hle.
    destruct (decide_rel elem_of x l) as [Hin|Hin]; simpl.
    + split; [lia|]. intros Hn. apply NoDup_cons in Hn. tauto.
    + rewrite NoDup_cons. split.
      * intros Hl. split; [exact Hin|]. apply IH. lia.
      * intros [_ Hn]. f_equal. now apply IH.
Qed.

(** X12. The create button is enabled exactly when every slot has a player,
    a deck and a result, and no player is selected in two slots. *)
Theorem canCreate_iff_complete_and_distinct :
  forall ss,
    CreateGameComponent.canCreate ss = true
    <-> Forall (fun slot =>
                  CreateGameComponent.playerIndex slot <> None
                  /\ CreateGameComponent.deckIndex slot <> None
                  /\ CreateGameComponent.result slot <> CreateGameComponent.Empty)
               ss
        /\ NoDup (omap CreateGameComponent.playerIndex ss).
Proof.
  intros ss. unfold CreateGameComponent.canCreate, CreateGameComponent.isComplete,
    CreateGameComponent.duplicatePlayers.
  rewrite andb_true_iff, negb_true_iff, negb_false_iff, Nat.eqb_eq,
    remove_dups_length_NoDup, forallb_forall, Forall_forall.
  split; intros [Hc Hn]; (split; [|exact Hn]); intros slot Hin;
    specialize (Hc slot).
  - rewrite !andb_true_iff, !bool_decide_eq_true in Hc.
    apply list_elem_of_In in Hin. tauto.
  - rewrite !andb_true_iff, !bool_decide_eq_true.
    apply list_elem_of_In in Hin. tauto.
Qed.

(* ===================================================================== *)
(** ** The match written for a game *)
(* ===================================================================== *)

Lemma primaryIndex_lookup st :
  CreateGameComponent.slots st !! primaryIndex st = None ->
  CreateGameComponent.slots st = [].
Proof.
  unfold primaryIndex. destruct (list_find _ _) as [[i x]|] eqn:Hf; simpl.
  - apply list_find_Some in Hf as (Hl & _). congruence.
  - destruct (CreateGameComponent.slots st); [reflexivity|discriminate].
Qed.

Lemma mapM_None {A B : Type} (f : A -> option B) (l : list A) :
  mapM f l = None <-> exists x, x ∈ l /\ f x = None.
Proof.
  rewrite eq_None_not_Some, mapM_is_Some. split.
  - intros Hn. apply not_Forall_Exists in Hn; [|intros x; apply _].
    apply Exists_exists in Hn as (x & Hin & Hx). exists x. split; [exact Hin|].
    apply eq_None_not_Some. exact Hx.
  - intros (x & Hin & Hx) Hall. rewrite Forall_forall in Hall.
    specialize (Hall x Hin). simpl in Hall. rewrite Hx in Hall.
    now apply is_Some_None in Hall.
Qed.

Lemma opponentSlots_elem st slot :
  slot ∈ opponentSlots st
  <-> exists i, CreateGameComponent.slots st !! i = Some slot /\ i <> primaryIndex st.
Proof.
  unfold opponentSlots. rewrite list_elem_of_omap. split.
  - intros ([i y] & Hin & Hf).
    apply elem_of_lookup_imap in Hin as (j & z & Heq & Hl).
    injection Heq as -> ->.
    destruct (decide (j = primaryIndex st)); [discriminate|].
    injection Hf as <-. eauto.
  - intros (i & Hl & Hne). exists (i, slot). split.
    + apply (elem_of_lookup_imap_2 (fun index s => (index, s))). exact Hl.
    + now rewrite decide_False.
Qed.

Lemma opponentOf_None st slot :
  CreateGameComponent.opponentOf st slot = None <-> selectsNothing st slot = true.
Proof.
  unfold CreateGameComponent.opponentOf, selectsNothing.
  rewrite orb_true_iff.
  destruct (CreateGameComponent.playerIndex slot) as [i|],
           (CreateGameComponent.deckIndex slot) as [j|];
    rewrite ?bool_decide_eq_true, <- ?lookup_ge_None;
    repeat match goal with
           | |- context [?l !! ?k] => destruct (l !! k); cbn [fmap option_fmap option_map]
           end;
    intuition congruence.
Qed.

Lemma buildMatchPayload_None st now :
  CreateGameComponent.buildMatchPayload st now = None
  <-> CreateGameComponent.slots st !! primaryIndex st = None
      \/ mapM (CreateGameComponent.opponentOf st) (opponentSlots st) = None.
Proof.
  unfold CreateGameComponent.buildMatchPayload, opponentSlots, primaryIndex.
  cbv zeta.
  destruct (CreateGameComponent.slots st !! _) as [primarySlot|];
    [|split; [now left|reflexivity]].
  destruct (mapM _ _) as [opponents|]; [|split; [now right|reflexivity]].
  split; [discriminate|]. intros [?|?]; discriminate.
Qed.

(** X13. Writing the match for a game fails (a [TypeError]) exactly when the
    form has no slot, or a slot other than the primary one has a player or
    deck index beyond the loaded list; the primary slot's own indexes never
    make it fail. *)
Theorem buildMatchPayload_fails_iff :
  forall st now,
    CreateGameComponent.buildMatchPayload st now = None
    <-> CreateGameComponent.slots st = []
        \/ exists i slot,
             CreateGameComponent.slots st !! i = Some slot
             /\ i <> primaryIndex st
             /\ selectsNothing st slot = true.
Proof.
  intros st now. rewrite buildMatchPayload_None, mapM_None. split.
  - intros [Hp|(slot & Hin & Hnone)].
    + left. now apply primaryIndex_lookup.
    + right. apply opponentSlots_elem in Hin as (i & Hl & Hne).
      exists i, slot. rewrite <- opponentOf_None. auto.
  - intros [Hnil|(i & slot & Hl & Hne & Hs)].
    + left. rewrite Hnil. apply lookup_nil.
    + right. exists slot. split.
      * apply opponentSlots_elem. eauto.
      * now apply opponentOf_None.
Qed.

Lemma buildMatchPayload_fields st now m :
  CreateGameComponent.buildMatchPayload st now = Some m ->
  exists primarySlot opponents,
    CreateGameComponent.slots st !! primaryIndex st = Some primarySlot
    /\ mapM (CreateGameComponent.opponentOf st) (opponentSlots st) = Some opponents
    /\ MatchService.seats m = None
    /\ MatchService.format m
       = Some (if decide (CreateGameComponent.gameFormat st = CreateGameComponent.cedh)
               then "CEDH" else "CASUAL")
    /\ MatchService.result m = Some (if allTie st then "TIE" else "WIN")
    /\ MatchService.winnerName m
       = Some (if allTie st then "Tie" else slotPlayerLabel st primarySlot)
    /\ MatchService.playerID m = slotPlayerId st primarySlot
    /\ MatchService.opponentOne m
       = Some (default "Unknown" (fst <$> opponents !! 0%nat))
    /\ MatchService.opponentTwo m
       = Some (default "Unknown" (fst <$> opponents !! 1%nat))
    /\ MatchService.opponentThree m
       = Some (default "Unknown" (fst <$> opponents !! 2%nat)).
Proof.
  unfold CreateGameComponent.buildMatchPayload, opponentSlots, primaryIndex, allTie,
    slotPlayerLabel, slotPlayerId.
  cbv zeta.
  destruct (CreateGameComponent.slots st !! _) as [primarySlot|]; [|discriminate].
  destruct (mapM _ _) as [opponents|]; [|discriminate].
  intros [= <-]. exists primarySlot, opponents.
  cbn [MatchService.seats MatchService.format MatchService.result
       MatchService.winnerName MatchService.playerID MatchService.opponentOne
       MatchService.opponentTwo MatchService.opponentThree].
  repeat split.
  - destruct (CreateGameComponent.playerIndex primarySlot) as [i|]; [|reflexivity].
    destruct (CreateGameComponent.players st !! i); reflexivity.
  - destruct (CreateGameComponent.playerIndex primarySlot); reflexivity.
Qed.

Lemma normalizeResult_written (tie : bool) :
  MatchHistoryComponent.normalizeResult (Some (if tie then "TIE" else "WIN"))
  = Some (if tie then MatchHistoryComponent.Tie else MatchHistoryComponent.Win).
Proof. destruct tie; vm_compute; reflexivity. Qed.

Lemma isCasualFormat_written st :
  MatchHistoryComponent.isCasualFormat
    (Some (if decide (CreateGameComponent.gameFormat st = CreateGameComponent.cedh)
           then "CEDH" else "CASUAL"))
  = isCasualGame st.
Proof.
  unfold isCasualGame. destruct (CreateGameComponent.gameFormat st);
    vm_compute; reflexivity.
Qed.

(** X14. The match written for a game has no seat list.  Its format string
    reads back, on rollback, as casual exactly when the game was applied as
    casual.  Its result reads back as a tie when every slot tied and as a win
    otherwise, so the primary seat is rolled back as a tie or a win
    whatever the primary slot's own result was, also when no slot had won. *)
Theorem created_match_format_and_result :
  forall st now m,
    CreateGameComponent.buildMatchPayload st now = Some m ->
    MatchService.seats m = None
    /\ MatchHistoryComponent.isCasualFormat (MatchService.format m) = isCasualGame st
    /\ MatchHistoryComponent.normalizeResult (MatchService.result m)
       = Some (if allTie st then MatchHistoryComponent.Tie
               else MatchHistoryComponent.Win)
    /\ primaryResult m
       = (if allTie st then MatchHistoryComponent.Tie else MatchHistoryComponent.Win).
Proof.
  intros st now m Hm.
  destruct (buildMatchPayload_fields st now m Hm)
    as (primarySlot & opponents & _ & _ & Hs & Hf & Hr & _).
  split; [exact Hs|]. split; [rewrite Hf; apply isCasualFormat_written|].
  assert (Hn : MatchHistoryComponent.normalizeResult (MatchService.result m)
               = Some (if allTie st then MatchHistoryComponent.Tie
                       else MatchHistoryComponent.Win))
    by (rewrite Hr; apply normalizeResult_written).
  split; [exact Hn|]. unfold primaryResult. now rewrite Hn.
Qed.

Lemma created_match_format_and_result_witness :
  CreateGameComponent.buildMatchPayload lostGame "2026-01-01T00:00:00.000Z"
  = Some lostMatch
  /\ MatchHistoryComponent.isCasualFormat (MatchService.format lostMatch) = true
  /\ primaryResult lostMatch = MatchHistoryComponent.Win.
Proof.
  assert (Hm : CreateGameComponent.buildMatchPayload lostGame
                 "2026-01-01T00:00:00.000Z" = Some lostMatch)
    by (vm_compute; reflexivity).
  split; [exact Hm|].
  pose proof (created_match_format_and_result lostGame _ lostMatch Hm)
    as (_ & Hf & _ & Hp).
  split; [exact Hf | exact Hp].
Defined.

Lemma legacyOutcomes_tie m :
  MatchHistoryComponent.normalizeResult (MatchService.result m)
  = Some MatchHistoryComponent.Tie ->
  Js.truthyStr (MatchService.winnerName m) = true ->
  Js.truthyStr (MatchService.opponentOne m) = true ->
  Js.truthyStr (MatchService.opponentTwo m) = true ->
  Js.truthyStr (MatchService.opponentThree m) = true ->
  legacyOutcomes m
  = [ Some MatchHistoryComponent.Tie; Some MatchHistoryComponent.Tie;
      Some MatchHistoryComponent.Tie; Some MatchHistoryComponent.Tie ].
Proof.
  intros Hr Hw H1 H2 H3. unfold legacyOutcomes, hasPrimary, primaryResult.
  rewrite Hr, Hw, H1, H2, H3, orb_true_r.
  rewrite !resolveOpponentResult_tie by exact Hr. reflexivity.
Qed.

Lemma resolveOpponentResult_loser name w m :
  MatchHistoryComponent.normalizeResult (MatchService.result m)
  = Some MatchHistoryComponent.Win ->
  MatchService.winnerName m = Some w ->
  MatchHistoryComponent.sameName name w = false ->
  MatchHistoryComponent.resolveOpponentResult name m = Some MatchHistoryComponent.Loss.
Proof.
  intros Hr Hw Hs. unfold MatchHistoryComponent.resolveOpponentResult.
  rewrite Hr, Hw. cbn [default from_option id]. rewrite Hs, andb_false_r.
  rewrite decide_False by discriminate. rewrite decide_True by (now left).
  reflexivity.
Qed.

Lemma legacyOutcomes_win m w o1 o2 o3 :
  MatchHistoryComponent.normalizeResult (MatchService.result m)
  = Some MatchHistoryComponent.Win ->
  MatchService.winnerName m = Some w -> w <> "" ->
  MatchService.opponentOne m = Some o1 -> o1 <> "" ->
  MatchHistoryComponent.sameName o1 w = false ->
  MatchService.opponentTwo m = Some o2 -> o2 <> "" ->
  MatchHistoryComponent.sameName o2 w = false ->
  MatchService.opponentThree m = Some o3 -> o3 <> "" ->
  MatchHistoryComponent.sameName o3 w = false ->
  legacyOutcomes m
  = [ Some MatchHistoryComponent.Win; Some MatchHistoryComponent.Loss;
      Some MatchHistoryComponent.Loss; Some MatchHistoryComponent.Loss ].
Proof.
  intros Hr Hw Hwn H1 H1n H1s H2 H2n H2s H3 H3n H3s.
  unfold legacyOutcomes, hasPrimary, primaryResult.
  rewrite (resolveOpponentResult_loser _ w m Hr Hw)
    by (rewrite ?H1, ?H2, ?H3; assumption).
  rewrite (resolveOpponentResult_loser _ w m Hr Hw)
    by (rewrite ?H1, ?H2, ?H3; assumption).
  rewrite (resolveOpponentResult_loser _ w m Hr Hw)
    by (rewrite ?H1, ?H2, ?H3; assumption).
  rewrite Hr, Hw, H1, H2, H3. cbn [Js.truthyStr].
  apply String.eqb_neq in Hwn, H1n, H2n, H3n.
  rewrite Hwn, H1n, H2n, H3n, orb_true_r. reflexivity.
Qed.

Lemma opponentOf_label st slot name deck :
  CreateGameComponent.opponentOf st slot = Some (name, deck) ->
  name = slotPlayerLabel st slot.
Proof.
  unfold CreateGameComponent.opponentOf, slotPlayerLabel.
  destruct (CreateGameComponent.playerIndex slot) as [i|].
  - destruct (CreateGameComponent.players st !! i) as [p|];
      cbn [fmap option_fmap option_map]; [|discriminate].
    destruct (match CreateGameComponent.deckIndex slot with
              | Some j => _ | None => _ end); [|discriminate].
    now intros [= <- _].
  - destruct (match CreateGameComponent.deckIndex slot with
              | Some j => _ | None => _ end); [|discriminate].
    now intros [= <- _].
Qed.

Lemma mapM_opponents st a b c opponents :
  mapM (CreateGameComponent.opponentOf st) [a; b; c] = Some opponents ->
  default "Unknown" (fst <$> opponents !! 0%nat) = slotPlayerLabel st a
  /\ default "Unknown" (fst <$> opponents !! 1%nat) = slotPlayerLabel st b
  /\ default "Unknown" (fst <$> opponents !! 2%nat) = slotPlayerLabel st c.
Proof.
  intros Hm. apply mapM_Some in Hm.
  inversion Hm as [|? [na da] ? ? Ha Hm1]; subst.
  inversion Hm1 as [|? [nb db] ? ? Hb Hm2]; subst.
  inversion Hm2 as [|? [nc dc] ? ? Hc Hm3]; subst.
  inversion Hm3; subst.
  apply opponentOf_label in Ha, Hb, Hc. subst. now repeat split.
Qed.

Lemma allTie_results st slot :
  allTie st = true -> slot ∈ CreateGameComponent.slots st ->
  CreateGameComponent.result slot = CreateGameComponent.Tie.
Proof.
  unfold allTie. rewrite forallb_forall. intros Hall Hin.
  apply list_elem_of_In in Hin. specialize (Hall slot Hin).
  now apply bool_decide_eq_true in Hall.
Qed.

Lemma winner_primaryIndex st w winner :
  CreateGameComponent.slots st !! w = Some winner ->
  CreateGameComponent.result winner = CreateGameComponent.Win ->
  (forall j slot, CreateGameComponent.slots st !! j = Some slot -> j <> w ->
                  CreateGameComponent.result slot = CreateGameComponent.Loss) ->
  primaryIndex st = w /\ allTie st = false.
Proof.
  intros Hw Hwin Hothers. split.
  - unfold primaryIndex.
    destruct (list_find _ _) as [[i x]|] eqn:Hf; cbn [fmap option_fmap option_map fst].
    + apply list_find_Some in Hf as (Hl & Hx & _). cbn [default from_option id].
      destruct (decide (i = w)) as [->|Hne]; [reflexivity|].
      specialize (Hothers i x Hl Hne). congruence.
    + apply list_find_None in Hf. rewrite Forall_forall in Hf.
      exfalso. apply (Hf winner); [|exact Hwin].
      eapply list_elem_of_lookup_2; exact Hw.
  - apply not_true_is_false. intros Ht.
    assert (Hin : winner ∈ CreateGameComponent.slots st)
      by (eapply list_elem_of_lookup_2; exact Hw).
    pose proof (allTie_results st winner Ht Hin). congruence.
Qed.

Lemma primaryIndex_lt st :
  CreateGameComponent.slots st <> [] ->
  (primaryIndex st < length (CreateGameComponent.slots st))%nat.
Proof.
  intros Hne. apply lookup_lt_is_Some.
  destruct (CreateGameComponent.slots st !! primaryIndex st) eqn:Hl; [eauto|].
  now apply primaryIndex_lookup in Hl.
Qed.

(** The primary slot and the opponent slots of a four-slot form. *)
Lemma four_slots st :
  length (CreateGameComponent.slots st) = 4%nat ->
  exists p a b c,
    CreateGameComponent.slots st !! primaryIndex st = Some p
    /\ opponentSlots st = [a; b; c]
    /\ (forall slot, slot ∈ [p; a; b; c] -> slot ∈ CreateGameComponent.slots st)
    /\ (forall slot, slot ∈ [a; b; c] ->
          exists j, CreateGameComponent.slots st !! j = Some slot
                    /\ j <> primaryIndex st).
Proof.
  intros Hlen.
  assert (Hlt : (primaryIndex st < 4)%nat).
  { rewrite <- Hlen. apply primaryIndex_lt. intros Hnil. now rewrite Hnil in Hlen. }
  assert (Hopp : forall slot, slot ∈ opponentSlots st ->
            exists j, CreateGameComponent.slots st !! j = Some slot
                      /\ j <> primaryIndex st)
    by (intros slot; apply opponentSlots_elem).
  revert Hopp. unfold opponentSlots.
  generalize (primaryIndex st) Hlt. intros k Hk.
  destruct (CreateGameComponent.slots st) as [|s0 [|s1 [|s2 [|s3 [|]]]]];
    try discriminate.
  destruct k as [|[|[|[|k]]]]; try lia; cbn; intros Hopp;
    do 4 eexists; (split; [reflexivity|]); (split; [reflexivity|]);
    (split; [|exact Hopp]); intros slot Hin;
    rewrite !elem_of_cons in *; rewrite elem_of_nil in *; tauto.
Qed.

(** X15. Round trip of the outcomes through the stored match.  For a game
    of four slots in which every slot tied, or one slot won and every other
    slot lost under a player name that is not blank-or-case equal to the
    winner's, and in which no slot's player name is empty: the seats that
    rollback rebuilds from the written match resolve, primary seat first and
    then the opponents in slot order, to the results the slots had. *)
Theorem created_match_outcomes_round_trip :
  forall st now m,
    CreateGameComponent.buildMatchPayload st now = Some m ->
    length (CreateGameComponent.slots st) = 4%nat ->
    (forall slot, slot ∈ CreateGameComponent.slots st ->
                  slotPlayerLabel st slot <> "") ->
    settled st ->
    map (fun seat => MatchHistoryComponent.resolveSeatResult seat m)
        (MatchHistoryComponent.getMatchSeats m)
    = map (fun slot => historyResult (CreateGameComponent.result slot))
          (primaryFirst st).
Proof.
  intros st now m Hm Hlen Hnames Hset.
  destruct (buildMatchPayload_fields st now m Hm)
    as (primarySlot & opponents & Hp & Hopps & Hs & _ & Hr & Hw & _ & H1 & H2 & H3).
  destruct (four_slots st Hlen) as (p & a & b & c & Hp' & Habc & Hin & Hidx).
  rewrite Hp in Hp'. injection Hp' as <-.
  rewrite Habc in Hopps. apply mapM_opponents in Hopps as (E1 & E2 & E3).
  rewrite E1 in H1. rewrite E2 in H2. rewrite E3 in H3.
  rewrite (legacy_outcomes m Hs). unfold primaryFirst. rewrite Hp, Habc.
  assert (Hn : MatchHistoryComponent.normalizeResult (MatchService.result m)
               = Some (if allTie st then MatchHistoryComponent.Tie
                       else MatchHistoryComponent.Win))
    by (rewrite Hr; apply normalizeResult_written).
  assert (Hne : forall slot, slot ∈ [primarySlot; a; b; c] ->
                             slotPlayerLabel st slot <> "")
    by (intros slot Hslot; apply Hnames, Hin, Hslot).
  assert (Ht : forall slot, slot ∈ [a; b; c] ->
                 Js.truthyStr (Some (slotPlayerLabel st slot)) = true).
  { intros slot Hslot. cbn [Js.truthyStr]. apply negb_true_iff, String.eqb_neq.
    apply Hne. rewrite elem_of_cons. now right. }
  destruct Hset as [Htie|(w & winner & Hwl & Hwin & Hothers)].
  - rewrite Htie in Hn, Hw.
    rewrite (legacyOutcomes_tie m Hn);
      [| rewrite ?Hw, ?H1, ?H2, ?H3; first [reflexivity | apply Ht];
         rewrite !elem_of_cons; tauto ..].
    cbn [map].
    rewrite !(allTie_results st _ Htie) by (apply Hin; rewrite !elem_of_cons; tauto).
    reflexivity.
  - destruct (winner_primaryIndex st w winner Hwl Hwin) as [Hpi Hnt];
      [intros j slot Hj Hjw; apply (Hothers j slot Hj Hjw)|].
    rewrite Hnt in Hn, Hw. rewrite Hpi in Hp, Hidx.
    rewrite Hwl in Hp. injection Hp as <-.
    assert (Hl : forall slot, slot ∈ [a; b; c] ->
              CreateGameComponent.result slot = CreateGameComponent.Loss
              /\ MatchHistoryComponent.sameName (slotPlayerLabel st slot)
                   (slotPlayerLabel st winner) = false).
    { intros slot Hslot. destruct (Hidx slot Hslot) as (j & Hj & Hjw).
      exact (Hothers j slot Hj Hjw). }
    rewrite (legacyOutcomes_win m _ _ _ _ Hn Hw
               (Hne winner ltac:(rewrite !elem_of_cons; tauto))
               H1 (Hne a ltac:(rewrite !elem_of_cons; tauto))
               (proj2 (Hl a ltac:(rewrite !elem_of_cons; tauto)))
               H2 (Hne b ltac:(rewrite !elem_of_cons; tauto))
               (proj2 (Hl b ltac:(rewrite !elem_of_cons; tauto)))
               H3 (Hne c ltac:(rewrite !elem_of_cons; tauto))
               (proj2 (Hl c ltac:(rewrite !elem_of_cons; tauto)))).
    cbn [map]. rewrite Hwin.
    rewrite (proj1 (Hl a ltac:(rewrite !elem_of_cons; tauto))),
            (proj1 (Hl b ltac:(rewrite !elem_of_cons; tauto))),
            (proj1 (Hl c ltac:(rewrite !elem_of_cons; tauto))).
    reflexivity.
Qed.

Lemma created_match_outcomes_round_trip_witness :
  CreateGameComponent.buildMatchPayload gameState "2026-01-01T00:00:00.000Z"
  = Some gameMatch
  /\ map (fun seat => MatchHistoryComponent.resolveSeatResult seat gameMatch)
         (MatchHistoryComponent.getMatchSeats gameMatch)
     = [ Some MatchHistoryComponent.Win; Some MatchHistoryComponent.Loss;
         Some MatchHistoryComponent.Loss; Some MatchHistoryComponent.Loss ].
Proof.
  assert (Hm : CreateGameComponent.buildMatchPayload gameState
                 "2026-01-01T00:00:00.000Z" = Some gameMatch)
    by (vm_compute; reflexivity).
  split; [exact Hm|].
  refine (created_match_outcomes_round_trip gameState _ gameMatch Hm eq_refl _ _).
  - intros slot Hin. unfold gameState in Hin.
    cbn [CreateGameComponent.slots] in Hin.
    rewrite !elem_of_cons, elem_of_nil in Hin.
    destruct Hin as [->|[->|[->|[->|[]]]]]; vm_compute; discriminate.
  - right. exists 0%nat, (CreateGameComponent.mkSlot (Some 0%nat) (Some 0%nat)
                            CreateGameComponent.Win).
    split; [reflexivity|]. split; [reflexivity|].
    intros j slot Hj Hne.
    destruct j as [|[|[|[|j]]]]; [congruence| | | |discriminate];
      injection Hj as <-; split; vm_compute; reflexivity.
Defined.

(* ===================================================================== *)
(** ** Deck keys and favourite decks *)
(* ===================================================================== *)

Lemma isLowerAlnum_fixed c :
  Js.isLowerAlnum c = true -> Js.isWhiteSpace c = false /\ Js.lowerChar c = c.
Proof.
  destruct c as [[] [] [] [] [] [] [] []]; vm_compute; intros H;
    first [discriminate H | split; reflexivity].
Qed.

Lemma stripNonAlnum_all s : allLowerAlnum (Js.stripNonAlnum s) = true.
Proof.
  induction s as [|c s IH]; [reflexivity|]. simpl.
  destruct (Js.isLowerAlnum c) eqn:Hc; [|exact IH]. simpl. now rewrite Hc.
Qed.

Lemma allLowerAlnum_fixed s :
  allLowerAlnum s = true ->
  Js.trim s = s /\ Js.toLowerCase s = s /\ Js.stripNonAlnum s = s.
Proof.
  intros Hs.
  assert (Hend : Js.trimEnd s = s).
  { induction s as [|c s IH]; [reflexivity|]. simpl in *.
    apply andb_true_iff in Hs as [Hc Hs].
    rewrite (IH Hs), (proj1 (isLowerAlnum_fixed c Hc)). reflexivity. }
  assert (Hstart : Js.trimStart s = s).
  { destruct s as [|c s]; [reflexivity|]. simpl in *.
    apply andb_true_iff in Hs as [Hc Hs].
    now rewrite (proj1 (isLowerAlnum_fixed c Hc)). }
  split; [unfold Js.trim; now rewrite Hstart|]. clear Hend Hstart.
  split; induction s as [|c s IH]; try reflexivity; simpl in *;
    apply andb_true_iff in Hs as [Hc Hs].
  - rewrite (proj2 (isLowerAlnum_fixed c Hc)). f_equal. now apply IH.
  - rewrite Hc. f_equal. now apply IH.
Qed.

Lemma deckKey_fixed value :
  CreateGameComponent.normalizeDeckKey (CreateGameComponent.normalizeDeckKey value)
  = CreateGameComponent.normalizeDeckKey value.
Proof.
  destruct (allLowerAlnum_fixed _ (stripNonAlnum_all
              (Js.toLowerCase (Js.trim value)))) as (Ht & Hl & Hs).
  unfold CreateGameComponent.normalizeDeckKey at 1.
  unfold CreateGameComponent.normalizeDeckKey at 1 2. now rewrite Ht, Hl, Hs.
Qed.

(** X16. Deck keys are stable: a normalized deck key consists of the
    characters a-z and 0-9 only, and normalizing it again changes nothing. *)
Theorem normalizeDeckKey_idempotent :
  forall value,
    allLowerAlnum (CreateGameComponent.normalizeDeckKey value) = true
    /\ CreateGameComponent.normalizeDeckKey (CreateGameComponent.normalizeDeckKey value)
       = CreateGameComponent.normalizeDeckKey value.
Proof.
  intros value.
  assert (Ha : allLowerAlnum (CreateGameComponent.normalizeDeckKey value) = true)
    by apply stripNonAlnum_all.
  split; [exact Ha|].
  apply deckKey_fixed.
Qed.

Lemma JsMap_In_get {K V : Type} `{EqDecision K} (m : list (K * V)) k v :
  NoDup (map fst m) -> In (k, v) m -> JsMap.get m k = Some v.
Proof.
  induction m as [|[k' v'] m IH]; simpl; [intros _ []|].
  intros Hn [Heq|Hin].
  - injection Heq as -> ->. now rewrite decide_True.
  - apply NoDup_cons in Hn as [Hk Hn].
    rewrite decide_False; [now apply IH|].
    intros ->. apply Hk. apply list_elem_of_In.
    change k with (fst (k, v)). now apply in_map.
Qed.

Lemma JsMap_set_nonempty {K V : Type} `{EqDecision K} (m : list (K * V)) k v :
  JsMap.set m k v <> [].
Proof. destruct m as [|[k' v'] m]; simpl; [|destruct (decide (k' = k))]; discriminate. Qed.

Lemma bumpCount_countOf {K : Type} `{EqDecision K}
    (counts : list (K * list (string * Z))) p k p' k' :
  countOf (CreateGameComponent.bumpCount counts p k) p' k'
  = countOf counts p' k' + (if decide (p = p' /\ k = k') then 1 else 0).
Proof.
  unfold countOf, CreateGameComponent.bumpCount.
  destruct (decide (p = p')) as [->|Hp].
  - rewrite JsMap_get_set_eq. cbn [mbind option_bind].
    destruct (decide (k = k')) as [->|Hk].
    + rewrite JsMap_get_set_eq, decide_True by done.
      destruct (JsMap.get counts p') as [dm|]; reflexivity.
    + rewrite JsMap_get_set_ne, decide_False by tauto.
      destruct (JsMap.get counts p') as [dm|]; simpl; lia.
  - rewrite JsMap_get_set_ne, decide_False by tauto. lia.
Qed.

Lemma bumpCount_ok {K : Type} `{EqDecision K}
    (counts : list (K * list (string * Z))) p k :
  k <> "" -> countsOk counts -> countsOk (CreateGameComponent.bumpCount counts p k).
Proof.
  intros Hk [Hn Hc]. unfold CreateGameComponent.bumpCount.
  set (dm0 := default [] (JsMap.get counts p)).
  assert (H0 : NoDup (map fst dm0)
               /\ forall deckKey n, In (deckKey, n) dm0 -> 1 <= n /\ deckKey <> "").
  { subst dm0. destruct (JsMap.get counts p) as [dm|] eqn:Hg; simpl.
    - apply JsMap_get_In in Hg. destruct (Hc _ _ Hg) as (_ & ? & ?). now split.
    - split; [constructor | intros ? ? []]. }
  destruct H0 as [Hn0 Hc0].
  split; [now apply JsMap_set_NoDup|].
  intros key deckMap Hin.
  apply JsMap_set_In in Hin as [Hin|[-> ->]]; [exact (Hc _ _ Hin)|].
  split; [apply JsMap_set_nonempty|]. split; [now apply JsMap_set_NoDup|].
  intros deckKey n Hd. apply JsMap_set_In in Hd as [Hd|[-> ->]]; [now apply Hc0|].
  split; [|exact Hk].
  destruct (JsMap.get dm0 k) as [n0|] eqn:Hg; simpl; [|lia].
  apply JsMap_get_In in Hg. destruct (Hc0 _ _ Hg). lia.
Qed.

Lemma bumpId_countOf counts m pid k :
  countOf (CreateGameComponent.bumpId counts (MatchService.playerID m)
             (MatchService.deckName m)) pid k
  = countOf counts pid k
    + (if decide (MatchService.playerID m = Some pid /\ countedDeck m = Some k)
       then 1 else 0).
Proof.
  unfold CreateGameComponent.bumpId, countedDeck.
  destruct (MatchService.playerID m) as [p|]; [|rewrite decide_False; [lia|]; now intros []].
  destruct (Js.truthyStr (MatchService.deckName m)); cbn [negb];
    [|rewrite decide_False; [lia|]; now intros []].
  cbv zeta.
  generalize (CreateGameComponent.normalizeDeckKey
                (default "" (MatchService.deckName m))).
  intros key.
  destruct (String.eqb key "") eqn:He; [rewrite decide_False; [lia|]; now intros []|].
  rewrite bumpCount_countOf. f_equal.
  destruct (decide (p = pid /\ key = k)) as [[-> ->]|Hne].
  - now rewrite decide_True.
  - rewrite decide_False; [reflexivity|]. intros [[= ->] [= ->]]. tauto.
Qed.

Lemma bumpId_ok counts playerId deckName :
  countsOk counts -> countsOk (CreateGameComponent.bumpId counts playerId deckName).
Proof.
  intros Hc. unfold CreateGameComponent.bumpId.
  destruct playerId as [p|]; [|exact Hc].
  destruct (negb _); [exact Hc|]. cbv zeta.
  destruct (String.eqb _ "") eqn:He; [exact Hc|].
  apply bumpCount_ok; [|exact Hc]. now apply String.eqb_neq.
Qed.

Lemma countMatches_byId matches : forall acc,
  snd (fold_left CreateGameComponent.countMatch matches acc)
  = fold_left
      (fun counts m =>
         CreateGameComponent.bumpId counts (MatchService.playerID m)
           (MatchService.deckName m))
      matches (snd acc).
Proof.
  induction matches as [|m matches IH]; intros acc; [reflexivity|].
  simpl. rewrite IH. now destruct acc.
Qed.

Lemma countsById_spec matches : forall counts,
  countsOk counts ->
  let counts' :=
    fold_left
      (fun counts m =>
         CreateGameComponent.bumpId counts (MatchService.playerID m)
           (MatchService.deckName m))
      matches counts in
  countsOk counts'
  /\ forall pid k,
       countOf counts' pid k
       = countOf counts pid k + Z.of_nat (playedById matches pid k).
Proof.
  induction matches as [|m matches IH]; intros counts Hc; simpl.
  - split; [exact Hc|]. intros. unfold playedById. simpl. lia.
  - destruct (IH _ (bumpId_ok counts (MatchService.playerID m)
                      (MatchService.deckName m) Hc)) as [Hok Hcount].
    split; [exact Hok|]. intros pid k. rewrite Hcount, bumpId_countOf.
    unfold playedById. rewrite filter_cons.
    destruct (decide (_ /\ _)); simpl length; lia.
Qed.

Lemma bestDeck_fold_max (deckMap : list (string * Z)) : forall best,
  let r := fold_left
             (fun '(bestDeck, bestCount) '(deckName, count) =>
                if bestCount <? count then (deckName, count) else (bestDeck, bestCount))
             deckMap best in
  (forall k n, In (k, n) deckMap -> n <= snd r)
  /\ snd best <= snd r
  /\ (r = best \/ In r deckMap).
Proof.
  induction deckMap as [|[deckName count] deckMap IH]; intros [bestDeck bestCount];
    simpl.
  - split; [intros ? ? []|]. split; [lia | now left].
  - destruct (Z.ltb_spec bestCount count) as [Hlt|Hge].
    + destruct (IH (deckName, count)) as (Hmax & Hle & Hr). simpl in Hle.
      split; [|split; [lia|]].
      * intros k n [[= <- <-]|Hin]; [exact Hle | exact (Hmax _ _ Hin)].
      * destruct Hr as [->|Hin]; right; [now left | now right].
    + destruct (IH (bestDeck, bestCount)) as (Hmax & Hle & Hr). simpl in Hle.
      split; [|split; [lia|]].
      * intros k n [[= <- <-]|Hin]; [lia | exact (Hmax _ _ Hin)].
      * destruct Hr as [->|Hin]; [now left | right; now right].
Qed.

Lemma bestDeckOf_max (deckMap : list (string * Z)) :
  deckMap <> [] ->
  (forall k n, In (k, n) deckMap -> 1 <= n) ->
  exists n,
    In (CreateGameComponent.bestDeckOf deckMap, n) deckMap
    /\ forall k' n', In (k', n') deckMap -> n' <= n.
Proof.
  intros Hne Hpos. unfold CreateGameComponent.bestDeckOf.
  destruct (bestDeck_fold_max deckMap ("", -1)) as (Hmax & _ & Hr).
  destruct (fold_left _ deckMap _) as [d n]. simpl in *.
  exists n. split; [|exact Hmax].
  destruct Hr as [[= -> ->]|Hin]; [|exact Hin].
  destruct deckMap as [|[k0 n0] deckMap]; [contradiction|].
  specialize (Hmax k0 n0 (or_introl eq_refl)).
  specialize (Hpos k0 n0 (or_introl eq_refl)). lia.
Qed.

Lemma favoritesOf_fold_get {K : Type} `{EqDecision K}
    (counts : list (K * list (string * Z))) : forall start p,
  NoDup (map fst counts) ->
  JsMap.get
    (fold_left
       (fun favorites '(playerKey, deckMap) =>
          let bestDeck := CreateGameComponent.bestDeckOf deckMap in
          if negb (String.eqb bestDeck "") then JsMap.set favorites playerKey bestDeck
          else favorites)
       counts start) p
  = match JsMap.get counts p with
    | Some deckMap =>
        if negb (String.eqb (CreateGameComponent.bestDeckOf deckMap) "")
        then Some (CreateGameComponent.bestDeckOf deckMap)
        else JsMap.get start p
    | None => JsMap.get start p
    end.
Proof.
  induction counts as [|[playerKey deckMap] counts IH]; intros start p Hn;
    [reflexivity|].
  simpl in Hn. apply NoDup_cons in Hn as [Hk Hn].
  cbn [fold_left JsMap.get]. rewrite IH by exact Hn. cbv zeta.
  destruct (decide (playerKey = p)) as [->|Hne].
  - assert (Hg : JsMap.get counts p = None).
    { destruct (JsMap.get counts p) as [dm|] eqn:Hg; [|reflexivity].
      exfalso. apply Hk. apply JsMap_get_In in Hg. apply list_elem_of_In.
      change p with (fst (p, dm)). now apply in_map. }
    rewrite Hg. destruct (negb _); [apply JsMap_get_set_eq | reflexivity].
  - assert (Hs : JsMap.get
                   (if negb (String.eqb (CreateGameComponent.bestDeckOf deckMap) "")
                    then JsMap.set start playerKey
                           (CreateGameComponent.bestDeckOf deckMap)
                    else start) p
                 = JsMap.get start p)
      by (destruct (negb _); [now apply JsMap_get_set_ne | reflexivity]).
    now rewrite Hs.
Qed.

Lemma byId_countsById matches :
  CreateGameComponent.byId (CreateGameComponent.buildFavoriteDeckMaps matches)
  = CreateGameComponent.favoritesOf
      (fold_left
         (fun counts m =>
            CreateGameComponent.bumpId counts (MatchService.playerID m)
              (MatchService.deckName m))
         matches []).
Proof.
  unfold CreateGameComponent.buildFavoriteDeckMaps.
  pose proof (countMatches_byId matches ([], [])) as Hs. cbn [snd] in Hs.
  rewrite <- Hs.
  now destruct (fold_left CreateGameComponent.countMatch matches ([], [])).
Qed.

(** The favourite of a key of a count map of the right shape. *)
Lemma favoritesOf_most_counted {K : Type} `{EqDecision K}
    (counts : list (K * list (string * Z))) (played : K -> string -> nat) key :
  countsOk counts ->
  (forall k, countOf counts key k = Z.of_nat (played key k)) ->
  (is_Some (JsMap.get (CreateGameComponent.favoritesOf counts) key)
   <-> exists deckKey, (0 < played key deckKey)%nat)
  /\ forall favorite,
       JsMap.get (CreateGameComponent.favoritesOf counts) key = Some favorite ->
       (0 < played key favorite)%nat
       /\ forall deckKey, (played key deckKey <= played key favorite)%nat.
Proof.
  intros [Hn Hok] Hc.
  unfold CreateGameComponent.favoritesOf. rewrite favoritesOf_fold_get by exact Hn.
  cbn [JsMap.get].
  destruct (JsMap.get counts key) as [dm|] eqn:Hg.
  - pose proof (JsMap_get_In _ _ _ Hg) as Hin.
    destruct (Hok _ _ Hin) as (Hne & Hnd & Hpos).
    destruct (bestDeckOf_max dm Hne) as (n & Hbest & Hmax);
      [intros k n Hk; exact (proj1 (Hpos k n Hk))|].
    destruct (Hpos _ _ Hbest) as [Hn1 Hbne].
    apply String.eqb_neq in Hbne. rewrite Hbne. cbn [negb].
    assert (Hfav : Z.of_nat (played key (CreateGameComponent.bestDeckOf dm)) = n).
    { rewrite <- Hc. unfold countOf. rewrite Hg. cbn [mbind option_bind].
      now rewrite (JsMap_In_get dm _ _ Hnd Hbest). }
    split.
    + split; [intros _; exists (CreateGameComponent.bestDeckOf dm); lia | eauto].
    + intros favorite [= <-]. split; [lia|]. intros k.
      apply Nat2Z.inj_le. rewrite Hfav, <- Hc. unfold countOf. rewrite Hg.
      cbn [mbind option_bind].
      destruct (JsMap.get dm k) as [n'|] eqn:Hk; simpl; [|lia].
      apply JsMap_get_In in Hk. exact (Hmax _ _ Hk).
  - split; [|discriminate]. split; [intros [? [=]]|].
    intros [k Hk]. exfalso.
    assert (Hz : countOf counts key k = 0) by (unfold countOf; now rewrite Hg).
    rewrite Hc in Hz. lia.
Qed.

(** X17. The favourite deck held for a player id is a most-played one: an
    id has a favourite exactly when some match of the history has it as
    primary player on a deck with a non-empty key, the favourite is the key
    of such a deck, and no deck key was played by that id more often. *)
Theorem favorite_by_id_most_played :
  forall matches pid,
    (is_Some (JsMap.get (CreateGameComponent.byId
                           (CreateGameComponent.buildFavoriteDeckMaps matches)) pid)
     <-> exists deckKey, (0 < playedById matches pid deckKey)%nat)
    /\ forall favorite,
         JsMap.get (CreateGameComponent.byId
                      (CreateGameComponent.buildFavoriteDeckMaps matches)) pid
         = Some favorite ->
         (0 < playedById matches pid favorite)%nat
         /\ forall deckKey,
              (playedById matches pid deckKey <= playedById matches pid favorite)%nat.
Proof.
  intros matches pid. rewrite byId_countsById.
  assert (H0 : countsOk ([] : list (Z * list (string * Z))))
    by (split; [constructor | intros ? ? []]).
  destruct (countsById_spec matches [] H0) as [Hok Hcount].
  apply (favoritesOf_most_counted _ (playedById matches) pid Hok).
  intros k. rewrite Hcount. reflexivity.
Qed.

Lemma bumpId_normalized counts playerId deckName :
  allDeckKeysNormalized counts ->
  allDeckKeysNormalized (CreateGameComponent.bumpId counts playerId deckName).
Proof.
  intros Hc. unfold CreateGameComponent.bumpId.
  destruct playerId as [p|]; [|exact Hc].
  destruct (negb _); [exact Hc|]. cbv zeta.
  destruct (String.eqb _ ""); [exact Hc|]. now apply bumpCount_normalized.
Qed.

Lemma byId_normalized matches k v :
  JsMap.get (CreateGameComponent.byId
               (CreateGameComponent.buildFavoriteDeckMaps matches)) k = Some v ->
  exists deck, v = CreateGameComponent.normalizeDeckKey deck.
Proof.
  rewrite byId_countsById.
  assert (Hn : forall counts : list (Z * list (string * Z)),
             allDeckKeysNormalized counts ->
             allDeckKeysNormalized
               (fold_left
                  (fun counts m =>
                     CreateGameComponent.bumpId counts (MatchService.playerID m)
                       (MatchService.deckName m))
                  matches counts)).
  { induction matches as [|m matches IH]; intros counts Hc; [exact Hc|].
    simpl. apply IH. now apply bumpId_normalized. }
  specialize (Hn [] ltac:(intros ? ? ? ? [])).
  intros Hg. apply JsMap_get_In in Hg.
  unfold CreateGameComponent.favoritesOf in Hg.
  apply favoritesOf_In in Hg as [[]|(deckMap & Hdm & -> & Hne)].
  destruct (bestDeckOf_In deckMap) as [He|[n Hin]]; [contradiction|].
  eapply Hn; [exact Hdm | exact Hin].
Qed.

Lemma favoriteDeckFor_normalized matches player favorite :
  CreateGameComponent.favoriteDeckFor
    (CreateGameComponent.buildFavoriteDeckMaps matches) player = Some favorite ->
  CreateGameComponent.normalizeDeckKey favorite = favorite.
Proof.
  unfold CreateGameComponent.favoriteDeckFor. cbv zeta. intros Hf.
  assert (Hd : exists deck, favorite = CreateGameComponent.normalizeDeckKey deck).
  { destruct (match CreateGameComponent.getPlayerId (Some player) with
              | Some pid => _ | None => None end) as [deck|] eqn:Hid.
    - injection Hf as <-.
      destruct (CreateGameComponent.getPlayerId (Some player)) as [pid|];
        [|discriminate].
      now apply byId_normalized in Hid.
    - destruct (negb _); [|discriminate]. now apply byName_normalized in Hf. }
  destruct Hd as [deck ->]. apply deckKey_fixed.
Qed.

Lemma updateSlot_players ss k b :
  map CreateGameComponent.playerIndex
      (CreateGameComponent.updateSlot ss k (CreateGameComponent.mkPatch None b None))
  = map CreateGameComponent.playerIndex ss.
Proof.
  apply list_eq. intros i. rewrite !list_lookup_fmap, updateSlot_lookup.
  destruct (ss !! i) as [slot|]; [|reflexivity]. simpl.
  destruct (decide (i = k)); reflexivity.
Qed.

Lemma updateSlot_other ss k p j :
  j <> k -> CreateGameComponent.updateSlot ss k p !! j = ss !! j.
Proof.
  intros Hne. rewrite updateSlot_lookup.
  destruct (ss !! j); [|reflexivity]. simpl. now rewrite decide_False.
Qed.

(** X18. Deck auto-selection for a slot leaves the loaded players and decks,
    the format, the history, every other slot, and all players and results
    of the form as they are.  When it changes the slot's deck, the slot's
    player has a favourite deck key in the history, and the new deck is the
    first loaded deck whose label normalizes to that key. *)
Theorem auto_deck_picks_first_matching :
  forall f i f',
    CreateGameComponent.applyAutoDeckForSlot f i = Some f' ->
    let st := CreateGameComponent.formState f in
    let st' := CreateGameComponent.formState f' in
    CreateGameComponent.matches f' = CreateGameComponent.matches f
    /\ CreateGameComponent.players st' = CreateGameComponent.players st
    /\ CreateGameComponent.decks st' = CreateGameComponent.decks st
    /\ CreateGameComponent.gameFormat st' = CreateGameComponent.gameFormat st
    /\ map CreateGameComponent.playerIndex (CreateGameComponent.slots st')
       = map CreateGameComponent.playerIndex (CreateGameComponent.slots st)
    /\ map CreateGameComponent.result (CreateGameComponent.slots st')
       = map CreateGameComponent.result (CreateGameComponent.slots st)
    /\ (forall j, j <> i ->
          CreateGameComponent.slots st' !! j = CreateGameComponent.slots st !! j)
    /\ (forall slot slot',
          CreateGameComponent.slots st !! i = Some slot ->
          CreateGameComponent.slots st' !! i = Some slot' ->
          CreateGameComponent.deckIndex slot' = CreateGameComponent.deckIndex slot
          \/ exists p player favorite d deck,
               CreateGameComponent.playerIndex slot = Some p
               /\ CreateGameComponent.players st !! p = Some player
               /\ CreateGameComponent.favoriteDeckFor
                    (CreateGameComponent.buildFavoriteDeckMaps
                       (CreateGameComponent.matches f)) player = Some favorite
               /\ CreateGameComponent.deckIndex slot' = Some d
               /\ CreateGameComponent.decks st !! d = Some deck
               /\ CreateGameComponent.normalizeDeckKey
                    (CreateGameComponent.deckLabel deck "") = favorite
               /\ forall d' deck',
                    CreateGameComponent.decks st !! d' = Some deck' ->
                    (d' < d)%nat ->
                    CreateGameComponent.normalizeDeckKey
                      (CreateGameComponent.deckLabel deck' "") <> favorite).
Proof.
  intros f i f' Ha st st'.
  assert (Hsame : f' = f ->
            CreateGameComponent.matches f' = CreateGameComponent.matches f
            /\ CreateGameComponent.players st' = CreateGameComponent.players st
            /\ CreateGameComponent.decks st' = CreateGameComponent.decks st
            /\ CreateGameComponent.gameFormat st' = CreateGameComponent.gameFormat st
            /\ map CreateGameComponent.playerIndex (CreateGameComponent.slots st')
               = map CreateGameComponent.playerIndex (CreateGameComponent.slots st)
            /\ map CreateGameComponent.result (CreateGameComponent.slots st')
               = map CreateGameComponent.result (CreateGameComponent.slots st)
            /\ (forall j, j <> i ->
                  CreateGameComponent.slots st' !! j
                  = CreateGameComponent.slots st !! j)
            /\ (forall slot slot',
                  CreateGameComponent.slots st !! i = Some slot ->
                  CreateGameComponent.slots st' !! i = Some slot' ->
                  CreateGameComponent.deckIndex slot'
                  = CreateGameComponent.deckIndex slot
                  \/ exists p player favorite d deck,
                       CreateGameComponent.playerIndex slot = Some p
                       /\ CreateGameComponent.players st !! p = Some player
                       /\ CreateGameComponent.favoriteDeckFor
                            (CreateGameComponent.buildFavoriteDeckMaps
                               (CreateGameComponent.matches f)) player
                          = Some favorite
                       /\ CreateGameComponent.deckIndex slot' = Some d
                       /\ CreateGameComponent.decks st !! d = Some deck
                       /\ CreateGameComponent.normalizeDeckKey
                            (CreateGameComponent.deckLabel deck "") = favorite
                       /\ forall d' deck',
                            CreateGameComponent.decks st !! d' = Some deck' ->
                            (d' < d)%nat ->
                            CreateGameComponent.normalizeDeckKey
                              (CreateGameComponent.deckLabel deck' "") <> favorite)).
  { intros Hf. subst st st'. rewrite Hf. repeat (split; [reflexivity|]).
    intros slot slot' H1 H2. left. congruence. }
  subst st st'. remember (CreateGameComponent.formState f) as st eqn:Hst.
  revert Ha. unfold CreateGameComponent.applyAutoDeckForSlot. rewrite <- Hst.
  destruct (CreateGameComponent.slots st !! i) as [slot|] eqn:Hslot;
    [|intros [= <-]; now apply Hsame].
  destruct (CreateGameComponent.playerIndex slot) as [p|] eqn:Hp;
    [|intros [= <-]; now apply Hsame].
  destruct (CreateGameComponent.players st !! p) as [player|] eqn:Hplayer;
    [|discriminate].
  cbv zeta.
  destruct (CreateGameComponent.favoriteDeckFor _ player) as [favorite|] eqn:Hfav;
    [|intros [= <-]; now apply Hsame].
  destruct (negb (Js.truthyStr (Some favorite)));
    [intros [= <-]; now apply Hsame|].
  cbn [default from_option id].
  rewrite (favoriteDeckFor_normalized _ _ _ Hfav).
  destruct (list_find _ _) as [[d deck]|] eqn:Hfind.
  - clear Hsame. intros [= <-].
    cbn [CreateGameComponent.formState CreateGameComponent.matches
         CreateGameComponent.withSlots CreateGameComponent.players
         CreateGameComponent.decks CreateGameComponent.gameFormat
         CreateGameComponent.slots].
    repeat (split; [reflexivity|]).
    split; [apply updateSlot_players|]. split; [apply updateSlot_results|].
    split; [intros j Hj; now apply updateSlot_other|].
    intros slot0 slot' [= <-] H'.
    rewrite updateSlot_lookup, Hslot in H'. simpl in H'.
    rewrite decide_True in H' by reflexivity. injection H' as <-.
    right. exists p, player, favorite, d, deck.
    apply list_find_Some in Hfind as (Hd & Hkey & Hfirst).
    repeat (split; [first [reflexivity | assumption]|]).
    intros d' deck' Hd' Hlt. exact (Hfirst d' deck' Hd' Hlt).
  - clear Hsame. intros [= <-].
    cbn [CreateGameComponent.formState CreateGameComponent.matches].
    repeat (split; [reflexivity|]).
    intros slot0 slot' H1 H2. left. congruence.
Qed.

Lemma auto_deck_picks_first_matching_witness :
  exists f',
    CreateGameComponent.applyAutoDeckForSlot bobForm 1 = Some f'
    /\ map CreateGameComponent.deckIndex
           (CreateGameComponent.slots (CreateGameComponent.formState f'))
       = [None; Some 1%nat; None; None]
    /\ map CreateGameComponent.result
           (CreateGameComponent.slots (CreateGameComponent.formState f'))
       = [ CreateGameComponent.Empty; CreateGameComponent.Loss;
           CreateGameComponent.Empty; CreateGameComponent.Empty ].
Proof.
  eexists. split; [vm_compute; reflexivity|]. split; [reflexivity|].
  refine (proj1 (proj2 (proj2 (proj2 (proj2 (proj2
            (auto_deck_picks_first_matching bobForm 1 _ _))))))).
  vm_compute; reflexivity.
Defined.

Lemma bumpName_countOf counts e key k :
  countOf (CreateGameComponent.bumpName counts (fst e) (snd e)) key k
  = countOf counts key k
    + (if decide (countedName e = Some (key, k)) then 1 else 0).
Proof.
  unfold CreateGameComponent.bumpName, countedName.
  destruct (_ || _)%bool; [rewrite decide_False by discriminate; lia|].
  cbv zeta.
  generalize (Js.toLowerCase (Js.trim (default "" (fst e))))
             (CreateGameComponent.normalizeDeckKey (default "" (snd e))).
  intros nameKey deckKey.
  destruct (_ || _)%bool; [rewrite decide_False by discriminate; lia|].
  rewrite bumpCount_countOf. f_equal.
  destruct (decide (nameKey = key /\ deckKey = k)) as [[-> ->]|Hne].
  - now rewrite decide_True.
  - rewrite decide_False; [reflexivity|]. intros [= -> ->]. tauto.
Qed.

Lemma bumpName_ok counts playerName deckName :
  countsOk counts -> countsOk (CreateGameComponent.bumpName counts playerName deckName).
Proof.
  intros Hc. unfold CreateGameComponent.bumpName.
  destruct (_ || _)%bool; [exact Hc|]. cbv zeta.
  destruct (String.eqb (Js.toLowerCase _) ""); [exact Hc|]. cbn [orb].
  destruct (String.eqb _ "") eqn:He; [exact Hc|].
  apply bumpCount_ok; [|exact Hc]. now apply String.eqb_neq.
Qed.

Lemma countMatch_byName acc m :
  fst (CreateGameComponent.countMatch acc m)
  = fold_left (fun counts e => CreateGameComponent.bumpName counts (fst e) (snd e))
      (nameEvents m) (fst acc).
Proof.
  destruct acc as [countsByName countsById]. unfold nameEvents.
  cbn [CreateGameComponent.countMatch fst].
  now destruct (negb (Js.truthy (Js.optNum (MatchService.playerID m)))).
Qed.

Lemma countMatches_byName matches : forall acc,
  fst (fold_left CreateGameComponent.countMatch matches acc)
  = fold_left (fun counts e => CreateGameComponent.bumpName counts (fst e) (snd e))
      (flat_map nameEvents matches) (fst acc).
Proof.
  induction matches as [|m matches IH]; intros acc; [reflexivity|].
  cbn [fold_left flat_map]. rewrite IH, countMatch_byName, fold_left_app.
  reflexivity.
Qed.

Lemma countsByName_spec events : forall counts,
  countsOk counts ->
  let counts' :=
    fold_left (fun counts e => CreateGameComponent.bumpName counts (fst e) (snd e))
      events counts in
  countsOk counts'
  /\ forall key k,
       countOf counts' key k
       = countOf counts key k
         + Z.of_nat (length (filter (fun e => countedName e = Some (key, k)) events)).
Proof.
  induction events as [|e events IH]; intros counts Hc; simpl.
  - split; [exact Hc|]. intros. lia.
  - destruct (IH _ (bumpName_ok counts (fst e) (snd e) Hc)) as [Hok Hcount].
    split; [exact Hok|]. intros key k. rewrite Hcount, bumpName_countOf.
    rewrite filter_cons. destruct (decide (_ = _)); simpl length; lia.
Qed.

Lemma byName_countsByName matches :
  CreateGameComponent.byName (CreateGameComponent.buildFavoriteDeckMaps matches)
  = CreateGameComponent.favoritesOf
      (fold_left
         (fun counts e => CreateGameComponent.bumpName counts (fst e) (snd e))
         (flat_map nameEvents matches) []).
Proof.
  unfold CreateGameComponent.buildFavoriteDeckMaps.
  pose proof (countMatches_byName matches ([], [])) as Hs. cbn [fst] in Hs.
  rewrite <- Hs.
  now destruct (fold_left CreateGameComponent.countMatch matches ([], [])).
Qed.

(** X19. The favourite deck held for a player name is a most-counted one.
    The history counts, under the trimmed lower-case name, the winner's deck
    of a match without a usable player id and every opponent's deck; a name
    key has a favourite exactly when some pair is counted under it, and no
    deck key is counted more often under that name than the favourite. *)
Theorem favorite_by_name_most_played :
  forall matches nameKey,
    (is_Some (JsMap.get (CreateGameComponent.byName
                           (CreateGameComponent.buildFavoriteDeckMaps matches))
                nameKey)
     <-> exists deckKey, (0 < playedByName matches nameKey deckKey)%nat)
    /\ forall favorite,
         JsMap.get (CreateGameComponent.byName
                      (CreateGameComponent.buildFavoriteDeckMaps matches)) nameKey
         = Some favorite ->
         (0 < playedByName matches nameKey favorite)%nat
         /\ forall deckKey,
              (playedByName matches nameKey deckKey
               <= playedByName matches nameKey favorite)%nat.
Proof.
  intros matches nameKey. rewrite byName_countsByName.
  assert (H0 : countsOk ([] : list (string * list (string * Z))))
    by (split; [constructor | intros ? ? []]).
  destruct (countsByName_spec (flat_map nameEvents matches) [] H0) as [Hok Hcount].
  apply (favoritesOf_most_counted _ (playedByName matches) nameKey Hok).
  intros k. rewrite Hcount. reflexivity.
Qed.

(* ===================================================================== *)
(** ** Win percentage *)
(* ===================================================================== *)



